(** * MSIG declaration generator: extraction, aggregation, reconciliation

    A shallow embedding of the Python sources
    - [models/shipment.py]        (records, enums, [validate],
                                   [TransportMode.from_string])
    - [utils/helpers.py]          ([extract_pdo_numbers],
                                   [extract_itr_number], the two
                                   normalisations)
    - [parsers/sap_parser.py]     ([match_pdo_to_filename])
    - [reconciliation.py]         ([ReconciliationEngine],
                                   [merge_sap_into_shipment])
    - [extractors/vision_extractor.py]
                                  ([_parse_response], the brand codes of
                                   [_parse_inbound_response],
                                   [DocumentAggregator])
    - [classifiers/product_classifier.py]
                                  ([ProductClassifier], [to_string])
    - [pipeline.py]               ([_create_inbound_shipment],
                                   [_create_outbound_shipment])
    followed by the properties established about them.

    Conventions.  Python [str] is [string]: a text of code points below
    256, on which the character classes, [lower], [strip] and the classes
    of [re] are Python's; [upper] is Python's on ASCII text only, and the
    regular expressions are those of the rule tables (see [PyText] and
    [Re]), so that the statements that depend on either say so in a
    hypothesis.  [float] is IEEE-754 binary64, taken from the Standard Library's executable
    specification [SpecFloat]; [Optional[T]] is [option T]; a [dict] whose
    iteration order the code observes is an insertion-ordered association
    list; a method that assigns to [self] returns the updated record next
    to its result. *)

From Stdlib Require Import ZArith List Bool String Ascii Lia.
From Stdlib Require Import Floats.SpecFloat.
From Stdlib Require Import Sorting.Sorted.
Import ListNotations.

Local Open Scope string_scope.
Local Open Scope list_scope.

(* ================================================================== *)
(** * Python primitives *)
(* ================================================================== *)

(** ** Characters and strings *)

Module Py.

Definition code (c : ascii) : nat := nat_of_ascii c.

Definition between (lo hi : nat) (c : ascii) : bool :=
  (lo <=? code c)%nat && (code c <=? hi)%nat.

(** A character is a code point below 256, and the classes are Python's
    on those code points.  [isdigit] is the class [\d] of [re] (and
    [str.isdecimal]); [isdigit_str] is [str.isdigit], which also accepts
    the superscripts; [isupper] and [islower] are the letters A to Z and
    a to z. *)
Definition isdigit (c : ascii) : bool := between 48 57 c.
Definition isupper (c : ascii) : bool := between 65 90 c.
Definition islower (c : ascii) : bool := between 97 122 c.

Definition isdigit_str (c : ascii) : bool :=
  isdigit c || between 178 179 c || between 185 185 c.

(** [str.isalpha]: the letters of ASCII and of the Latin-1 supplement. *)
Definition isalpha (c : ascii) : bool :=
  isupper c || islower c
  || between 170 170 c || between 181 181 c || between 186 186 c
  || between 192 214 c || between 216 246 c || between 248 255 c.

(** [str.isalnum]: a letter, a digit or one of the three fractions. *)
Definition isalnum (c : ascii) : bool :=
  isalpha c || isdigit_str c || between 188 190 c.

(** [str.isspace], the characters that [str.strip] removes and the class
    [\s] of [re]. *)
Definition isspace (c : ascii) : bool :=
  between 9 13 c || between 28 32 c
  || between 133 133 c || between 160 160 c.

(** The class [\w] of the [re] module. *)
Definition isword (c : ascii) : bool := isalnum c || Ascii.eqb c "_".

(** [str.lower] on one character: the capitals of ASCII and of the
    Latin-1 supplement move up by 32. *)
Definition lower_char (c : ascii) : ascii :=
  if isupper c || between 192 214 c || between 216 222 c
  then ascii_of_nat (code c + 32) else c.

Fixpoint lower (s : string) : string :=
  match s with
  | EmptyString => EmptyString
  | String c r => String (lower_char c) (lower r)
  end.

Fixpoint lstrip (s : string) : string :=
  match s with
  | String c r => if isspace c then lstrip r else s
  | EmptyString => EmptyString
  end.

Fixpoint rstrip (s : string) : string :=
  match s with
  | EmptyString => EmptyString
  | String c r =>
      match rstrip r with
      | EmptyString => if isspace c then EmptyString else String c EmptyString
      | r' => String c r'
      end
  end.

Definition strip (s : string) : string := rstrip (lstrip s).

(** [needle in hay] for two strings. *)
Fixpoint contains (needle hay : string) : bool :=
  String.prefix needle hay
  || match hay with
     | EmptyString => false
     | String _ r => contains needle r
     end.

(** Truthiness of a [str], of an [Optional[str]] and of a container. *)
Definition truthy_str (s : string) : bool := negb (s =? "").

Definition truthy_ostr (o : option string) : bool :=
  match o with
  | Some s => truthy_str s
  | None => false
  end.

Definition truthy_list {A} (l : list A) : bool :=
  match l with [] => false | _ :: _ => true end.

Definition is_none {A} (o : option A) : bool :=
  match o with None => true | Some _ => false end.

(** [s1 < s2] on strings: lexicographic on code points. *)
Definition str_lt (s1 s2 : string) : bool := String.ltb s1 s2.

(** [list(dict.fromkeys(l))]: duplicates dropped, first occurrences kept. *)
Fixpoint dedup (l : list string) : list string :=
  match l with
  | [] => []
  | x :: r => x :: filter (fun y => negb (y =? x)) (dedup r)
  end.

Definition mem (x : string) (l : list string) : bool :=
  existsb (String.eqb x) l.

(** [sorted(l)] on strings, by insertion. *)
Fixpoint insert_sorted (x : string) (l : list string) : list string :=
  match l with
  | [] => [x]
  | y :: r => if String.leb x y then x :: l else y :: insert_sorted x r
  end.

Definition sorted (l : list string) : list string :=
  fold_right insert_sorted [] l.

End Py.

(** ** Floating point: IEEE-754 binary64 *)

Module Float.

Definition prec : Z := 53.
Definition emax : Z := 1024.

Definition float : Type := spec_float.

(** [float(z)] for an integer [z]. *)
Definition of_Z (z : Z) : float := binary_normalize prec emax z 0 false.

Definition add : float -> float -> float := SFadd prec emax.
Definition sub : float -> float -> float := SFsub prec emax.
Definition mul : float -> float -> float := SFmul prec emax.
Definition div : float -> float -> float := SFdiv prec emax.
Definition abs : float -> float := SFabs.
Definition ltb : float -> float -> bool := SFltb.
Definition leb : float -> float -> bool := SFleb.
Definition eqb : float -> float -> bool := SFeqb.

(** The literal written [num/den] in decimal (for instance [lit 1 100]
    for [0.01]): the binary64 number nearest to the quotient. *)
Definition lit (num den : Z) : float := div (of_Z num) (of_Z den).

(** [bool(x)]: every float but the two zeros is true. *)
Definition truthy (x : float) : bool :=
  match x with
  | S754_zero _ => false
  | _ => true
  end.

Definition truthy_opt (o : option float) : bool :=
  match o with
  | Some x => truthy x
  | None => false
  end.

(** [sum(values)]: a left fold of [+] from the integer [0]. *)
Definition sum (l : list float) : float := fold_left add l (of_Z 0).

End Float.

(** ** Formatted strings

    An f-string is kept as the sequence of its parts; a float field keeps
    the number of decimals of its [:.Nf] specification. *)

Inductive fpart : Type :=
| FStr (s : string)
| FInt (n : Z)
| FFix (decimals : nat) (x : Float.float).

Definition fstring : Type := list fpart.

Definition plain (s : string) : fstring := [FStr s].

(* ================================================================== *)
(** * models/shipment.py *)
(* ================================================================== *)

Module TransportMode.

Inductive t : Type :=
| COURIER | AIR | SEA | TRUCK | UNKNOWN.

Definition value (m : t) : string :=
  match m with
  | COURIER => "COURIER"
  | AIR => "AIR"
  | SEA => "SEA"
  | TRUCK => "TRUCK"
  | UNKNOWN => "UNKNOWN"
  end.

Definition eqb (a b : t) : bool := value a =? value b.

End TransportMode.

Module DocumentType.

Inductive t : Type :=
| COURIER_LABEL | AIR_WAYBILL | COMMERCIAL_INVOICE | PACKING_LIST
| CARGO_PERMIT | SHIPMENT_REPORT | PURCHASE_ORDER | BILL_OF_LADING
| OTHER | UNKNOWN.

Definition value (d : t) : string :=
  match d with
  | COURIER_LABEL => "COURIER_LABEL"
  | AIR_WAYBILL => "AIR_WAYBILL"
  | COMMERCIAL_INVOICE => "COMMERCIAL_INVOICE"
  | PACKING_LIST => "PACKING_LIST"
  | CARGO_PERMIT => "CARGO_PERMIT"
  | SHIPMENT_REPORT => "SHIPMENT_REPORT"
  | PURCHASE_ORDER => "PURCHASE_ORDER"
  | BILL_OF_LADING => "BILL_OF_LADING"
  | OTHER => "OTHER"
  | UNKNOWN => "UNKNOWN"
  end.

Definition eqb (a b : t) : bool := value a =? value b.

End DocumentType.

Module ExtractionConfidence.

Inductive t : Type :=
| HIGH | MEDIUM | LOW.

Definition value (c : t) : string :=
  match c with
  | HIGH => "HIGH"
  | MEDIUM => "MEDIUM"
  | LOW => "LOW"
  end.

(** [ExtractionConfidence(s)]: [None] stands for the [ValueError]. *)
Definition of_value (s : string) : option t :=
  if s =? "HIGH" then Some HIGH
  else if s =? "MEDIUM" then Some MEDIUM
  else if s =? "LOW" then Some LOW
  else None.

End ExtractionConfidence.

Module ValidationSeverity.

Inductive t : Type :=
| ERROR | WARNING | INFO.

Definition value (v : t) : string :=
  match v with
  | ERROR => "ERROR"
  | WARNING => "WARNING"
  | INFO => "INFO"
  end.

Definition eqb (a b : t) : bool := value a =? value b.

End ValidationSeverity.

(** [datetime.date]: always true as a condition. *)
Record date : Type := mk_date { year : Z; month : Z; day : Z }.

Record ValidationIssue : Type := mk_issue {
  severity : ValidationSeverity.t;
  field : string;
  message : fstring;
  suggestion : option string
}.

Definition is_error (i : ValidationIssue) : bool :=
  ValidationSeverity.eqb (severity i) ValidationSeverity.ERROR.

(** A [Dict[str, float]] in insertion order. *)
Definition splits : Type := list (string * Float.float).

Definition values (d : splits) : list Float.float := map snd d.

Module ExtractionResult.

Record t : Type := mk {
  document_type : DocumentType.t;
  confidence : ExtractionConfidence.t;
  tracking_or_awb : option string;
  ship_date : option date;
  mode : option TransportMode.t;
  flight_numbers : list string;
  origin_country : option string;
  destination_country : option string;
  incoterms : option string;
  currency : option string;
  total_value : option Float.float;
  carrier : option string;
  vessel_info : option string;
  container_number : option string;
  brand_codes : list string;
  page_number : Z;
  raw_response : string;
  notes : string;
  extraction_errors : list string
}.

(** The constructor call with only the keyword arguments that the
    failure paths pass; every other field takes its default. *)
Definition failed (page : Z) (raw : string) (errors : list string) : t :=
  {| document_type := DocumentType.UNKNOWN;
     confidence := ExtractionConfidence.LOW;
     tracking_or_awb := None;
     ship_date := None;
     mode := None;
     flight_numbers := [];
     origin_country := None;
     destination_country := None;
     incoterms := None;
     currency := None;
     total_value := None;
     carrier := None;
     vessel_info := None;
     container_number := None;
     brand_codes := [];
     page_number := page;
     raw_response := raw;
     notes := "";
     extraction_errors := errors |}.

End ExtractionResult.

Module SAPPDOData.

Record t : Type := mk {
  pdo_number : string;
  brands : list string;
  currency : string;
  total_value : Float.float;
  country_splits : splits;
  source_file : string;
  sheet_name : string;
  row_count : Z
}.

Definition validate (self : t) : list ValidationIssue :=
  let issues := [] in
  let issues :=
    if Py.truthy_list (country_splits self) then
      let splits_sum := Float.sum (values (country_splits self)) in
      if Float.ltb (Float.lit 1 100)
                   (Float.abs (Float.sub splits_sum (total_value self)))
      then issues ++
           [ {| severity := ValidationSeverity.ERROR;
                field := "country_splits";
                message := [FStr "Splits ("; FFix 2 splits_sum;
                            FStr ") don't sum to total (";
                            FFix 2 (total_value self); FStr ")"];
                suggestion := Some "Check SAP export for missing rows" |} ]
      else issues
    else issues in
  let issues :=
    if negb (Py.truthy_list (brands self)) then
      issues ++
      [ {| severity := ValidationSeverity.WARNING;
           field := "brands";
           message := plain "No brand information found";
           suggestion := Some "Brand column may be missing or empty" |} ]
    else issues in
  issues.

End SAPPDOData.

Module InboundShipment.

Record t : Type := mk {
  reference : string;
  etd_date : option date;
  tracking_or_awb : option string;
  incoterms : option string;
  mode : TransportMode.t;
  flight_vessel : option string;
  origin_country : option string;
  destination_country : string;
  brands : list string;
  description : option string;
  currency : option string;
  total_value : option Float.float;
  country_splits : splits;
  source_files : list string;
  extraction_confidence : ExtractionConfidence.t;
  validation_issues : list ValidationIssue;
  user_modified_fields : list string
}.

Definition set_validation_issues (self : t) (v : list ValidationIssue) : t :=
  {| reference := reference self; etd_date := etd_date self;
     tracking_or_awb := tracking_or_awb self; incoterms := incoterms self;
     mode := mode self; flight_vessel := flight_vessel self;
     origin_country := origin_country self;
     destination_country := destination_country self;
     brands := brands self; description := description self;
     currency := currency self; total_value := total_value self;
     country_splits := country_splits self;
     source_files := source_files self;
     extraction_confidence := extraction_confidence self;
     validation_issues := v;
     user_modified_fields := user_modified_fields self |}.

Definition set_currency (self : t) (v : option string) : t :=
  {| reference := reference self; etd_date := etd_date self;
     tracking_or_awb := tracking_or_awb self; incoterms := incoterms self;
     mode := mode self; flight_vessel := flight_vessel self;
     origin_country := origin_country self;
     destination_country := destination_country self;
     brands := brands self; description := description self;
     currency := v; total_value := total_value self;
     country_splits := country_splits self;
     source_files := source_files self;
     extraction_confidence := extraction_confidence self;
     validation_issues := validation_issues self;
     user_modified_fields := user_modified_fields self |}.

Definition set_total_value (self : t) (v : option Float.float) : t :=
  {| reference := reference self; etd_date := etd_date self;
     tracking_or_awb := tracking_or_awb self; incoterms := incoterms self;
     mode := mode self; flight_vessel := flight_vessel self;
     origin_country := origin_country self;
     destination_country := destination_country self;
     brands := brands self; description := description self;
     currency := currency self; total_value := v;
     country_splits := country_splits self;
     source_files := source_files self;
     extraction_confidence := extraction_confidence self;
     validation_issues := validation_issues self;
     user_modified_fields := user_modified_fields self |}.

Definition set_brands (self : t) (v : list string) : t :=
  {| reference := reference self; etd_date := etd_date self;
     tracking_or_awb := tracking_or_awb self; incoterms := incoterms self;
     mode := mode self; flight_vessel := flight_vessel self;
     origin_country := origin_country self;
     destination_country := destination_country self;
     brands := v; description := description self;
     currency := currency self; total_value := total_value self;
     country_splits := country_splits self;
     source_files := source_files self;
     extraction_confidence := extraction_confidence self;
     validation_issues := validation_issues self;
     user_modified_fields := user_modified_fields self |}.

Definition set_country_splits (self : t) (v : splits) : t :=
  {| reference := reference self; etd_date := etd_date self;
     tracking_or_awb := tracking_or_awb self; incoterms := incoterms self;
     mode := mode self; flight_vessel := flight_vessel self;
     origin_country := origin_country self;
     destination_country := destination_country self;
     brands := brands self; description := description self;
     currency := currency self; total_value := total_value self;
     country_splits := v;
     source_files := source_files self;
     extraction_confidence := extraction_confidence self;
     validation_issues := validation_issues self;
     user_modified_fields := user_modified_fields self |}.

(** [sum(c.isdigit() for c in s)] *)
Fixpoint digit_count (s : string) : Z :=
  match s with
  | EmptyString => 0
  | String c r => ((if Py.isdigit_str c then 1 else 0) + digit_count r)%Z
  end.

(** The list that [validate] builds, before it is stored and returned. *)
Definition issues_of (self : t) : list ValidationIssue :=
  let issues := [] in
  let issues :=
    if negb (Py.truthy_ostr (tracking_or_awb self)) then
      issues ++
      [ {| severity := ValidationSeverity.WARNING; field := "tracking_or_awb";
           message := plain "Missing tracking number or AWB";
           suggestion := Some "Check shipping label or air waybill" |} ]
    else issues in
  let issues :=
    if Py.is_none (etd_date self) then
      issues ++
      [ {| severity := ValidationSeverity.WARNING; field := "etd_date";
           message := plain "Missing ship date";
           suggestion := Some "Check shipping label date field" |} ]
    else issues in
  let issues :=
    match mode self with
    | TransportMode.COURIER =>
        let issues :=
          if Py.truthy_ostr (flight_vessel self) then
            issues ++
            [ {| severity := ValidationSeverity.INFO; field := "flight_vessel";
                 message :=
                   plain "COURIER mode typically doesn't have flight info";
                 suggestion := Some "Verify mode is correct" |} ]
          else issues in
        match tracking_or_awb self with
        | Some tr =>
            if Py.truthy_str tr then
              let n := digit_count tr in
              if (n <? 10)%Z then
                issues ++
                [ {| severity := ValidationSeverity.WARNING; field := "tracking_or_awb";
                     message := [FStr "Tracking number has only "; FInt n;
                                 FStr " digits (expected 12+)"];
                     suggestion :=
                       Some "Verify this is the tracking number, not a reference code" |} ]
              else issues
            else issues
        | None => issues
        end
    | TransportMode.AIR =>
        if negb (Py.truthy_ostr (flight_vessel self)) then
          issues ++
          [ {| severity := ValidationSeverity.WARNING; field := "flight_vessel";
               message := plain "AIR mode typically should have flight number";
               suggestion := Some "Check air waybill for flight info" |} ]
        else issues
    | _ => issues
    end in
  let issues :=
    match total_value self with
    | Some total =>
        if Py.truthy_list (country_splits self) && Float.truthy total then
          let splits_sum := Float.sum (values (country_splits self)) in
          if Float.ltb (Float.lit 1 100)
                       (Float.abs (Float.sub splits_sum total))
          then issues ++
               [ {| severity := ValidationSeverity.ERROR; field := "country_splits";
                    message := [FStr "Country splits ("; FFix 2 splits_sum;
                                FStr ") don't match total (";
                                FFix 2 total; FStr ")"];
                    suggestion :=
                      Some "Verify SAP data or manually adjust splits" |} ]
          else issues
        else issues
    | None => issues
    end in
  issues.

(** [validate]: the issues are assigned to [self.validation_issues] and
    returned. *)
Definition validate (self : t) : list ValidationIssue * t :=
  let issues := issues_of self in
  (issues, set_validation_issues self issues).

Definition has_errors (self : t) : bool :=
  existsb is_error (validation_issues self).

End InboundShipment.

Module OutboundShipment.

Record t : Type := mk {
  invoice_number : string;
  date_ : option date;
  flight_vehicle : option string;
  mode : TransportMode.t;
  destination : option string;
  description : option string;
  currency : option string;
  value : option Float.float;
  origin : string;
  fcl_lcl : string;
  awb_file : option string;
  invoice_file : option string;
  extraction_confidence : ExtractionConfidence.t;
  validation_issues : list ValidationIssue
}.

Definition set_validation_issues (self : t) (v : list ValidationIssue) : t :=
  {| invoice_number := invoice_number self; date_ := date_ self;
     flight_vehicle := flight_vehicle self; mode := mode self;
     destination := destination self; description := description self;
     currency := currency self; value := value self;
     origin := origin self; fcl_lcl := fcl_lcl self;
     awb_file := awb_file self; invoice_file := invoice_file self;
     extraction_confidence := extraction_confidence self;
     validation_issues := v |}.

(** [not self.value or self.value <= 0] *)
Definition value_missing_or_invalid (v : option Float.float) : bool :=
  match v with
  | None => true
  | Some x => negb (Float.truthy x) || Float.leb x (Float.of_Z 0)
  end.

Definition issues_of (self : t) : list ValidationIssue :=
  let issues := [] in
  let issues :=
    if negb (Py.truthy_str (invoice_number self)) then
      issues ++
      [ {| severity := ValidationSeverity.ERROR; field := "invoice_number";
           message := plain "Missing invoice number";
           suggestion := Some "Check invoice document" |} ]
    else issues in
  let issues :=
    if negb (Py.truthy_ostr (currency self)) then
      issues ++
      [ {| severity := ValidationSeverity.WARNING; field := "currency";
           message := plain "Missing currency";
           suggestion := Some "Check invoice for currency" |} ]
    else issues in
  let issues :=
    if value_missing_or_invalid (value self) then
      issues ++
      [ {| severity := ValidationSeverity.WARNING; field := "value";
           message := plain "Missing or invalid value";
           suggestion := Some "Check invoice total" |} ]
    else issues in
  issues.

Definition validate (self : t) : list ValidationIssue * t :=
  let issues := issues_of self in
  (issues, set_validation_issues self issues).

End OutboundShipment.

(* ================================================================== *)
(** * extractors/vision_extractor.py *)
(* ================================================================== *)

(** A call either returns or raises; the exception is kept as its text,
    [str(e)]. *)
Inductive outcome (A : Type) : Type :=
| Returned (a : A)
| Raised (exn : string).

Arguments Returned {A} a.
Arguments Raised {A} exn.

(** The values [json.loads] builds. *)
#[warnings="-register-all"]
Inductive json : Type :=
| JNull
| JBool (b : bool)
| JInt (z : Z)
| JFloat (x : Float.float)
| JStr (s : string)
| JList (l : list json)
| JDict (d : list (string * json)).

Definition json_dict : Type := list (string * json).

(** [data.get(key, default)] *)
Fixpoint dict_get (data : json_dict) (key : string) (default : json) : json :=
  match data with
  | [] => default
  | (k, v) :: rest => if k =? key then v else dict_get rest key default
  end.

(** What [json.loads] does with a text: a dictionary, or
    [json.JSONDecodeError] with its message.  The text given to it below
    always starts with an opening brace, so a decoded value is a
    dictionary. *)
Inductive loads_result : Type :=
| Loaded (data : json_dict)
| JSONDecodeError (e : string).

Module VisionExtractor.

(** [re.search(r'\{[\s\S]*\}', raw)]: the match starts at the first
    opening brace and, the star being greedy, ends at the last closing
    brace after it. *)
Fixpoint from_first_open (s : string) : option string :=
  match s with
  | EmptyString => None
  | String c r => if Ascii.eqb c "{" then Some s else from_first_open r
  end.

Fixpoint upto_last_close (s : string) : option string :=
  match s with
  | EmptyString => None
  | String c r =>
      match upto_last_close r with
      | Some p => Some (String c p)
      | None => if Ascii.eqb c "}" then Some (String c EmptyString) else None
      end
  end.

Definition json_match (raw_response : string) : option string :=
  match from_first_open raw_response with
  | Some s => upto_last_close s
  | None => None
  end.

Section ParseResponse.

(** The decoder of the standard library, and the three mode-specific
    parsers that [_parse_response] hands a decoded dictionary to. *)
Variable json_loads : string -> loads_result.

Variable _parse_inbound_response _parse_outbound_awb_response
         _parse_outbound_invoice_response :
  json_dict -> string -> Z -> ExtractionConfidence.t -> list string ->
  outcome ExtractionResult.t.

Definition _parse_response
    (raw_response : string) (page_number : Z) (prompt_type : string)
  : outcome ExtractionResult.t :=
  let errors : list string := [] in
  match json_match raw_response with
  | None =>
      Returned (ExtractionResult.failed page_number raw_response
                  ["No JSON found in response"])
  | Some text =>
      match json_loads text with
      | JSONDecodeError e =>
          Returned (ExtractionResult.failed page_number raw_response
                      [("JSON parse error: " ++ e)%string])
      | Loaded data =>
          let conf_str := dict_get data "confidence" (JStr "MEDIUM") in
          let confidence :=
            match conf_str with
            | JStr s =>
                match ExtractionConfidence.of_value s with
                | Some c => c
                | None => ExtractionConfidence.MEDIUM
                end
            | _ => ExtractionConfidence.MEDIUM
            end in
          if prompt_type =? "outbound_awb" then
            _parse_outbound_awb_response
              data raw_response page_number confidence errors
          else if prompt_type =? "outbound_invoice" then
            _parse_outbound_invoice_response
              data raw_response page_number confidence errors
          else
            _parse_inbound_response
              data raw_response page_number confidence errors
      end
  end.

(** What the request of [extract_from_image] comes to: the text of the
    response, [anthropic.RateLimitError], or any other exception. *)
Inductive api_outcome : Type :=
| Responded (raw_response : string)
| RateLimitError (e : string)
| OtherException (e : string).

(** [extract_from_image], from the request on.  The call of
    [_parse_response] stands inside the [try], so that [except Exception]
    takes what it raises. *)
Definition extract_from_image
    (response : api_outcome) (prompt_type : string) (page_number : Z)
  : ExtractionResult.t :=
  match response with
  | Responded raw_response =>
      match _parse_response raw_response page_number prompt_type with
      | Returned result => result
      | Raised e => ExtractionResult.failed page_number "" [e]
      end
  | RateLimitError e =>
      ExtractionResult.failed page_number ""
        [("Rate limit exceeded: " ++ e)%string]
  | OtherException e => ExtractionResult.failed page_number "" [e]
  end.

End ParseResponse.

End VisionExtractor.

Module DocumentAggregator.

(** The dictionary [aggregated]; the key ['flight_vessel'] exists only
    once it has been assigned. *)
Record t : Type := mk {
  tracking_or_awb : option string;
  ship_date : option date;
  mode : option TransportMode.t;
  flight_numbers : list string;
  vessel_info : option string;
  container_number : option string;
  origin_country : option string;
  incoterms : option string;
  carrier : option string;
  brand_codes : list string;
  confidence : ExtractionConfidence.t;
  raw_responses : list string;
  errors : list string;
  flight_vessel : option string
}.

Definition initial : t :=
  {| tracking_or_awb := None; ship_date := None; mode := None;
     flight_numbers := []; vessel_info := None; container_number := None;
     origin_country := None; incoterms := None; carrier := None;
     brand_codes := []; confidence := ExtractionConfidence.LOW;
     raw_responses := []; errors := []; flight_vessel := None |}.

Definition priority_types : list DocumentType.t :=
  [DocumentType.COURIER_LABEL; DocumentType.AIR_WAYBILL;
   DocumentType.BILL_OF_LADING].

(** [result.document_type in priority_types] *)
Definition is_priority_type (d : DocumentType.t) : bool :=
  existsb (DocumentType.eqb d) priority_types.

(** The shape shared by the five priority-governed fields:
<<
    if <incoming is true>:
        if is_priority or aggregated[k] is None:
            aggregated[k] = incoming
>>
    with the truth test of the field passed as [truthy]. *)
Definition priority_assign {A : Type} (truthy : A -> bool)
    (is_priority : bool) (current incoming : option A) : option A :=
  match incoming with
  | Some v =>
      if truthy v then
        if is_priority || Py.is_none current then Some v else current
      else current
  | None => current
  end.

(** The shape of the first-value-wins fields:
<<
    if <incoming is true> and aggregated[k] is None:
        aggregated[k] = incoming
>> *)
Definition first_assign (current incoming : option string) : option string :=
  if Py.truthy_ostr incoming && Py.is_none current then incoming
  else current.

Definition always {A : Type} (_ : A) : bool := true.

Definition known_mode (m : TransportMode.t) : bool :=
  negb (TransportMode.eqb m TransportMode.UNKNOWN).

(** One iteration of [for result in results]. *)
Definition step (aggregated : t) (result : ExtractionResult.t) : t :=
  let is_priority :=
    is_priority_type (ExtractionResult.document_type result) in
  {| raw_responses :=
       raw_responses aggregated ++ [ExtractionResult.raw_response result];
     errors := errors aggregated ++ ExtractionResult.extraction_errors result;
     confidence :=
       if Py.str_lt
            (ExtractionConfidence.value (ExtractionResult.confidence result))
            (ExtractionConfidence.value (confidence aggregated))
       then ExtractionResult.confidence result
       else confidence aggregated;
     tracking_or_awb :=
       priority_assign Py.truthy_str is_priority
         (tracking_or_awb aggregated) (ExtractionResult.tracking_or_awb result);
     ship_date :=
       priority_assign always is_priority
         (ship_date aggregated) (ExtractionResult.ship_date result);
     mode :=
       priority_assign known_mode is_priority
         (mode aggregated) (ExtractionResult.mode result);
     carrier :=
       priority_assign Py.truthy_str is_priority
         (carrier aggregated) (ExtractionResult.carrier result);
     origin_country :=
       priority_assign Py.truthy_str is_priority
         (origin_country aggregated) (ExtractionResult.origin_country result);
     incoterms :=
       first_assign (incoterms aggregated) (ExtractionResult.incoterms result);
     flight_numbers :=
       flight_numbers aggregated ++ ExtractionResult.flight_numbers result;
     vessel_info :=
       first_assign (vessel_info aggregated)
                    (ExtractionResult.vessel_info result);
     container_number :=
       first_assign (container_number aggregated)
                    (ExtractionResult.container_number result);
     brand_codes :=
       if Py.truthy_list (ExtractionResult.brand_codes result)
          && DocumentType.eqb (ExtractionResult.document_type result)
                              DocumentType.PURCHASE_ORDER
       then brand_codes aggregated ++ ExtractionResult.brand_codes result
       else brand_codes aggregated;
     flight_vessel := flight_vessel aggregated |}.

(** The statements after the loop.  [list(set(l))] leaves the order of the
    flight numbers unspecified; the order of first occurrence is taken. *)
Definition finish (aggregated : t) : t :=
  let flights := Py.dedup (flight_numbers aggregated) in
  let brands := Py.sorted (Py.dedup (brand_codes aggregated)) in
  let display :=
    match mode aggregated with
    | Some TransportMode.SEA =>
        match vessel_info aggregated with
        | Some v =>
            if Py.truthy_str v then
              match container_number aggregated with
              | Some c =>
                  if Py.truthy_str c then Some (v ++ " / " ++ c)%string else Some v
              | None => Some v
              end
            else flight_vessel aggregated
        | None => flight_vessel aggregated
        end
    | _ =>
        if Py.truthy_list flights then Some (String.concat " / " flights)
        else flight_vessel aggregated
    end in
  {| tracking_or_awb := tracking_or_awb aggregated;
     ship_date := ship_date aggregated;
     mode := mode aggregated;
     flight_numbers := flights;
     vessel_info := vessel_info aggregated;
     container_number := container_number aggregated;
     origin_country := origin_country aggregated;
     incoterms := incoterms aggregated;
     carrier := carrier aggregated;
     brand_codes := brands;
     confidence := confidence aggregated;
     raw_responses := raw_responses aggregated;
     errors := errors aggregated;
     flight_vessel := display |}.

Definition aggregate_inbound
    (results : list ExtractionResult.t) (filename : string) : t :=
  finish (fold_left step results initial).

End DocumentAggregator.

(* ================================================================== *)
(** * utils/helpers.py *)
(* ================================================================== *)

Module Helpers.

(** The longest run of characters satisfying [p] at the head of [s], and
    what follows it. *)
Fixpoint span (p : ascii -> bool) (s : string) : string * string :=
  match s with
  | String c r =>
      if p c then let '(a, b) := span p r in (String c a, b)
      else (EmptyString, s)
  | EmptyString => (EmptyString, EmptyString)
  end.

(** Exactly [n] digits at the head of [s] (the pattern [\d{n}]). *)
Fixpoint take_digits (n : nat) (s : string) : option (string * string) :=
  match n with
  | O => Some (EmptyString, s)
  | S n' =>
      match s with
      | String c r =>
          if Py.isdigit c then
            match take_digits n' r with
            | Some (d, rest) => Some (String c d, rest)
            | None => None
            end
          else None
      | EmptyString => None
      end
  end.

(** [re.findall]: the matcher [m] is tried at every position from the
    left; after a match of length [len] the scan resumes behind it. *)
Fixpoint scan {A : Type} (m : string -> option (A * nat))
    (skip : nat) (s : string) : list A :=
  match s with
  | EmptyString => []
  | String _ r =>
      match skip with
      | S k => scan m k r
      | O =>
          match m s with
          | Some (a, len) => a :: scan m (Nat.pred len) r
          | None => scan m 0 r
          end
      end
  end.

(** [PDO\s*(\d+)] with [re.IGNORECASE], anchored at the head. *)
Definition at_pdo (s : string) : option (string * nat) :=
  match s with
  | String a (String b (String c r)) =>
      if Ascii.eqb (Py.lower_char a) "p"
         && Ascii.eqb (Py.lower_char b) "d"
         && Ascii.eqb (Py.lower_char c) "o"
      then
        let '(ws, r1) := span Py.isspace r in
        let '(ds, _) := span Py.isdigit r1 in
        if Py.truthy_str ds
        then Some (ds, (3 + String.length ws + String.length ds)%nat)
        else None
      else None
  | _ => None
  end.

(** [(?:,\d{3})*], greedy. *)
Fixpoint partials (fuel : nat) (s : string) : list string :=
  match fuel with
  | O => []
  | S f =>
      match s with
      | String c r =>
          if Ascii.eqb c "," then
            match take_digits 3 r with
            | Some (d, rest) => d :: partials f rest
            | None => []
            end
          else []
      | EmptyString => []
      end
  end.

(** Seven digits, a comma, three digits and then any number of further
    comma-and-three-digits pieces (the second pattern of
    [extract_pdo_numbers]), anchored at the head: group 1 and the pieces
    of group 2 between its commas. *)
Definition at_partial (s : string) : option (string * list string) :=
  match take_digits 7 s with
  | Some (g1, String c r) =>
      if Ascii.eqb c "," then
        match take_digits 3 r with
        | Some (d, rest) => Some (g1, d :: partials (String.length rest) rest)
        | None => None
        end
      else None
  | _ => None
  end.

(** [re.search] of that pattern: the leftmost position where it matches. *)
Fixpoint search_partial (s : string) : option (string * list string) :=
  match at_partial s with
  | Some x => Some x
  | None =>
      match s with
      | String _ r => search_partial r
      | EmptyString => None
      end
  end.

(** [(\d{7})\s*[&,]\s*(\d{7})] anchored at the head. *)
Definition at_pair (s : string) : option ((string * string) * nat) :=
  match take_digits 7 s with
  | Some (a, r) =>
      let '(ws1, r1) := span Py.isspace r in
      match r1 with
      | String c r2 =>
          if Ascii.eqb c "&" || Ascii.eqb c "," then
            let '(ws2, r3) := span Py.isspace r2 in
            match take_digits 7 r3 with
            | Some (b, _) =>
                Some ((a, b),
                      (7 + String.length ws1 + 1 + String.length ws2 + 7)%nat)
            | None => None
            end
          else None
      | EmptyString => None
      end
  | None => None
  end.

(** [if x not in l: l.append(x)] *)
Definition append_new (l : list string) (x : string) : list string :=
  if Py.mem x l then l else l ++ [x].

(** [list(set(l))] leaves the order unspecified; the order of first
    occurrence is taken. *)
Definition extract_pdo_numbers (text : string) : list string :=
  let pdo_numbers := scan at_pdo 0 text in
  let pdo_numbers :=
    match search_partial text with
    | Some (g1, parts) =>
        let base := String.substring 0 4 g1 in
        fold_left (fun acc partial => append_new acc (base ++ partial)%string)
                  parts (pdo_numbers ++ [g1])
    | None => pdo_numbers
    end in
  let pdo_numbers :=
    fold_left (fun acc (m : string * string) =>
                 append_new (append_new acc (fst m)) (snd m))
              (scan at_pair 0 text) pdo_numbers in
  Py.dedup pdo_numbers.

End Helpers.

(* ================================================================== *)
(** * parsers/sap_parser.py *)
(* ================================================================== *)

(** [Dict[str, SAPPDOData]]: sheet name to record, in insertion order. *)
Definition sap_dict : Type := list (string * SAPPDOData.t).

Module SapParser.

(** Which of the three tests accepted a record (the code logs it). *)
Inductive method : Type := Exact | Substring | Fuzzy.

(** [s[-5:]] *)
Definition last5 (s : string) : string :=
  String.substring (String.length s - 5) 5 s.

(** The inner loop [for sheet_name, data in pdo_data.items()] with its
    three tests and their [break]. *)
Fixpoint first_match (pdo_num : string) (items : sap_dict)
  : option (method * SAPPDOData.t) :=
  match items with
  | [] => None
  | (sheet_name, data) :: rest =>
      if SAPPDOData.pdo_number data =? pdo_num then Some (Exact, data)
      else if Py.contains pdo_num sheet_name then Some (Substring, data)
      else if (5 <=? String.length pdo_num)%nat
              && (5 <=? String.length (SAPPDOData.pdo_number data))%nat
              && (last5 pdo_num =? last5 (SAPPDOData.pdo_number data))
           then Some (Fuzzy, data)
      else first_match pdo_num rest
  end.

(** The outer loop [for pdo_num in pdo_numbers]. *)
Definition match_candidates (pdo_numbers : list string) (pdo_data : sap_dict)
  : list (string * SAPPDOData.t) :=
  flat_map (fun pdo_num =>
              match first_match pdo_num pdo_data with
              | Some (_, data) => [(pdo_num, data)]
              | None => []
              end)
           pdo_numbers.

Definition match_pdo_to_filename (filename : string) (pdo_data : sap_dict)
  : list (string * SAPPDOData.t) :=
  let pdo_numbers := Helpers.extract_pdo_numbers filename in
  if negb (Py.truthy_list pdo_numbers) then []
  else if negb (Py.truthy_list pdo_data) then []
  else match_candidates pdo_numbers pdo_data.

End SapParser.

(* ================================================================== *)
(** * reconciliation.py *)
(* ================================================================== *)

Module ReconciliationType.

Inductive t : Type :=
| VALUE_MISMATCH | CURRENCY_MISMATCH | COUNTRY_SPLIT_MISMATCH
| MISSING_IN_SAP | MISSING_IN_DOCUMENT | BRAND_MISMATCH.

Definition value (r : t) : string :=
  match r with
  | VALUE_MISMATCH => "VALUE_MISMATCH"
  | CURRENCY_MISMATCH => "CURRENCY_MISMATCH"
  | COUNTRY_SPLIT_MISMATCH => "COUNTRY_SPLIT_MISMATCH"
  | MISSING_IN_SAP => "MISSING_IN_SAP"
  | MISSING_IN_DOCUMENT => "MISSING_IN_DOCUMENT"
  | BRAND_MISMATCH => "BRAND_MISMATCH"
  end.

Definition eqb (a b : t) : bool := value a =? value b.

End ReconciliationType.

(** The values stored in the two [Any] fields of an issue. *)
Inductive any : Type :=
| AnyNone
| AnyStr (s : string)
| AnyFloat (x : Float.float).

Module ReconciliationIssue.

Record t : Type := mk {
  issue_type : ReconciliationType.t;
  severity : ValidationSeverity.t;
  field : string;
  sap_value : any;
  document_value : any;
  message : fstring;
  suggestion : string;
  auto_resolvable : bool
}.

End ReconciliationIssue.

Module ReconciliationResult.

Record t : Type := mk {
  reference : string;
  matched_pdo : option string;
  issues : list ReconciliationIssue.t;
  sap_used : bool
}.

End ReconciliationResult.

Module ReconciliationEngine.

Record t : Type := mk {
  tolerance : Float.float;
  auto_apply : bool
}.

(** [ReconciliationEngine()] with its default arguments. *)
Definition default : t :=
  {| tolerance := Float.of_Z 5; auto_apply := true |}.

(** [re.findall(r'(\d{7})', reference)] *)
Definition at_digits7 (s : string) : option (string * nat) :=
  match Helpers.take_digits 7 s with
  | Some (d, _) => Some (d, 7%nat)
  | None => None
  end.

Fixpoint first_sheet (pdo_num : string) (items : sap_dict)
  : option SAPPDOData.t :=
  match items with
  | [] => None
  | (sheet_name, data) :: rest =>
      if SAPPDOData.pdo_number data =? pdo_num then Some data
      else if Py.contains pdo_num sheet_name then Some data
      else first_sheet pdo_num rest
  end.

Fixpoint first_found (pdo_numbers : list string) (sap_data : sap_dict)
  : option SAPPDOData.t :=
  match pdo_numbers with
  | [] => None
  | pdo_num :: rest =>
      match first_sheet pdo_num sap_data with
      | Some data => Some data
      | None => first_found rest sap_data
      end
  end.

Definition _find_matching_sap (self : t) (reference : string)
    (sap_data : sap_dict) : option SAPPDOData.t :=
  let pdo_numbers := Helpers.scan at_digits7 0 reference in
  first_found pdo_numbers sap_data.

(** [abs(a - b) / b * 100] *)
Definition diff_pct (shipment_value sap_value : Float.float) : Float.float :=
  Float.mul
    (Float.div (Float.abs (Float.sub shipment_value sap_value)) sap_value)
    (Float.of_Z 100).

Definition missing_in_sap (reference : string) : ReconciliationIssue.t :=
  {| ReconciliationIssue.issue_type := ReconciliationType.MISSING_IN_SAP;
     ReconciliationIssue.severity := ValidationSeverity.WARNING;
     ReconciliationIssue.field := "reference";
     ReconciliationIssue.sap_value := AnyNone;
     ReconciliationIssue.document_value := AnyStr reference;
     ReconciliationIssue.message :=
       [FStr "No SAP data found for "; FStr reference];
     ReconciliationIssue.suggestion :=
       "Check if correct SAP export was uploaded";
     ReconciliationIssue.auto_resolvable := false |}.

Definition currency_mismatch (sap doc : string) : ReconciliationIssue.t :=
  {| ReconciliationIssue.issue_type := ReconciliationType.CURRENCY_MISMATCH;
     ReconciliationIssue.severity := ValidationSeverity.WARNING;
     ReconciliationIssue.field := "currency";
     ReconciliationIssue.sap_value := AnyStr sap;
     ReconciliationIssue.document_value := AnyStr doc;
     ReconciliationIssue.message :=
       [FStr "Currency mismatch: SAP="; FStr sap; FStr ", Doc="; FStr doc];
     ReconciliationIssue.suggestion := "SAP currency will be used";
     ReconciliationIssue.auto_resolvable := true |}.

Definition value_mismatch (pct sap doc : Float.float)
  : ReconciliationIssue.t :=
  {| ReconciliationIssue.issue_type := ReconciliationType.VALUE_MISMATCH;
     ReconciliationIssue.severity :=
       if Float.ltb pct (Float.of_Z 10) then ValidationSeverity.INFO
       else ValidationSeverity.WARNING;
     ReconciliationIssue.field := "total_value";
     ReconciliationIssue.sap_value := AnyFloat sap;
     ReconciliationIssue.document_value := AnyFloat doc;
     ReconciliationIssue.message :=
       [FStr "Value differs by "; FFix 1 pct; FStr "%: SAP="; FFix 2 sap;
        FStr ", Doc="; FFix 2 doc];
     ReconciliationIssue.suggestion :=
       "SAP value will be used (source of truth)";
     ReconciliationIssue.auto_resolvable := true |}.

(** The currency check: the issues to append and the shipment after it. *)
Definition check_currency (auto_apply : bool) (matched_sap : SAPPDOData.t)
    (shipment : InboundShipment.t)
  : list ReconciliationIssue.t * InboundShipment.t :=
  match InboundShipment.currency shipment with
  | Some doc =>
      if Py.truthy_str doc && Py.truthy_str (SAPPDOData.currency matched_sap)
      then
        if negb (doc =? SAPPDOData.currency matched_sap) then
          ([currency_mismatch (SAPPDOData.currency matched_sap) doc],
           if auto_apply
           then InboundShipment.set_currency shipment
                  (Some (SAPPDOData.currency matched_sap))
           else shipment)
        else ([], shipment)
      else ([], shipment)
  | None => ([], shipment)
  end.

(** The value check, with the tolerance of the engine. *)
Definition check_value (self : t) (auto_apply : bool)
    (matched_sap : SAPPDOData.t) (shipment : InboundShipment.t)
  : list ReconciliationIssue.t * InboundShipment.t :=
  match InboundShipment.total_value shipment with
  | Some doc =>
      if Float.truthy doc && Float.truthy (SAPPDOData.total_value matched_sap)
      then
        let pct := diff_pct doc (SAPPDOData.total_value matched_sap) in
        if Float.ltb (tolerance self) pct then
          ([value_mismatch pct (SAPPDOData.total_value matched_sap) doc],
           if auto_apply
           then InboundShipment.set_total_value shipment
                  (Some (SAPPDOData.total_value matched_sap))
           else shipment)
        else ([], shipment)
      else ([], shipment)
  | None => ([], shipment)
  end.

(** The block under [if auto_apply:] that closes [reconcile_inbound]. *)
Definition apply_sap (matched_sap : SAPPDOData.t)
    (shipment : InboundShipment.t) : InboundShipment.t :=
  let shipment :=
    InboundShipment.set_currency shipment
      (Some (SAPPDOData.currency matched_sap)) in
  let shipment :=
    InboundShipment.set_total_value shipment
      (Some (SAPPDOData.total_value matched_sap)) in
  let shipment :=
    if Py.truthy_list (SAPPDOData.brands matched_sap)
    then InboundShipment.set_brands shipment (SAPPDOData.brands matched_sap)
    else shipment in
  let shipment :=
    if Py.truthy_list (SAPPDOData.country_splits matched_sap)
    then InboundShipment.set_country_splits shipment
           (SAPPDOData.country_splits matched_sap)
    else shipment in
  shipment.

(** [reconcile_inbound]: the result and the shipment as the call leaves
    it. *)
Definition reconcile_inbound (self : t) (shipment : InboundShipment.t)
    (sap_data : sap_dict) (auto_apply : option bool)
  : ReconciliationResult.t * InboundShipment.t :=
  let auto_apply :=
    match auto_apply with
    | None => ReconciliationEngine.auto_apply self
    | Some b => b
    end in
  let reference := InboundShipment.reference shipment in
  match _find_matching_sap self reference sap_data with
  | None =>
      ({| ReconciliationResult.reference := reference;
          ReconciliationResult.matched_pdo := None;
          ReconciliationResult.issues := [] ++ [missing_in_sap reference];
          ReconciliationResult.sap_used := false |},
       shipment)
  | Some matched_sap =>
      let issues := [] in
      let '(found, shipment) := check_currency auto_apply matched_sap shipment in
      let issues := issues ++ found in
      let '(found, shipment) :=
        check_value self auto_apply matched_sap shipment in
      let issues := issues ++ found in
      let shipment :=
        if auto_apply then apply_sap matched_sap shipment else shipment in
      ({| ReconciliationResult.reference := reference;
          ReconciliationResult.matched_pdo :=
            Some (SAPPDOData.pdo_number matched_sap);
          ReconciliationResult.issues := issues;
          ReconciliationResult.sap_used := true |},
       shipment)
  end.

End ReconciliationEngine.

(* ================================================================== *)
(** * classifiers/product_classifier.py *)
(* ================================================================== *)

(** ** The patterns of the rule tables

    The tables use a small part of the [re] syntax: literal characters,
    the classes [\d], [\s] and [.], the assertion [\b], and the
    quantifiers [*], [+] and [?] behind a single character or class.
    A pattern is kept as its source text, since the text is what the
    classifier records and inspects; [compile] reads it.  A text outside
    that part of the syntax does not compile and matches nothing. *)

Module Re.

Inductive cclass : Type :=
| Chr (c : ascii)
| Digit
| Space
| AnyChar.

Inductive atom : Type :=
| One (k : cclass)
| Star (k : cclass)
| Plus (k : cclass)
| Opt (k : cclass)
| WordB.

Definition regex : Type := list atom.

Definition in_class (k : cclass) (x : ascii) : bool :=
  match k with
  | Chr c => Ascii.eqb x c
  | Digit => Py.isdigit x
  | Space => Py.isspace x
  | AnyChar => negb (Ascii.eqb x "010")
  end.

(** [\b]: exactly one side of the position is a word character. *)
Definition boundary (prev : option ascii) (s : string) : bool :=
  xorb (match prev with Some p => Py.isword p | None => false end)
       (match s with String c _ => Py.isword c | EmptyString => false end).

Definition cont : Type := option ascii -> string -> bool.

Definition one (k : cclass) (next : cont) : cont :=
  fun _ s =>
    match s with
    | String x r => in_class k x && next (Some x) r
    | EmptyString => false
    end.

Fixpoint star (k : cclass) (next : cont) (prev : option ascii) (s : string)
  : bool :=
  match s with
  | String x r => (in_class k x && star k next (Some x) r) || next prev s
  | EmptyString => next prev s
  end.

(** Does the pattern match at the head of [s], [prev] being the character
    before it? *)
Fixpoint match_here (re : regex) : cont :=
  match re with
  | [] => fun _ _ => true
  | a :: re' =>
      let next := match_here re' in
      match a with
      | One k => one k next
      | Star k => star k next
      | Plus k => one k (star k next)
      | Opt k => fun prev s => one k next prev s || next prev s
      | WordB => fun prev s => boundary prev s && next prev s
      end
  end.

Fixpoint search_from (re : regex) (prev : option ascii) (s : string) : bool :=
  match_here re prev s
  || match s with
     | String x r => search_from re (Some x) r
     | EmptyString => false
     end.

Inductive tok : Type :=
| TCls (k : cclass)
| TWordB
| TStar
| TPlus
| TQuest.

Definition is_meta (c : ascii) : bool :=
  existsb (Ascii.eqb c)
    ["^"; "$"; "{"; "}"; "["; "]"; "|"; "("; ")"]%char.

Definition escape (c : ascii) : option tok :=
  if Ascii.eqb c "b" then Some TWordB
  else if Ascii.eqb c "d" then Some (TCls Digit)
  else if Ascii.eqb c "s" then Some (TCls Space)
  else None.

Fixpoint lex (escaped : bool) (s : string) : option (list tok) :=
  match s with
  | EmptyString => if escaped then None else Some []
  | String c r =>
      if escaped then
        match escape c, lex false r with
        | Some t, Some ts => Some (t :: ts)
        | _, _ => None
        end
      else if Ascii.eqb c "\" then lex true r
      else if is_meta c then None
      else
        let t :=
          if Ascii.eqb c "." then TCls AnyChar
          else if Ascii.eqb c "*" then TStar
          else if Ascii.eqb c "+" then TPlus
          else if Ascii.eqb c "?" then TQuest
          else TCls (Chr c) in
        match lex false r with
        | Some ts => Some (t :: ts)
        | None => None
        end
  end.

Fixpoint build (ts : list tok) : option regex :=
  match ts with
  | [] => Some []
  | TWordB :: r => option_map (cons WordB) (build r)
  | TCls k :: TStar :: r => option_map (cons (Star k)) (build r)
  | TCls k :: TPlus :: r => option_map (cons (Plus k)) (build r)
  | TCls k :: TQuest :: r => option_map (cons (Opt k)) (build r)
  | TCls k :: r => option_map (cons (One k)) (build r)
  | _ => None
  end.

Definition compile (pattern : string) : option regex :=
  match lex false pattern with
  | Some ts => build ts
  | None => None
  end.

(** The patterns that the model reads.  Each of them is a regular
    expression for [re] too, so that [re.search] does not raise
    [re.error] on it. *)
Definition supported (pattern : string) : bool :=
  match compile pattern with
  | Some _ => true
  | None => false
  end.

(** [re.search(pattern, text)] as a condition, for a pattern that is
    [supported].  For any other pattern [re.search] may match by rules
    that are not modelled here, or raise [re.error]; the answer [false]
    given below stands for neither, and every statement about a search
    asks for a supported pattern. *)
Definition search (pattern text : string) : bool :=
  match compile pattern with
  | Some re => search_from re None text
  | None => false
  end.

End Re.

Module ProductCategory.

Inductive t : Type :=
| MEDICAL_DEVICES | SKINCARE_PRODUCTS | ORAL_SUPPLEMENTS | PHARMACEUTICAL
| UNKNOWN.

Definition value (c : t) : string :=
  match c with
  | MEDICAL_DEVICES => "Medical Devices"
  | SKINCARE_PRODUCTS => "Skincare Products"
  | ORAL_SUPPLEMENTS => "Oral Supplements"
  | PHARMACEUTICAL => "Pharmaceutical Products"
  | UNKNOWN => "Unknown"
  end.

Definition eqb (a b : t) : bool := value a =? value b.

(** A [Set[ProductCategory]]: a list without repetition. *)
Definition mem (c : t) (set : list t) : bool := existsb (eqb c) set.

Definition add (set : list t) (c : t) : list t :=
  if mem c set then set else set ++ [c].

Definition discard (set : list t) (c : t) : list t :=
  filter (fun x => negb (eqb x c)) set.

(** [sorted(list(set), key=lambda x: x.value)] *)
Fixpoint insert_by_value (c : t) (l : list t) : list t :=
  match l with
  | [] => [c]
  | d :: r =>
      if String.leb (value c) (value d) then c :: l
      else d :: insert_by_value c r
  end.

Definition sorted_by_value (set : list t) : list t :=
  fold_right insert_by_value [] set.

End ProductCategory.

Module ClassificationResult.

Record t : Type := mk {
  categories : list ProductCategory.t;
  confidence : Float.float;
  reasoning : string;
  matched_patterns : list string
}.

End ClassificationResult.

Module ProductClassifier.

Import ProductCategory.

(** The four rule tables of an instance; the dictionaries in insertion
    order. *)
Record t : Type := mk {
  verbatim_labels : list (string * list ProductCategory.t);
  brand_categories : list (string * ProductCategory.t);
  keyword_patterns : list (ProductCategory.t * list string);
  compound_rules : list (string * list ProductCategory.t)
}.

Definition _init_classification_rules : t :=
  {| verbatim_labels :=
       [ ("skincare products & oral supplements",
          [SKINCARE_PRODUCTS; ORAL_SUPPLEMENTS]);
         ("skincare products and oral supplements",
          [SKINCARE_PRODUCTS; ORAL_SUPPLEMENTS]);
         ("oral supplements & skincare products",
          [ORAL_SUPPLEMENTS; SKINCARE_PRODUCTS]);
         ("skincare products", [SKINCARE_PRODUCTS]);
         ("oral supplements", [ORAL_SUPPLEMENTS]);
         ("oral supplement", [ORAL_SUPPLEMENTS]);
         ("medical devices", [MEDICAL_DEVICES]);
         ("medical device", [MEDICAL_DEVICES]);
         ("medical devices & skincare products",
          [MEDICAL_DEVICES; SKINCARE_PRODUCTS]);
         ("skincare products & medical devices",
          [SKINCARE_PRODUCTS; MEDICAL_DEVICES]);
         ("pharmaceutical products", [PHARMACEUTICAL]) ];
     brand_categories :=
       [ ("profhilo", MEDICAL_DEVICES); ("viscoderm", MEDICAL_DEVICES);
         ("nucleofill", MEDICAL_DEVICES); ("aliaxin", MEDICAL_DEVICES);
         ("belotero", MEDICAL_DEVICES); ("radiesse", MEDICAL_DEVICES);
         ("juvederm", MEDICAL_DEVICES); ("restylane", MEDICAL_DEVICES);
         ("teosyal", MEDICAL_DEVICES); ("sculptra", MEDICAL_DEVICES);
         ("ellanse", MEDICAL_DEVICES); ("sunekos", MEDICAL_DEVICES);
         ("jalupro", MEDICAL_DEVICES); ("lumi eyes", MEDICAL_DEVICES);
         ("ejal", MEDICAL_DEVICES); ("xela rederm", MEDICAL_DEVICES);
         ("haenkenium", SKINCARE_PRODUCTS); ("heliocare", SKINCARE_PRODUCTS);
         ("endocare", SKINCARE_PRODUCTS); ("neostrata", SKINCARE_PRODUCTS);
         ("isdin", SKINCARE_PRODUCTS); ("skinceuticals", SKINCARE_PRODUCTS);
         ("obagi", SKINCARE_PRODUCTS); ("zo skin health", SKINCARE_PRODUCTS);
         ("dermaceutic", SKINCARE_PRODUCTS); ("biopelle", SKINCARE_PRODUCTS);
         ("imedeen", ORAL_SUPPLEMENTS); ("perfectil", ORAL_SUPPLEMENTS);
         ("nutrafol", ORAL_SUPPLEMENTS); ("viviscal", ORAL_SUPPLEMENTS);
         ("collagen supplements", ORAL_SUPPLEMENTS) ];
     keyword_patterns :=
       [ (MEDICAL_DEVICES,
          [ "\bsyringe\b"; "\binjectable\b"; "\bfiller\b"; "\bimplant\b";
            "\b\d+mg\b.*\bml\b"; "\bhyaluronic acid\b"; "\bbiorevital";
            "\bskin booster\b"; "\bmesotherapy\b"; "\bpeel\b"; "\blaser\b";
            "\bdevice\b"; "\bsterile\b"; "\bmedical\b" ]);
         (SKINCARE_PRODUCTS,
          [ "\bcream\b"; "\bserum\b"; "\blotion\b"; "\bmoisturiz";
            "\bcleanser\b"; "\btoner\b"; "\bmask\b"; "\bsunscreen\b";
            "\bspf\b"; "\banti.?aging\b"; "\bskincare\b"; "\bskin\s*care\b";
            "\btopical\b"; "\bcosmetic\b" ]);
         (ORAL_SUPPLEMENTS,
          [ "\bsupplement\b"; "\bcapsule\b"; "\btablet\b"; "\bvitamin\b";
            "\bcollagen\b.*\boral\b"; "\boral\b.*\bcollagen\b";
            "\bnutrition\b"; "\bdietary\b"; "\bpill\b"; "\bsoftgel\b" ]);
         (PHARMACEUTICAL,
          [ "\bdrug\b"; "\bpharmaceutical\b"; "\bmedicine\b";
            "\bprescription\b" ]) ];
     compound_rules :=
       [ ("profhilo\s+haenkenium\s+cream", [SKINCARE_PRODUCTS]);
         ("profhilo.*syringe", [MEDICAL_DEVICES]) ] |}.

(** The three accumulators of [classify]. *)
Record acc : Type := mk_acc {
  matched_categories : list ProductCategory.t;
  matched_patterns : list string;
  reasoning_parts : list string
}.

Definition empty_acc : acc :=
  {| matched_categories := []; matched_patterns := [];
     reasoning_parts := [] |}.

Definition record (a : acc) (categories : list ProductCategory.t)
    (pattern reason : string) : acc :=
  {| matched_categories :=
       fold_left ProductCategory.add categories (matched_categories a);
     matched_patterns := matched_patterns a ++ [pattern];
     reasoning_parts := reasoning_parts a ++ [reason] |}.

(** STEP 0, one label. *)
Definition verbatim_step (desc_lower : string) (a : acc)
    (rule : string * list ProductCategory.t) : acc :=
  let '(label, categories) := rule in
  if Py.contains label desc_lower then
    record a categories
      ("verbatim:" ++ label)%string
      ("Verbatim label match: '" ++ label ++ "'")%string
  else a.

(** Step 1, one compound rule. *)
Definition compound_step (desc_lower : string) (a : acc)
    (rule : string * list ProductCategory.t) : acc :=
  let '(pattern, categories) := rule in
  if Re.search pattern desc_lower then
    record a categories
      ("compound:" ++ pattern)%string
      ("Matched compound rule: " ++ pattern)%string
  else a.

(** Step 2, one brand. *)
Definition brand_step (desc_lower : string) (a : acc)
    (rule : string * ProductCategory.t) : acc :=
  let '(brand, category) := rule in
  if Py.contains brand desc_lower then
    record a [category]
      ("brand:" ++ brand)%string
      ("Brand '" ++ brand ++ "' -> " ++ ProductCategory.value category)%string
  else a.

(** The inner loop of step 3 with its [break]: the first pattern of the
    category that is found in the description. *)
Fixpoint first_hit (desc_lower : string) (patterns : list string)
  : option string :=
  match patterns with
  | [] => None
  | pattern :: rest =>
      if Re.search pattern desc_lower then Some pattern
      else first_hit desc_lower rest
  end.

(** Step 3, one category. *)
Definition keyword_step (desc_lower : string) (a : acc)
    (rule : ProductCategory.t * list string) : acc :=
  let '(category, patterns) := rule in
  match first_hit desc_lower patterns with
  | Some pattern =>
      record a [category]
        ("keyword:" ++ pattern)%string
        ("Keyword '" ++ pattern ++ "' -> "
           ++ ProductCategory.value category)%string
  | None => a
  end.

Definition has_keyword (word : string) (patterns : list string) : bool :=
  existsb (fun p => String.prefix "keyword:" p
                    && Py.contains word (Py.lower p))
          patterns.

(** Step 4 *)
Definition special_cases (desc_lower : string) (a : acc) : acc :=
  if ProductCategory.mem MEDICAL_DEVICES (matched_categories a)
     && ProductCategory.mem SKINCARE_PRODUCTS (matched_categories a)
  then
    if Py.contains "haenkenium cream" desc_lower then
      let has_medical_device_keyword :=
        has_keyword "syringe" (matched_patterns a)
        || has_keyword "injectable" (matched_patterns a) in
      if negb has_medical_device_keyword then
        {| matched_categories :=
             ProductCategory.discard (matched_categories a) MEDICAL_DEVICES;
           matched_patterns := matched_patterns a;
           reasoning_parts :=
             reasoning_parts a
             ++ ["Haenkenium Cream is skincare, not medical device"] |}
      else a
    else a
  else a.

Definition count_prefix (prefix : string) (patterns : list string) : Z :=
  Z.of_nat (List.length (filter (String.prefix prefix) patterns)).

(** [min(a, b)] of Python: [b] when [b < a], else [a]. *)
Definition py_min (a b : Float.float) : Float.float :=
  if Float.ltb b a then b else a.

Definition _calculate_confidence (matched_patterns : list string)
  : Float.float :=
  if negb (Py.truthy_list matched_patterns) then Float.lit 2 10
  else
    let confidence := Float.lit 5 10 in
    let brand_matches := count_prefix "brand:" matched_patterns in
    let confidence :=
      Float.add confidence
        (Float.mul (Float.of_Z brand_matches) (Float.lit 2 10)) in
    let keyword_matches := count_prefix "keyword:" matched_patterns in
    let confidence :=
      Float.add confidence
        (Float.mul (Float.of_Z keyword_matches) (Float.lit 1 10)) in
    let compound_matches := count_prefix "compound:" matched_patterns in
    let confidence :=
      Float.add confidence
        (Float.mul (Float.of_Z compound_matches) (Float.lit 25 100)) in
    py_min confidence (Float.of_Z 1).

(** [classify], for rule tables whose patterns are [Re.supported]: on
    such tables no search raises.  The statements about [classify] ask
    for such tables. *)
Definition classify (self : t) (description : string)
  : ClassificationResult.t :=
  if negb (Py.truthy_str description) then
    {| ClassificationResult.categories := [UNKNOWN];
       ClassificationResult.confidence := Float.of_Z 0;
       ClassificationResult.reasoning := "No description provided";
       ClassificationResult.matched_patterns := [] |}
  else
    let desc_lower := Py.strip (Py.lower description) in
    let a :=
      fold_left (verbatim_step desc_lower) (verbatim_labels self) empty_acc in
    if Py.truthy_list (matched_categories a) then
      {| ClassificationResult.categories :=
           ProductCategory.sorted_by_value (matched_categories a);
         ClassificationResult.confidence := Float.lit 95 100;
         ClassificationResult.reasoning :=
           String.concat " | " (reasoning_parts a);
         ClassificationResult.matched_patterns := matched_patterns a |}
    else
      let a :=
        fold_left (compound_step desc_lower) (compound_rules self) a in
      let a := fold_left (brand_step desc_lower) (brand_categories self) a in
      let a :=
        fold_left (keyword_step desc_lower) (keyword_patterns self) a in
      let a := special_cases desc_lower a in
      let confidence := _calculate_confidence (matched_patterns a) in
      if negb (Py.truthy_list (matched_categories a)) then
        {| ClassificationResult.categories := [UNKNOWN];
           ClassificationResult.confidence := Float.lit 2 10;
           ClassificationResult.reasoning := "No matching patterns found";
           ClassificationResult.matched_patterns := matched_patterns a |}
      else
        {| ClassificationResult.categories :=
             ProductCategory.sorted_by_value (matched_categories a);
           ClassificationResult.confidence := confidence;
           ClassificationResult.reasoning :=
             String.concat " | " (reasoning_parts a);
           ClassificationResult.matched_patterns := matched_patterns a |}.

End ProductClassifier.

(* ================================================================== *)
(** * Further functions of utils/helpers.py and models/shipment.py *)
(* ================================================================== *)

(** ** More of the string methods *)

Module PyText.

(** [str.upper] on a character of ASCII: [a] to [z] move down by 32.
    Outside ASCII [str.upper] can leave the characters below 256 (the
    sharp s becomes two letters), so [upper] stands for [str.upper] on
    ASCII text only; it is applied to such text, or the statement asks
    for it with [isascii]. *)
Definition upper_char (c : ascii) : ascii :=
  if Py.islower c then ascii_of_nat (Py.code c - 32) else c.

Fixpoint upper (s : string) : string :=
  match s with
  | EmptyString => EmptyString
  | String c r => String (upper_char c) (upper r)
  end.

(** [''.join(c for c in s if p(c))] *)
Fixpoint filter_str (p : ascii -> bool) (s : string) : string :=
  match s with
  | EmptyString => EmptyString
  | String c r => if p c then String c (filter_str p r) else filter_str p r
  end.

Fixpoint all_chars (p : ascii -> bool) (s : string) : bool :=
  match s with
  | EmptyString => true
  | String c r => p c && all_chars p r
  end.

(** [s.isascii()] *)
Definition isascii_char (c : ascii) : bool := Py.between 0 127 c.

Definition isascii (s : string) : bool := all_chars isascii_char s.

(** [s.isdigit()], [s.isalpha()]: false on the empty string. *)
Definition str_isdigit (s : string) : bool :=
  Py.truthy_str s && all_chars Py.isdigit_str s.

Definition str_isalpha (s : string) : bool :=
  Py.truthy_str s && all_chars Py.isalpha s.

(** [s.split(sep)] for a separator of one character. *)
Fixpoint split_on (sep : ascii) (s : string) : list string :=
  match s with
  | EmptyString => [EmptyString]
  | String c r =>
      if Ascii.eqb c sep then EmptyString :: split_on sep r
      else
        match split_on sep r with
        | h :: t => String c h :: t
        | [] => [String c EmptyString]
        end
  end.

(** [sep in s] for a separator of one character. *)
Fixpoint has_char (sep : ascii) (s : string) : bool :=
  match s with
  | EmptyString => false
  | String c r => Ascii.eqb c sep || has_char sep r
  end.

End PyText.

(** [TransportMode.from_string]; the argument may be [None]. *)
Definition TransportMode_of_value (s : string) : option TransportMode.t :=
  if s =? "COURIER" then Some TransportMode.COURIER
  else if s =? "AIR" then Some TransportMode.AIR
  else if s =? "SEA" then Some TransportMode.SEA
  else if s =? "TRUCK" then Some TransportMode.TRUCK
  else if s =? "UNKNOWN" then Some TransportMode.UNKNOWN
  else None.

(** [TransportMode.from_string].  The values of the members are ASCII
    capitals, and of the characters from 128 to 255 only the sharp s has
    ASCII in its upper case (a double S, which no value holds): a text
    with such a character is [UNKNOWN] here as it is for [str.upper]. *)
Definition TransportMode_from_string (value : option string)
  : TransportMode.t :=
  match value with
  | None => TransportMode.UNKNOWN
  | Some v =>
      if negb (Py.truthy_str v) then TransportMode.UNKNOWN
      else
        match TransportMode_of_value (PyText.upper v) with
        | Some m => m
        | None => TransportMode.UNKNOWN
        end
  end.

Module Normalize.

(** [normalize_tracking_number]; the argument may be [None]. *)
Definition normalize_tracking_number (tracking : option string) : string :=
  match tracking with
  | None => EmptyString
  | Some t =>
      if negb (Py.truthy_str t) then EmptyString
      else PyText.filter_str Py.isalnum t
  end.

(** [normalize_awb_number]; the argument may be [None]. *)
Definition normalize_awb_number (awb : option string) : string :=
  match awb with
  | None => EmptyString
  | Some a =>
      if negb (Py.truthy_str a) then EmptyString
      else
        let clean := PyText.filter_str Py.isalnum a in
        if (String.length clean =? 11)%nat && PyText.str_isdigit clean then
          (String.substring 0 3 clean ++ "-"
           ++ String.substring 3 (String.length clean - 3) clean)%string
        else if PyText.has_char "-" a then
          match PyText.split_on "-" a with
          | [p0; p1] => (Py.strip p0 ++ "-" ++ Py.strip p1)%string
          | _ => a
          end
        else a
  end.

(** [(ITR|SOM)\s*(\d+)] with [re.IGNORECASE], anchored at the head: the
    string the function builds from the two groups.  Below 256 only the
    two cases of an ASCII letter match it, so that the prefix found is
    ASCII and [upper] is [str.upper] on it. *)
Definition at_itr (s : string) : option string :=
  match s with
  | String a (String b (String c r)) =>
      let word := String a (String b (String c EmptyString)) in
      if (Py.lower word =? "itr") || (Py.lower word =? "som") then
        let '(_, r1) := Helpers.span Py.isspace r in
        let '(number, _) := Helpers.span Py.isdigit r1 in
        if Py.truthy_str number
        then Some (PyText.upper word ++ " " ++ number)%string
        else None
      else None
  | _ => None
  end.

(** [extract_itr_number]: [re.search] takes the leftmost match. *)
Fixpoint extract_itr_number (text : string) : option string :=
  match at_itr text with
  | Some found => Some found
  | None =>
      match text with
      | String _ r => extract_itr_number r
      | EmptyString => None
      end
  end.

End Normalize.

(* ================================================================== *)
(** * Further functions of reconciliation.py and pipeline.py *)
(* ================================================================== *)

(** [d[k] = v] and [d.get(k)] on a dictionary kept in insertion order:
    an assignment to a key that exists keeps its place. *)
Fixpoint dict_set {A : Type} (d : list (string * A)) (k : string) (v : A)
  : list (string * A) :=
  match d with
  | [] => [(k, v)]
  | (k', v') :: r =>
      if k' =? k then (k', v) :: r else (k', v') :: dict_set r k v
  end.

Fixpoint dict_lookup {A : Type} (d : list (string * A)) (k : string)
  : option A :=
  match d with
  | [] => None
  | (k', v') :: r => if k' =? k then Some v' else dict_lookup r k
  end.

(** [ReconciliationResult.has_errors] *)
Module ResultProperties.

Definition has_severity (v : ValidationSeverity.t)
    (i : ReconciliationIssue.t) : bool :=
  ValidationSeverity.eqb (ReconciliationIssue.severity i) v.

Definition has_errors (self : ReconciliationResult.t) : bool :=
  existsb (has_severity ValidationSeverity.ERROR)
          (ReconciliationResult.issues self).

End ResultProperties.

Module Reconciliation.

(** The four assignments shared by the modes [sap_wins] and [merge]. *)
Definition overwrite (shipment : InboundShipment.t) (sap_data : SAPPDOData.t)
  : InboundShipment.t :=
  let shipment :=
    InboundShipment.set_currency shipment
      (Some (SAPPDOData.currency sap_data)) in
  let shipment :=
    InboundShipment.set_total_value shipment
      (Some (SAPPDOData.total_value sap_data)) in
  let shipment :=
    InboundShipment.set_brands shipment (SAPPDOData.brands sap_data) in
  InboundShipment.set_country_splits shipment
    (SAPPDOData.country_splits sap_data).

(** [merge_sap_into_shipment]: the updated field names and the shipment
    as the call leaves it. *)
Definition merge_sap_into_shipment (shipment : InboundShipment.t)
    (sap_data : SAPPDOData.t) (overwrite_mode : string)
  : list string * InboundShipment.t :=
  if overwrite_mode =? "sap_wins" then
    ([] ++ ["currency"] ++ ["total_value"] ++ ["brands"]
        ++ ["country_splits"],
     overwrite shipment sap_data)
  else if overwrite_mode =? "merge" then
    ([] ++ ["currency"; "total_value"; "brands"; "country_splits"],
     overwrite shipment sap_data)
  else ([], shipment).

End Reconciliation.

Module Pipeline.

(** [", ".join(f"PDO{n}" for n in nums)] *)
Definition pdo_reference (nums : list string) : string :=
  String.concat ", " (map (fun n => ("PDO" ++ n)%string) nums).

(** [country_splits[country] = country_splits.get(country, 0) + value] *)
Definition add_split (country_splits : splits) (country : string)
    (value : Float.float) : splits :=
  dict_set country_splits country
    (Float.add
       (match dict_lookup country_splits country with
        | Some x => x
        | None => Float.of_Z 0
        end)
       value).

(** The four variables that the loop over [pdo_matches] updates. *)
Record combined : Type := mk_combined {
  sap_brands : list string;
  total_value : Float.float;
  currency : option string;
  country_splits : splits
}.

Definition combine_step (acc : combined) (m : string * SAPPDOData.t)
  : combined :=
  let sap_data := snd m in
  {| sap_brands := sap_brands acc ++ SAPPDOData.brands sap_data;
     total_value :=
       Float.add (total_value acc) (SAPPDOData.total_value sap_data);
     currency :=
       if Py.truthy_ostr (currency acc) then currency acc
       else Some (SAPPDOData.currency sap_data);
     country_splits :=
       fold_left (fun d (kv : string * Float.float) =>
                    add_split d (fst kv) (snd kv))
                 (SAPPDOData.country_splits sap_data)
                 (country_splits acc) |}.

Definition combine (pdo_matches : list (string * SAPPDOData.t)) : combined :=
  fold_left combine_step pdo_matches
    {| sap_brands := []; total_value := Float.of_Z 0; currency := None;
       country_splits := [] |}.

Definition _create_inbound_shipment (filename : string)
    (aggregated : DocumentAggregator.t)
    (pdo_matches : list (string * SAPPDOData.t)) : InboundShipment.t :=
  let reference :=
    if Py.truthy_list pdo_matches then pdo_reference (map fst pdo_matches)
    else
      let pdo_nums := Helpers.extract_pdo_numbers filename in
      if Py.truthy_list pdo_nums then pdo_reference pdo_nums else filename in
  let sap := combine pdo_matches in
  let extracted_brands := DocumentAggregator.brand_codes aggregated in
  let brands :=
    if Py.truthy_list extracted_brands then extracted_brands
    else if Py.truthy_list (sap_brands sap) then Py.dedup (sap_brands sap)
    else [] in
  let flight_vessel :=
    if Py.truthy_list (DocumentAggregator.flight_numbers aggregated)
    then Some (String.concat " / "
                 (DocumentAggregator.flight_numbers aggregated))
    else None in
  {| InboundShipment.reference := reference;
     InboundShipment.etd_date := DocumentAggregator.ship_date aggregated;
     InboundShipment.tracking_or_awb :=
       DocumentAggregator.tracking_or_awb aggregated;
     InboundShipment.incoterms := DocumentAggregator.incoterms aggregated;
     InboundShipment.mode :=
       match DocumentAggregator.mode aggregated with
       | Some m => m
       | None => TransportMode.UNKNOWN
       end;
     InboundShipment.flight_vessel := flight_vessel;
     InboundShipment.origin_country :=
       DocumentAggregator.origin_country aggregated;
     InboundShipment.destination_country := "SINGAPORE";
     InboundShipment.brands := brands;
     InboundShipment.description := None;
     InboundShipment.currency := currency sap;
     InboundShipment.total_value :=
       if Float.ltb (Float.of_Z 0) (total_value sap)
       then Some (total_value sap) else None;
     InboundShipment.country_splits := country_splits sap;
     InboundShipment.source_files := [filename];
     InboundShipment.extraction_confidence :=
       DocumentAggregator.confidence aggregated;
     InboundShipment.validation_issues := [];
     InboundShipment.user_modified_fields := [] |}.

(** [process_inbound_pdfs] behind the extraction of the pages: the three
    calls that turn the page results of one file into its shipment. *)
Definition shipment_of_pages (filename : string)
    (page_results : list ExtractionResult.t) (sap_data : sap_dict)
  : InboundShipment.t :=
  let aggregated :=
    DocumentAggregator.aggregate_inbound page_results filename in
  let pdo_matches := SapParser.match_pdo_to_filename filename sap_data in
  _create_inbound_shipment filename aggregated pdo_matches.

End Pipeline.


(* ================================================================== *)
(** * Further functions of classifiers/product_classifier.py *)
(* ================================================================== *)

Module ClassifierUpdate.

(** [self.brand_categories[brand.lower()] = category] *)
Definition add_brand (self : ProductClassifier.t) (brand : string)
    (category : ProductCategory.t) : ProductClassifier.t :=
  {| ProductClassifier.verbatim_labels :=
       ProductClassifier.verbatim_labels self;
     ProductClassifier.brand_categories :=
       dict_set (ProductClassifier.brand_categories self)
                (Py.lower brand) category;
     ProductClassifier.keyword_patterns :=
       ProductClassifier.keyword_patterns self;
     ProductClassifier.compound_rules :=
       ProductClassifier.compound_rules self |}.

(** The two statements of [add_keyword_pattern] on the dictionary: a
    category without an entry gets the empty list, and the pattern goes
    to the end of the list of the category. *)
Fixpoint append_pattern (d : list (ProductCategory.t * list string))
    (category : ProductCategory.t) (pattern : string)
  : list (ProductCategory.t * list string) :=
  match d with
  | [] => [(category, [] ++ [pattern])]
  | (c, patterns) :: r =>
      if ProductCategory.eqb c category
      then (c, patterns ++ [pattern]) :: r
      else (c, patterns) :: append_pattern r category pattern
  end.

Definition add_keyword_pattern (self : ProductClassifier.t)
    (category : ProductCategory.t) (pattern : string)
  : ProductClassifier.t :=
  {| ProductClassifier.verbatim_labels :=
       ProductClassifier.verbatim_labels self;
     ProductClassifier.brand_categories :=
       ProductClassifier.brand_categories self;
     ProductClassifier.keyword_patterns :=
       append_pattern (ProductClassifier.keyword_patterns self)
                      category pattern;
     ProductClassifier.compound_rules :=
       ProductClassifier.compound_rules self |}.

End ClassifierUpdate.


(* ================================================================== *)
(** * Further functions of extractors/vision_extractor.py *)
(* ================================================================== *)

Module InboundResponse.

(** The test of one entry of a brand-code list, and the code kept for
    it: a string that, stripped, is three letters.  The code kept is that
    of [str.upper] for an ASCII entry (see [PyText.upper]). *)
Definition valid_code (code : json) : list string :=
  match code with
  | JStr c =>
      if (String.length (Py.strip c) =? 3)%nat
         && PyText.str_isalpha (Py.strip c)
      then [PyText.upper (Py.strip c)]
      else []
  | _ => []
  end.

(** The brand codes of [_parse_inbound_response], from the value that
    [data.get('brand_codes', [])] returns.  [list(set(l))] leaves the
    order unspecified; the order of first occurrence is taken. *)
Definition brand_codes_of (brand_codes : json) : list string :=
  match brand_codes with
  | JStr s =>
      map (fun b => PyText.upper (Py.strip b))
          (filter (fun b => Py.truthy_str (Py.strip b))
                  (PyText.split_on "," s))
  | JList l => Py.dedup (flat_map valid_code l)
  | _ => []
  end.

Definition brand_codes (data : json_dict) : list string :=
  brand_codes_of (dict_get data "brand_codes" (JList [])).

(** [bool(v)] for a decoded value. *)
Definition json_truthy (v : json) : bool :=
  match v with
  | JNull => false
  | JBool b => b
  | JInt z => negb (z =? 0)%Z
  | JFloat x => Float.truthy x
  | JStr s => Py.truthy_str s
  | JList l => Py.truthy_list l
  | JDict d => Py.truthy_list d
  end.

(** [type(v).__name__] *)
Definition type_name (v : json) : string :=
  match v with
  | JNull => "NoneType"
  | JBool _ => "bool"
  | JInt _ => "int"
  | JFloat _ => "float"
  | JStr _ => "str"
  | JList _ => "list"
  | JDict _ => "dict"
  end.

(** [DocumentType(v)] inside its [try]: a value that is no member's gives
    [ValueError] and so [UNKNOWN]. *)
Definition document_type_of (v : json) : DocumentType.t :=
  match v with
  | JStr s =>
      match
        find (fun d => DocumentType.value d =? s)
             [DocumentType.COURIER_LABEL; DocumentType.AIR_WAYBILL;
              DocumentType.COMMERCIAL_INVOICE; DocumentType.PACKING_LIST;
              DocumentType.CARGO_PERMIT; DocumentType.SHIPMENT_REPORT;
              DocumentType.PURCHASE_ORDER; DocumentType.BILL_OF_LADING;
              DocumentType.OTHER; DocumentType.UNKNOWN]
      with
      | Some d => d
      | None => DocumentType.UNKNOWN
      end
  | _ => DocumentType.UNKNOWN
  end.

(** [TransportMode.from_string(value)] on a decoded value.  The [try] of
    [from_string] takes [ValueError] only: [value.upper()] on a true value
    that is no string raises [AttributeError], which leaves the method. *)
Definition from_string (value : json) : outcome TransportMode.t :=
  if negb (json_truthy value) then Returned TransportMode.UNKNOWN
  else
    match value with
    | JStr s => Returned (TransportMode_from_string (Some s))
    | _ =>
        Raised ("'" ++ type_name value
                    ++ "' object has no attribute 'upper'")%string
    end.

Section ParseInbound.

(** The statements of [_parse_inbound_response] after the transport mode
    is parsed, with the document type and the mode that the statements
    before them have found. *)
Variable rest :
  json_dict -> string -> Z -> ExtractionConfidence.t -> list string ->
  DocumentType.t -> option TransportMode.t -> outcome ExtractionResult.t.

(** [_parse_inbound_response]: the document type, then the mode, then
    the rest.  No statement of it stands in a [try] but the conversion to
    [DocumentType]. *)
Definition _parse_inbound_response
    (data : json_dict) (raw_response : string) (page_number : Z)
    (confidence : ExtractionConfidence.t) (errors : list string)
  : outcome ExtractionResult.t :=
  let doc_type_str := dict_get data "document_type" (JStr "UNKNOWN") in
  let doc_type := document_type_of doc_type_str in
  let mode_str := dict_get data "mode" JNull in
  let mode :=
    if json_truthy mode_str then
      match from_string mode_str with
      | Returned m => Returned (Some m)
      | Raised e => Raised e
      end
    else Returned None in
  match mode with
  | Raised e => Raised e
  | Returned mode =>
      rest data raw_response page_number confidence errors doc_type mode
  end.

End ParseInbound.

End InboundResponse.


(* ================================================================== *)
(** * The outbound records of pipeline.py *)
(* ================================================================== *)

Module ClassificationDisplay.

(** [ClassificationResult.to_string] *)
Definition to_string (self : ClassificationResult.t) : string :=
  match ClassificationResult.categories self with
  | [] => "Unknown"
  | [c] => ProductCategory.value c
  | [a; b] =>
      (ProductCategory.value a ++ " and " ++ ProductCategory.value b)%string
  | categories =>
      let cat_names := map ProductCategory.value categories in
      (String.concat ", " (removelast cat_names)
         ++ " and " ++ last cat_names "")%string
  end.

(** [classify_description], with the classifier that [get_classifier]
    returns as an argument. *)
Definition classify_description (classifier : ProductClassifier.t)
    (description : string) : string :=
  to_string (ProductClassifier.classify classifier description).

End ClassificationDisplay.

Module OutboundPipeline.

(** The text before and after the first occurrence of a separator that
    is not empty. *)
Fixpoint cut (sep s : string) : option (string * string) :=
  if String.prefix sep s then
    Some (EmptyString,
          String.substring (String.length sep)
                           (String.length s - String.length sep) s)
  else
    match s with
    | EmptyString => None
    | String c r =>
        match cut sep r with
        | Some (before, after) => Some (String c before, after)
        | None => None
        end
    end.

(** [s.split(sep)[0]] *)
Definition piece0 (sep s : string) : string :=
  match cut sep s with
  | Some (before, _) => before
  | None => s
  end.

(** [s.split(sep)[1]], where [sep] occurs in [s]. *)
Definition piece1 (sep s : string) : string :=
  match cut sep s with
  | Some (_, after) => piece0 sep after
  | None => EmptyString
  end.

(** The variables that the two blocks of [_create_outbound_shipment]
    assign. *)
Record gathered : Type := mk_gathered {
  inv_date : option date;
  awb_date : option date;
  flight_vehicle : option string;
  destination : option string;
  currency : option string;
  value : option Float.float;
  description : option string
}.

Definition from_awb (awb_result : option ExtractionResult.t) : gathered :=
  match awb_result with
  | Some awb =>
      {| inv_date := None;
         awb_date := ExtractionResult.ship_date awb;
         flight_vehicle :=
           if Py.truthy_list (ExtractionResult.flight_numbers awb)
           then Some (String.concat " / "
                        (ExtractionResult.flight_numbers awb))
           else None;
         destination :=
           if Py.truthy_ostr (ExtractionResult.destination_country awb)
           then ExtractionResult.destination_country awb else None;
         currency :=
           if Py.truthy_ostr (ExtractionResult.currency awb)
           then ExtractionResult.currency awb else None;
         value := None;
         description :=
           if Py.truthy_str (ExtractionResult.notes awb)
              && Py.contains "Description:" (ExtractionResult.notes awb)
           then Some (Py.strip
                        (piece0 "|"
                           (piece1 "Description:"
                                   (ExtractionResult.notes awb))))
           else None |}
  | None =>
      {| inv_date := None; awb_date := None; flight_vehicle := None;
         destination := None; currency := None; value := None;
         description := None |}
  end.

Definition from_invoice (inv_result : option ExtractionResult.t)
    (g : gathered) : gathered :=
  match inv_result with
  | Some inv =>
      {| inv_date := ExtractionResult.ship_date inv;
         awb_date := awb_date g;
         flight_vehicle := flight_vehicle g;
         destination :=
           if Py.truthy_ostr (ExtractionResult.destination_country inv)
           then ExtractionResult.destination_country inv
           else destination g;
         currency :=
           if Py.truthy_ostr (ExtractionResult.currency inv)
           then ExtractionResult.currency inv else currency g;
         value :=
           if Float.truthy_opt (ExtractionResult.total_value inv)
           then ExtractionResult.total_value inv else value g;
         description :=
           if negb (Py.truthy_ostr (description g))
              && Py.truthy_str (ExtractionResult.notes inv)
              && Py.contains "Description:" (ExtractionResult.notes inv)
           then Some (Py.strip (piece1 "Description:"
                                       (ExtractionResult.notes inv)))
           else description g |}
  | None => g
  end.

Definition _create_outbound_shipment (classifier : ProductClassifier.t)
    (filename : string) (inv_result awb_result : option ExtractionResult.t)
  : OutboundShipment.t :=
  let g := from_invoice inv_result (from_awb awb_result) in
  let ship_date :=
    match awb_date g with
    | Some d => Some d
    | None => inv_date g
    end in
  let itr_number := Normalize.extract_itr_number filename in
  let product_category :=
    match description g with
    | Some d =>
        if Py.truthy_str d
        then Some (ClassificationDisplay.classify_description classifier d)
        else None
    | None => None
    end in
  {| OutboundShipment.invoice_number :=
       if Py.truthy_ostr itr_number
       then match itr_number with Some n => n | None => filename end
       else filename;
     OutboundShipment.date_ := ship_date;
     OutboundShipment.flight_vehicle := flight_vehicle g;
     OutboundShipment.mode := TransportMode.AIR;
     OutboundShipment.destination := destination g;
     OutboundShipment.description := product_category;
     OutboundShipment.currency := currency g;
     OutboundShipment.value := value g;
     OutboundShipment.origin := "SINGAPORE";
     OutboundShipment.fcl_lcl := "LCL";
     OutboundShipment.awb_file :=
       match awb_result with
       | Some awb =>
           Some (String.substring 0 100 (ExtractionResult.raw_response awb))
       | None => None
       end;
     OutboundShipment.invoice_file := Some filename;
     OutboundShipment.extraction_confidence := ExtractionConfidence.MEDIUM;
     OutboundShipment.validation_issues := [] |}.

End OutboundPipeline.


(* ================================================================== *)
(** * Vocabulary of the properties, and sample inputs *)
(* ================================================================== *)

(** The literal [0.01]. *)
Definition epsilon : Float.float := Float.lit 1 100.

(** [abs(a - b) > 0.01] *)
Definition deviates (a b : Float.float) : bool :=
  Float.ltb epsilon (Float.abs (Float.sub a b)).

Definition splits_sum (r : SAPPDOData.t) : Float.float :=
  Float.sum (values (SAPPDOData.country_splits r)).

Definition has_error (issues : list ValidationIssue) : bool :=
  existsb is_error issues.

(** A ledger record with whole-number amounts. *)
Definition ledger (pdo : string) (brands : list string) (total : Z)
    (parts : list (string * Z)) : SAPPDOData.t :=
  {| SAPPDOData.pdo_number := pdo;
     SAPPDOData.brands := brands;
     SAPPDOData.currency := "USD";
     SAPPDOData.total_value := Float.of_Z total;
     SAPPDOData.country_splits :=
       map (fun kv => (fst kv, Float.of_Z (snd kv))) parts;
     SAPPDOData.source_file := "sap_export.xlsx";
     SAPPDOData.sheet_name := ("PDO" ++ pdo)%string;
     SAPPDOData.row_count := Z.of_nat (List.length parts) |}.

Definition ledger_600_400 : SAPPDOData.t :=
  ledger "2500444" ["NST"] 1000 [("SIN", 600%Z); ("MAL", 400%Z)].

Definition ledger_600_300 : SAPPDOData.t :=
  ledger "2500444" ["NST"] 1000 [("SIN", 600%Z); ("MAL", 300%Z)].

Definition ledger_no_splits : SAPPDOData.t :=
  ledger "2500444" ["NST"] 1000 [].

(** [InboundShipment(reference=...)], every other field at its default. *)
Definition inbound_default (reference : string) : InboundShipment.t :=
  {| InboundShipment.reference := reference;
     InboundShipment.etd_date := None;
     InboundShipment.tracking_or_awb := None;
     InboundShipment.incoterms := None;
     InboundShipment.mode := TransportMode.UNKNOWN;
     InboundShipment.flight_vessel := None;
     InboundShipment.origin_country := None;
     InboundShipment.destination_country := "SINGAPORE";
     InboundShipment.brands := [];
     InboundShipment.description := None;
     InboundShipment.currency := None;
     InboundShipment.total_value := None;
     InboundShipment.country_splits := [];
     InboundShipment.source_files := [];
     InboundShipment.extraction_confidence := ExtractionConfidence.MEDIUM;
     InboundShipment.validation_issues := [];
     InboundShipment.user_modified_fields := [] |}.

(** [ExtractionResult(document_type=..., confidence=...,
    tracking_or_awb=...)], every other field at its default. *)
Definition page (d : DocumentType.t) (c : ExtractionConfidence.t)
    (tracking : option string) : ExtractionResult.t :=
  {| ExtractionResult.document_type := d;
     ExtractionResult.confidence := c;
     ExtractionResult.tracking_or_awb := tracking;
     ExtractionResult.ship_date := None;
     ExtractionResult.mode := None;
     ExtractionResult.flight_numbers := [];
     ExtractionResult.origin_country := None;
     ExtractionResult.destination_country := None;
     ExtractionResult.incoterms := None;
     ExtractionResult.currency := None;
     ExtractionResult.total_value := None;
     ExtractionResult.carrier := None;
     ExtractionResult.vessel_info := None;
     ExtractionResult.container_number := None;
     ExtractionResult.brand_codes := [];
     ExtractionResult.page_number := 0;
     ExtractionResult.raw_response := "";
     ExtractionResult.notes := "";
     ExtractionResult.extraction_errors := [] |}.

(** The wording of the specification for the overall confidence: under
    the ordering HIGH > MEDIUM > LOW, the least confident value among the
    pages. *)
Definition rank (c : ExtractionConfidence.t) : nat :=
  match c with
  | ExtractionConfidence.LOW => 0
  | ExtractionConfidence.MEDIUM => 1
  | ExtractionConfidence.HIGH => 2
  end.

Definition less_confident (a b : ExtractionConfidence.t)
  : ExtractionConfidence.t :=
  if (rank a <=? rank b)%nat then a else b.

Definition spec_lowest_confidence (first : ExtractionResult.t)
    (rest : list ExtractionResult.t) : ExtractionConfidence.t :=
  fold_left (fun c r => less_confident c (ExtractionResult.confidence r))
            rest (ExtractionResult.confidence first).

Definition is_high (r : ExtractionResult.t) : bool :=
  match ExtractionResult.confidence r with
  | ExtractionConfidence.HIGH => true
  | _ => false
  end.

(** A page of a priority class that carries a tracking number. *)
Definition priority_tracking (r : ExtractionResult.t) : bool :=
  DocumentAggregator.is_priority_type (ExtractionResult.document_type r)
  && Py.truthy_ostr (ExtractionResult.tracking_or_awb r).

(** Two air-waybill pages of one document that carry different
    numbers. *)
Definition two_waybills : list ExtractionResult.t :=
  [page DocumentType.AIR_WAYBILL ExtractionConfidence.HIGH
        (Some "111-11111111");
   page DocumentType.AIR_WAYBILL ExtractionConfidence.HIGH
        (Some "222-22222222")].

(** An invoice page, an air-waybill page, an invoice page. *)
Definition invoice_waybill_invoice : list ExtractionResult.t :=
  [page DocumentType.COMMERCIAL_INVOICE ExtractionConfidence.HIGH
        (Some "INV-1");
   page DocumentType.AIR_WAYBILL ExtractionConfidence.HIGH
        (Some "111-11111111");
   page DocumentType.COMMERCIAL_INVOICE ExtractionConfidence.HIGH
        (Some "INV-2")].

(** The [auto_apply] that a call of [reconcile_inbound] works with. *)
Definition effective_auto_apply (self : ReconciliationEngine.t)
    (auto_apply : option bool) : bool :=
  match auto_apply with
  | None => ReconciliationEngine.auto_apply self
  | Some b => b
  end.

Definition is_value_mismatch (i : ReconciliationIssue.t) : bool :=
  ReconciliationType.eqb (ReconciliationIssue.issue_type i)
                         ReconciliationType.VALUE_MISMATCH.

Definition value_issues (r : ReconciliationResult.t)
  : list ReconciliationIssue.t :=
  filter is_value_mismatch (ReconciliationResult.issues r).

(** [x == 0.0] *)
Definition is_zero (x : Float.float) : bool := Float.eqb x (Float.of_Z 0).

(** An inbound record for PDO 2500444 in USD with the given total. *)
Definition shipment_of_value (total : option Float.float)
  : InboundShipment.t :=
  InboundShipment.set_total_value
    (InboundShipment.set_currency (inbound_default "PDO2500444") (Some "USD"))
    total.

(** The same record with a brand list and a region split of its own. *)
Definition shipment_with_brands : InboundShipment.t :=
  InboundShipment.set_country_splits
    (InboundShipment.set_brands (shipment_of_value (Some (Float.of_Z 1000)))
                                ["NST"])
    [("SIN", Float.of_Z 1000)].

(** A ledger with the one sheet of PDO 2500444, total 1000. *)
Definition sap_1000 : sap_dict := [("PDO2500444", ledger_600_400)].

(** The same sheet, on which neither brands nor region splits were
    found. *)
Definition sap_bare : sap_dict :=
  [("PDO2500444", ledger "2500444" [] 1000 [])].

(** A ledger with the sheets of PDO 1200430 and PDO 2500430, in this
    order. *)
Definition ledger_1200430 : SAPPDOData.t :=
  ledger "1200430" ["IFC"] 500 [("SIN", 500%Z)].

Definition ledger_2500430 : SAPPDOData.t :=
  ledger "2500430" ["NST"] 1000 [("SIN", 600%Z); ("MAL", 400%Z)].

Definition sap_two_sheets : sap_dict :=
  [("PDO1200430", ledger_1200430); ("PDO2500430", ledger_2500430)].

(** A decoder that rejects every text, and mode-specific parsers that are
    never reached, for the sample calls of [_parse_response]. *)
Definition decoder_rejecting (_ : string) : loads_result :=
  JSONDecodeError "Expecting property name enclosed in double quotes".

Definition parser_unreached (_ : json_dict) (_ : string) (_ : Z)
    (_ : ExtractionConfidence.t) (_ : list string)
  : outcome ExtractionResult.t :=
  Raised "unreached".

(** The confidence that [_parse_response] reads from a decoded object,
    and the parser that it hands the object to. *)
Definition response_confidence (data : json_dict) : ExtractionConfidence.t :=
  match dict_get data "confidence" (JStr "MEDIUM") with
  | JStr s =>
      match ExtractionConfidence.of_value s with
      | Some c => c
      | None => ExtractionConfidence.MEDIUM
      end
  | _ => ExtractionConfidence.MEDIUM
  end.

Definition mode_parser {A : Type} (prompt_type : string)
    (inbound awb invoice : A) : A :=
  if prompt_type =? "outbound_awb" then awb
  else if prompt_type =? "outbound_invoice" then invoice
  else inbound.

(** A response that is one JSON object whose mode is a number: an
    opening brace, the key [mode] between double quotes, a colon and 5, a
    closing brace. *)
Definition double_quote : string := String (ascii_of_nat 34) EmptyString.

Definition numeric_mode_response : string :=
  ("{" ++ double_quote ++ "mode" ++ double_quote ++ ": 5}")%string.

(** [json.loads] on the text of the sample response; no sample call
    gives this decoder another text that decodes. *)
Definition decoder_sample (text : string) : loads_result :=
  if text =? numeric_mode_response then Loaded [("mode", JInt 5)]
  else decoder_rejecting text.

(** A remainder of [_parse_inbound_response] that returns, so that an
    exception of a sample call comes from the statements before it. *)
Definition rest_returning (_ : json_dict) (raw_response : string)
    (page_number : Z) (_ : ExtractionConfidence.t) (errors : list string)
    (_ : DocumentType.t) (_ : option TransportMode.t)
  : outcome ExtractionResult.t :=
  Returned (ExtractionResult.failed page_number raw_response errors).

(** [description.lower().strip()] *)
Definition normalized (description : string) : string :=
  Py.strip (Py.lower description).

(** The accumulators after STEP 0 of [classify]. *)
Definition verbatim_acc (self : ProductClassifier.t) (desc_lower : string)
  : ProductClassifier.acc :=
  fold_left (ProductClassifier.verbatim_step desc_lower)
            (ProductClassifier.verbatim_labels self)
            ProductClassifier.empty_acc.

(** The entries each tier adds to the matched-rule list, in table
    order. *)
Definition verbatim_hits (self : ProductClassifier.t) (desc_lower : string)
  : list string :=
  map (fun rule => ("verbatim:" ++ fst rule)%string)
      (filter (fun rule => Py.contains (fst rule) desc_lower)
              (ProductClassifier.verbatim_labels self)).

Definition compound_hits (self : ProductClassifier.t) (desc_lower : string)
  : list string :=
  map (fun rule => ("compound:" ++ fst rule)%string)
      (filter (fun rule => Re.search (fst rule) desc_lower)
              (ProductClassifier.compound_rules self)).

Definition brand_hits (self : ProductClassifier.t) (desc_lower : string)
  : list string :=
  map (fun rule => ("brand:" ++ fst rule)%string)
      (filter (fun rule => Py.contains (fst rule) desc_lower)
              (ProductClassifier.brand_categories self)).

Definition keyword_hits (self : ProductClassifier.t) (desc_lower : string)
  : list string :=
  flat_map (fun rule =>
              match ProductClassifier.first_hit desc_lower (snd rule) with
              | Some pattern => [("keyword:" ++ pattern)%string]
              | None => []
              end)
           (ProductClassifier.keyword_patterns self).

(** The brand codes a page contributes: those of a purchase-order page. *)
Definition order_brand_codes (r : ExtractionResult.t) : list string :=
  if DocumentType.eqb (ExtractionResult.document_type r)
                      DocumentType.PURCHASE_ORDER
  then ExtractionResult.brand_codes r
  else [].

(** The first value of a list that is neither None nor empty. *)
Fixpoint first_truthy (l : list (option string)) : option string :=
  match l with
  | [] => None
  | o :: rest => if Py.truthy_ostr o then o else first_truthy rest
  end.

(** A purchase-order page and a packing-list page with brand codes. *)
Definition order_and_packing_list : list ExtractionResult.t :=
  [ {| ExtractionResult.document_type := DocumentType.PACKING_LIST;
       ExtractionResult.confidence := ExtractionConfidence.HIGH;
       ExtractionResult.tracking_or_awb := None;
       ExtractionResult.ship_date := None;
       ExtractionResult.mode := None;
       ExtractionResult.flight_numbers := [];
       ExtractionResult.origin_country := None;
       ExtractionResult.destination_country := None;
       ExtractionResult.incoterms := Some "";
       ExtractionResult.currency := None;
       ExtractionResult.total_value := None;
       ExtractionResult.carrier := None;
       ExtractionResult.vessel_info := None;
       ExtractionResult.container_number := None;
       ExtractionResult.brand_codes := ["XYZ"];
       ExtractionResult.page_number := 1;
       ExtractionResult.raw_response := "{}";
       ExtractionResult.notes := "";
       ExtractionResult.extraction_errors := [] |};
    {| ExtractionResult.document_type := DocumentType.PURCHASE_ORDER;
       ExtractionResult.confidence := ExtractionConfidence.HIGH;
       ExtractionResult.tracking_or_awb := None;
       ExtractionResult.ship_date := None;
       ExtractionResult.mode := None;
       ExtractionResult.flight_numbers := [];
       ExtractionResult.origin_country := None;
       ExtractionResult.destination_country := None;
       ExtractionResult.incoterms := Some "DAP";
       ExtractionResult.currency := None;
       ExtractionResult.total_value := None;
       ExtractionResult.carrier := None;
       ExtractionResult.vessel_info := None;
       ExtractionResult.container_number := None;
       ExtractionResult.brand_codes := ["NST"; "HLC"; "NST"];
       ExtractionResult.page_number := 2;
       ExtractionResult.raw_response := "{}";
       ExtractionResult.notes := "";
       ExtractionResult.extraction_errors := ["unreadable stamp"] |} ].

(** The fields of an inbound record that reconciliation has no
    assignment to: the shipping details taken from the documents, and the
    bookkeeping of the record. *)
Definition shipping_fields (s : InboundShipment.t) :=
  (InboundShipment.reference s, InboundShipment.etd_date s,
   InboundShipment.tracking_or_awb s, InboundShipment.incoterms s,
   InboundShipment.mode s, InboundShipment.flight_vessel s,
   InboundShipment.origin_country s, InboundShipment.destination_country s,
   InboundShipment.description s, InboundShipment.source_files s,
   InboundShipment.extraction_confidence s,
   InboundShipment.validation_issues s,
   InboundShipment.user_modified_fields s).

(** A ledger whose one sheet has region amounts that miss its total. *)
Definition sap_600_300 : sap_dict := [("PDO2500444", ledger_600_300)].


(** The identifiers that [_find_matching_sap] reads off a reference:
    its runs of seven digits, from the left and without overlap. *)
Definition seven_digit_runs (reference : string) : list string :=
  Helpers.scan ReconciliationEngine.at_digits7 0 reference.

(** The third test of [match_pdo_to_filename]: both identifiers have at
    least five characters, and the last five agree. *)
Definition last_five_agree (p q : string) : bool :=
  (5 <=? String.length p)%nat && (5 <=? String.length q)%nat
  && (SapParser.last5 p =? SapParser.last5 q).


(** A field of the aggregate that holds a value holds one that counts
    as true: a text that is not empty, a mode that is not UNKNOWN. *)
Definition holds_true {A : Type} (truthy : A -> bool) (o : option A) : Prop :=
  forall v, o = Some v -> truthy v = true.

Definition no_hollow_value (a : DocumentAggregator.t) : Prop :=
  holds_true Py.truthy_str (DocumentAggregator.tracking_or_awb a)
  /\ holds_true DocumentAggregator.known_mode (DocumentAggregator.mode a)
  /\ holds_true Py.truthy_str (DocumentAggregator.carrier a)
  /\ holds_true Py.truthy_str (DocumentAggregator.origin_country a)
  /\ holds_true Py.truthy_str (DocumentAggregator.incoterms a)
  /\ holds_true Py.truthy_str (DocumentAggregator.vessel_info a)
  /\ holds_true Py.truthy_str (DocumentAggregator.container_number a).

(** Three invoice pages; the first carries no number. *)
Definition three_invoices : list ExtractionResult.t :=
  [page DocumentType.COMMERCIAL_INVOICE ExtractionConfidence.HIGH None;
   page DocumentType.COMMERCIAL_INVOICE ExtractionConfidence.HIGH
        (Some "INV-1");
   page DocumentType.COMMERCIAL_INVOICE ExtractionConfidence.HIGH
        (Some "INV-2")].


(** The order of the categories in a result: by their value. *)
Definition by_value (a b : ProductCategory.t) : Prop :=
  String.leb (ProductCategory.value a) (ProductCategory.value b) = true.


(** The second accumulator holds everything the first one holds. *)
Definition extends (a b : ProductClassifier.acc) : Prop :=
  (forall c, In c (ProductClassifier.matched_categories a) ->
             In c (ProductClassifier.matched_categories b))
  /\ (forall p, In p (ProductClassifier.matched_patterns a) ->
                In p (ProductClassifier.matched_patterns b)).


(** A list of brand codes as a page may give it: a code with blanks
    round it, a code, a number, a word that is no code, the first code
    again. *)
Definition sample_brand_codes : list json :=
  [JStr " nst "; JStr "IFC"; JInt 5; JStr "brand"; JStr "NST"].


(** The rule tables hold patterns that the model reads. *)
Definition rules_supported (self : ProductClassifier.t) : bool :=
  forallb (fun rule => Re.supported (fst rule))
          (ProductClassifier.compound_rules self)
  && forallb (fun rule => forallb Re.supported (snd rule))
             (ProductClassifier.keyword_patterns self).

(** The categories of the rules that match, tier by tier and in table
    order, and the set they make. *)
Definition compound_categories (self : ProductClassifier.t)
    (desc_lower : string) : list ProductCategory.t :=
  flat_map (fun rule => if Re.search (fst rule) desc_lower
                        then snd rule else [])
           (ProductClassifier.compound_rules self).

Definition brand_hit_categories (self : ProductClassifier.t)
    (desc_lower : string) : list ProductCategory.t :=
  flat_map (fun rule => if Py.contains (fst rule) desc_lower
                        then [snd rule] else [])
           (ProductClassifier.brand_categories self).

Definition keyword_categories (self : ProductClassifier.t)
    (desc_lower : string) : list ProductCategory.t :=
  flat_map (fun rule =>
              match ProductClassifier.first_hit desc_lower (snd rule) with
              | Some _ => [fst rule]
              | None => []
              end)
           (ProductClassifier.keyword_patterns self).

Definition tier_categories (self : ProductClassifier.t)
    (desc_lower : string) : list ProductCategory.t :=
  fold_left ProductCategory.add
    (compound_categories self desc_lower
     ++ brand_hit_categories self desc_lower
     ++ keyword_categories self desc_lower)
    [].

(** Step 4 of [classify] on the set of categories: Medical Devices goes
    when Skincare Products is there too, the description names the
    Haenkenium cream and no keyword rule for a syringe or an injectable
    has matched. *)
Definition haenkenium_override (desc_lower : string)
    (categories : list ProductCategory.t) (patterns : list string)
  : list ProductCategory.t :=
  if ProductCategory.mem ProductCategory.MEDICAL_DEVICES categories
     && ProductCategory.mem ProductCategory.SKINCARE_PRODUCTS categories
     && Py.contains "haenkenium cream" desc_lower
     && negb (ProductClassifier.has_keyword "syringe" patterns
              || ProductClassifier.has_keyword "injectable" patterns)
  then ProductCategory.discard categories ProductCategory.MEDICAL_DEVICES
  else categories.


(* ================================================================== *)
(** * Properties *)
(* ================================================================== *)

(** ** Floating point facts *)

Lemma sub_same_finite (s : bool) (m : positive) (e : Z) :
  Float.sub (S754_finite s m e) (S754_finite s m e) = S754_zero false.
Proof.
  unfold Float.sub, SFsub.
  rewrite Z.min_id.
  unfold shl_align.
  rewrite !Z.sub_diag.
  cbn [fst].
  rewrite ?Z.sub_diag.
  reflexivity.
Qed.

Lemma finite_compare_eq (s1 s2 : bool) (m1 m2 : positive) (e1 e2 : Z) :
  Float.eqb (S754_finite s1 m1 e1) (S754_finite s2 m2 e2) = true ->
  s1 = s2 /\ m1 = m2 /\ e1 = e2.
Proof.
  unfold Float.eqb, SFeqb, SFcompare.
  change (Pos.compare_cont Eq m1 m2) with (Pos.compare m1 m2).
  destruct s1, s2; try discriminate;
    destruct (Z.compare_spec e1 e2); try discriminate;
    destruct (Pos.compare_spec m1 m2); try discriminate;
    subst; auto.
Qed.

(** Two floats that compare equal do not deviate. *)
Lemma equal_not_deviates (x y : Float.float) :
  Float.eqb x y = true -> deviates x y = false.
Proof.
  intros H.
  destruct x as [sx|sx| |sx mx ex], y as [sy|sy| |sy my ey];
    try (apply finite_compare_eq in H;
         destruct H as (-> & -> & ->);
         unfold deviates; rewrite sub_same_finite;
         vm_compute; reflexivity);
    cbv [Float.eqb SFeqb SFcompare] in H;
    repeat match goal with b : bool |- _ => destruct b end;
    try discriminate H;
    vm_compute; reflexivity.
Qed.

(** ** Ledger records: [SAPPDOData.validate] *)

(** [validate] reports an error exactly when the record has splits and
    their sum deviates from the total. *)
Lemma ledger_error_iff (r : SAPPDOData.t) :
  has_error (SAPPDOData.validate r)
  = Py.truthy_list (SAPPDOData.country_splits r)
    && deviates (splits_sum r) (SAPPDOData.total_value r).
Proof.
  unfold has_error, SAPPDOData.validate, deviates, splits_sum, epsilon.
  destruct (SAPPDOData.country_splits r) as [|kv rest];
    cbn [Py.truthy_list andb].
  - destruct (SAPPDOData.brands r); reflexivity.
  - destruct (Float.ltb _ _); destruct (SAPPDOData.brands r); reflexivity.
Qed.

(** Scenario 1 of the specification: splits 600 + 400 against 1000 give
    no error; splits 600 + 300 give exactly one, whose message carries the
    splits sum of 900. *)
Example ledger_scenario :
  filter is_error (SAPPDOData.validate ledger_600_400) = []
  /\ (exists i,
         filter is_error (SAPPDOData.validate ledger_600_300) = [i]
         /\ In (FFix 2 (Float.of_Z 900)) (message i)).
Proof.
  split; [vm_compute; reflexivity|].
  eexists. split; [vm_compute; reflexivity|].
  right. left. reflexivity.
Qed.

(** C8, as the specification states it, fails on a record without region
    splits: the sum of no splits is 0, which deviates from a total of 1000
    by more than 0.01, yet [validate] reports no error, because the check
    is made only for a record that has splits. *)
Lemma C8_counterexample_no_splits :
  deviates (splits_sum ledger_no_splits)
           (SAPPDOData.total_value ledger_no_splits) = true
  /\ has_error (SAPPDOData.validate ledger_no_splits) = false.
Proof. split; vm_compute; reflexivity. Qed.

(** C8, amended: for every ledger record that has at least one region
    split, a splits sum deviating from the total by more than 0.01 makes
    [validate] return at least one error-severity issue, and a splits sum
    equal to the total makes it return no error-severity issue. *)
Theorem C8_ledger_splits_sum_checked (r : SAPPDOData.t) :
  SAPPDOData.country_splits r <> [] ->
  (deviates (splits_sum r) (SAPPDOData.total_value r) = true ->
   exists i, In i (SAPPDOData.validate r)
             /\ severity i = ValidationSeverity.ERROR)
  /\ (Float.eqb (splits_sum r) (SAPPDOData.total_value r) = true ->
      forall i, In i (SAPPDOData.validate r) ->
                severity i <> ValidationSeverity.ERROR).
Proof.
  intros Hne.
  pose proof (ledger_error_iff r) as E.
  destruct (SAPPDOData.country_splits r) as [|kv rest] eqn:Hs; [congruence|].
  cbn [Py.truthy_list andb] in E.
  split.
  - intros Hd. rewrite Hd in E.
    unfold has_error in E. apply existsb_exists in E.
    destruct E as (i & Hi & He). exists i. split; [exact Hi|].
    unfold is_error in He. destruct (severity i); try discriminate He.
    reflexivity.
  - intros Heq i Hi Hsev.
    apply equal_not_deviates in Heq. rewrite Heq in E.
    assert (has_error (SAPPDOData.validate r) = true) as C.
    { unfold has_error. apply existsb_exists. exists i. split; [exact Hi|].
      unfold is_error. rewrite Hsev. reflexivity. }
    congruence.
Qed.

Lemma C8_ledger_splits_sum_checked_witness :
  (exists i, In i (SAPPDOData.validate ledger_600_300)
             /\ severity i = ValidationSeverity.ERROR)
  /\ (forall i, In i (SAPPDOData.validate ledger_600_400)
                -> severity i <> ValidationSeverity.ERROR).
Proof.
  split.
  - apply (C8_ledger_splits_sum_checked ledger_600_300).
    + discriminate.
    + vm_compute; reflexivity.
  - apply (C8_ledger_splits_sum_checked ledger_600_400).
    + discriminate.
    + vm_compute; reflexivity.
Defined.

(** ** Shipment records: [validate] *)

(** C9, as the specification states it, fails: [validate] assigns the
    issues it found to the record's [validation_issues] field.  A fresh
    inbound record has no stored issue before the call and two after
    it. *)
Lemma C9_counterexample_issues_stored :
  InboundShipment.validation_issues (inbound_default "PDO2500444") = []
  /\ List.length
       (InboundShipment.validation_issues
          (snd (InboundShipment.validate (inbound_default "PDO2500444"))))
     = 2%nat
  /\ snd (InboundShipment.validate (inbound_default "PDO2500444"))
     <> inbound_default "PDO2500444".
Proof.
  split; [reflexivity|].
  split; [vm_compute; reflexivity|].
  intros H.
  apply (f_equal InboundShipment.validation_issues) in H.
  vm_compute in H. discriminate H.
Qed.

(** The issues of an inbound record depend on six of its fields only. *)
Lemma inbound_issues_depend_on (s1 s2 : InboundShipment.t) :
  InboundShipment.tracking_or_awb s1 = InboundShipment.tracking_or_awb s2 ->
  InboundShipment.etd_date s1 = InboundShipment.etd_date s2 ->
  InboundShipment.mode s1 = InboundShipment.mode s2 ->
  InboundShipment.flight_vessel s1 = InboundShipment.flight_vessel s2 ->
  InboundShipment.total_value s1 = InboundShipment.total_value s2 ->
  InboundShipment.country_splits s1 = InboundShipment.country_splits s2 ->
  InboundShipment.issues_of s1 = InboundShipment.issues_of s2.
Proof.
  intros Ht Hd Hm Hf Hv Hc.
  unfold InboundShipment.issues_of.
  rewrite Ht, Hd, Hm, Hf, Hv, Hc. reflexivity.
Qed.

(** The issues of an outbound record depend on three of its fields
    only. *)
Lemma outbound_issues_depend_on (s1 s2 : OutboundShipment.t) :
  OutboundShipment.invoice_number s1 = OutboundShipment.invoice_number s2 ->
  OutboundShipment.currency s1 = OutboundShipment.currency s2 ->
  OutboundShipment.value s1 = OutboundShipment.value s2 ->
  OutboundShipment.issues_of s1 = OutboundShipment.issues_of s2.
Proof.
  intros Hi Hc Hv.
  unfold OutboundShipment.issues_of.
  rewrite Hi, Hc, Hv. reflexivity.
Qed.

(** C9, amended: for every inbound and every outbound record, the issues
    that [validate] returns are a function of the record's field values
    other than [validation_issues] (two records that agree on the fields
    the rules read get the same issues, the stored issues have no
    influence, and a second call returns the same issues); the call leaves
    every field unchanged except [validation_issues], which it overwrites
    with the issues it returns. *)
Theorem C9_validate_frame :
  (forall (s : InboundShipment.t),
      (forall s2,
          InboundShipment.tracking_or_awb s
          = InboundShipment.tracking_or_awb s2 ->
          InboundShipment.etd_date s = InboundShipment.etd_date s2 ->
          InboundShipment.mode s = InboundShipment.mode s2 ->
          InboundShipment.flight_vessel s = InboundShipment.flight_vessel s2 ->
          InboundShipment.total_value s = InboundShipment.total_value s2 ->
          InboundShipment.country_splits s
          = InboundShipment.country_splits s2 ->
          fst (InboundShipment.validate s) = fst (InboundShipment.validate s2))
      /\ (forall v, fst (InboundShipment.validate
                           (InboundShipment.set_validation_issues s v))
                    = fst (InboundShipment.validate s))
      /\ fst (InboundShipment.validate (snd (InboundShipment.validate s)))
         = fst (InboundShipment.validate s)
      /\ InboundShipment.validation_issues (snd (InboundShipment.validate s))
         = fst (InboundShipment.validate s)
      /\ (let s' := snd (InboundShipment.validate s) in
          InboundShipment.reference s' = InboundShipment.reference s
          /\ InboundShipment.etd_date s' = InboundShipment.etd_date s
          /\ InboundShipment.tracking_or_awb s'
             = InboundShipment.tracking_or_awb s
          /\ InboundShipment.incoterms s' = InboundShipment.incoterms s
          /\ InboundShipment.mode s' = InboundShipment.mode s
          /\ InboundShipment.flight_vessel s' = InboundShipment.flight_vessel s
          /\ InboundShipment.origin_country s'
             = InboundShipment.origin_country s
          /\ InboundShipment.destination_country s'
             = InboundShipment.destination_country s
          /\ InboundShipment.brands s' = InboundShipment.brands s
          /\ InboundShipment.description s' = InboundShipment.description s
          /\ InboundShipment.currency s' = InboundShipment.currency s
          /\ InboundShipment.total_value s' = InboundShipment.total_value s
          /\ InboundShipment.country_splits s'
             = InboundShipment.country_splits s
          /\ InboundShipment.source_files s' = InboundShipment.source_files s
          /\ InboundShipment.extraction_confidence s'
             = InboundShipment.extraction_confidence s
          /\ InboundShipment.user_modified_fields s'
             = InboundShipment.user_modified_fields s))
  /\ (forall (s : OutboundShipment.t),
      (forall s2,
          OutboundShipment.invoice_number s
          = OutboundShipment.invoice_number s2 ->
          OutboundShipment.currency s = OutboundShipment.currency s2 ->
          OutboundShipment.value s = OutboundShipment.value s2 ->
          fst (OutboundShipment.validate s)
          = fst (OutboundShipment.validate s2))
      /\ (forall v, fst (OutboundShipment.validate
                           (OutboundShipment.set_validation_issues s v))
                    = fst (OutboundShipment.validate s))
      /\ fst (OutboundShipment.validate (snd (OutboundShipment.validate s)))
         = fst (OutboundShipment.validate s)
      /\ OutboundShipment.validation_issues
           (snd (OutboundShipment.validate s))
         = fst (OutboundShipment.validate s)
      /\ (let s' := snd (OutboundShipment.validate s) in
          OutboundShipment.invoice_number s'
          = OutboundShipment.invoice_number s
          /\ OutboundShipment.date_ s' = OutboundShipment.date_ s
          /\ OutboundShipment.flight_vehicle s'
             = OutboundShipment.flight_vehicle s
          /\ OutboundShipment.mode s' = OutboundShipment.mode s
          /\ OutboundShipment.destination s' = OutboundShipment.destination s
          /\ OutboundShipment.description s' = OutboundShipment.description s
          /\ OutboundShipment.currency s' = OutboundShipment.currency s
          /\ OutboundShipment.value s' = OutboundShipment.value s
          /\ OutboundShipment.origin s' = OutboundShipment.origin s
          /\ OutboundShipment.fcl_lcl s' = OutboundShipment.fcl_lcl s
          /\ OutboundShipment.awb_file s' = OutboundShipment.awb_file s
          /\ OutboundShipment.invoice_file s'
             = OutboundShipment.invoice_file s
          /\ OutboundShipment.extraction_confidence s'
             = OutboundShipment.extraction_confidence s)).
Proof.
  split; intros s.
  - split.
    + intros s2 Ht Hd Hm Hf Hv Hc.
      apply (inbound_issues_depend_on s s2); assumption.
    + repeat split; intros; reflexivity.
  - split.
    + intros s2 Hi Hc Hv.
      apply (outbound_issues_depend_on s s2); assumption.
    + repeat split; intros; reflexivity.
Qed.

Lemma C9_validate_frame_witness :
  fst (InboundShipment.validate (inbound_default "PDO2500444"))
  = fst (InboundShipment.validate
           (InboundShipment.set_brands (inbound_default "PDO2500445")
                                       ["NST"])).
Proof.
  apply (proj1 (proj1 C9_validate_frame (inbound_default "PDO2500444")));
    reflexivity.
Defined.

(** ** Aggregation: the overall confidence *)

Lemma step_confidence (a : DocumentAggregator.t) (r : ExtractionResult.t) :
  DocumentAggregator.confidence (DocumentAggregator.step a r)
  = if Py.str_lt
         (ExtractionConfidence.value (ExtractionResult.confidence r))
         (ExtractionConfidence.value (DocumentAggregator.confidence a))
    then ExtractionResult.confidence r
    else DocumentAggregator.confidence a.
Proof. reflexivity. Qed.

(** Once HIGH, the running confidence stays HIGH. *)
Lemma confidence_high_sticks (results : list ExtractionResult.t) :
  forall a,
    DocumentAggregator.confidence a = ExtractionConfidence.HIGH ->
    DocumentAggregator.confidence
      (fold_left DocumentAggregator.step results a)
    = ExtractionConfidence.HIGH.
Proof.
  induction results as [|r rest IH]; intros a Ha; cbn [fold_left].
  - exact Ha.
  - apply IH. rewrite step_confidence, Ha.
    destruct (ExtractionResult.confidence r); reflexivity.
Qed.

(** From LOW, the running confidence becomes HIGH at the first HIGH page
    and is LOW without one. *)
Lemma confidence_from_low (results : list ExtractionResult.t) :
  forall a,
    DocumentAggregator.confidence a = ExtractionConfidence.LOW ->
    DocumentAggregator.confidence
      (fold_left DocumentAggregator.step results a)
    = if existsb is_high results then ExtractionConfidence.HIGH
      else ExtractionConfidence.LOW.
Proof.
  induction results as [|r rest IH]; intros a Ha; cbn [fold_left existsb].
  - exact Ha.
  - unfold is_high at 1.
    destruct (ExtractionResult.confidence r) eqn:Hr; cbn [orb].
    + apply confidence_high_sticks.
      rewrite step_confidence, Ha, Hr. reflexivity.
    + apply IH. rewrite step_confidence, Ha, Hr. reflexivity.
    + apply IH. rewrite step_confidence, Ha, Hr. reflexivity.
Qed.

Lemma aggregate_confidence (results : list ExtractionResult.t)
    (filename : string) :
  DocumentAggregator.confidence
    (DocumentAggregator.aggregate_inbound results filename)
  = if existsb is_high results then ExtractionConfidence.HIGH
    else ExtractionConfidence.LOW.
Proof.
  unfold DocumentAggregator.aggregate_inbound.
  change (DocumentAggregator.confidence (DocumentAggregator.finish ?a))
    with (DocumentAggregator.confidence a).
  apply confidence_from_low. reflexivity.
Qed.

(** C2, as the specification states it, fails: a HIGH page followed by a
    LOW page aggregates to HIGH, while the least confident of the two is
    LOW. *)
Lemma C2_counterexample_high_then_low :
  DocumentAggregator.confidence
    (DocumentAggregator.aggregate_inbound
       [page DocumentType.AIR_WAYBILL ExtractionConfidence.HIGH None;
        page DocumentType.COMMERCIAL_INVOICE ExtractionConfidence.LOW None]
       "PDO 2500444.pdf")
  = ExtractionConfidence.HIGH
  /\ spec_lowest_confidence
       (page DocumentType.AIR_WAYBILL ExtractionConfidence.HIGH None)
       [page DocumentType.COMMERCIAL_INVOICE ExtractionConfidence.LOW None]
     = ExtractionConfidence.LOW.
Proof. split; vm_compute; reflexivity. Qed.

(** C2, amended: for every sequence of page-level results, the overall
    confidence of the aggregate is HIGH as soon as one page is HIGH,
    whatever the other pages are (the highest value wins over LOW), and it
    is LOW when every page is LOW. *)
Theorem C2_confidence_high_wins (results : list ExtractionResult.t)
    (filename : string) :
  ((exists r, In r results
              /\ ExtractionResult.confidence r = ExtractionConfidence.HIGH) ->
   DocumentAggregator.confidence
     (DocumentAggregator.aggregate_inbound results filename)
   = ExtractionConfidence.HIGH)
  /\ ((forall r, In r results ->
                 ExtractionResult.confidence r = ExtractionConfidence.LOW) ->
      DocumentAggregator.confidence
        (DocumentAggregator.aggregate_inbound results filename)
      = ExtractionConfidence.LOW).
Proof.
  unfold DocumentAggregator.aggregate_inbound.
  change (DocumentAggregator.confidence (DocumentAggregator.finish ?a))
    with (DocumentAggregator.confidence a).
  rewrite (confidence_from_low results DocumentAggregator.initial eq_refl).
  split.
  - intros (r & Hin & Hr).
    assert (existsb is_high results = true) as ->; [|reflexivity].
    apply existsb_exists. exists r. split; [exact Hin|].
    unfold is_high. rewrite Hr. reflexivity.
  - intros Hall.
    destruct (existsb is_high results) eqn:E; [|reflexivity].
    apply existsb_exists in E. destruct E as (r & Hin & Hr).
    unfold is_high in Hr. rewrite (Hall r Hin) in Hr. discriminate Hr.
Qed.

Lemma C2_confidence_high_wins_witness :
  DocumentAggregator.confidence
    (DocumentAggregator.aggregate_inbound
       [page DocumentType.COMMERCIAL_INVOICE ExtractionConfidence.LOW None;
        page DocumentType.AIR_WAYBILL ExtractionConfidence.HIGH None]
       "PDO 2500444.pdf")
  = ExtractionConfidence.HIGH
  /\ DocumentAggregator.confidence
       (DocumentAggregator.aggregate_inbound
          [page DocumentType.COMMERCIAL_INVOICE ExtractionConfidence.LOW None]
          "PDO 2500444.pdf")
     = ExtractionConfidence.LOW.
Proof.
  split.
  - apply (C2_confidence_high_wins
             [page DocumentType.COMMERCIAL_INVOICE ExtractionConfidence.LOW
                   None;
              page DocumentType.AIR_WAYBILL ExtractionConfidence.HIGH None]).
    eexists. split; [right; left; reflexivity | reflexivity].
  - apply (C2_confidence_high_wins
             [page DocumentType.COMMERCIAL_INVOICE ExtractionConfidence.LOW
                   None]).
    intros r [<- | []]. reflexivity.
Defined.

(** ** Aggregation: the priority-governed fields *)

Lemma step_tracking (a : DocumentAggregator.t) (r : ExtractionResult.t) :
  DocumentAggregator.tracking_or_awb (DocumentAggregator.step a r)
  = DocumentAggregator.priority_assign Py.truthy_str
      (DocumentAggregator.is_priority_type (ExtractionResult.document_type r))
      (DocumentAggregator.tracking_or_awb a)
      (ExtractionResult.tracking_or_awb r).
Proof. reflexivity. Qed.

(** A page of a priority class that carries a number writes it, whatever
    the field held. *)
Lemma priority_page_writes (a : DocumentAggregator.t)
    (r : ExtractionResult.t) :
  priority_tracking r = true ->
  DocumentAggregator.tracking_or_awb (DocumentAggregator.step a r)
  = ExtractionResult.tracking_or_awb r.
Proof.
  unfold priority_tracking. intros H.
  apply andb_true_iff in H. destruct H as [Hp Ht].
  rewrite step_tracking, Hp.
  unfold DocumentAggregator.priority_assign.
  destruct (ExtractionResult.tracking_or_awb r) as [v|]; [|discriminate Ht].
  cbn [Py.truthy_ostr] in Ht. rewrite Ht. reflexivity.
Qed.

(** A page that is not such a page leaves a field that is set as it is. *)
Lemma other_page_keeps (a : DocumentAggregator.t) (r : ExtractionResult.t)
    (v : string) :
  priority_tracking r = false ->
  DocumentAggregator.tracking_or_awb a = Some v ->
  DocumentAggregator.tracking_or_awb (DocumentAggregator.step a r) = Some v.
Proof.
  unfold priority_tracking. intros H Ha.
  rewrite step_tracking, Ha.
  unfold DocumentAggregator.priority_assign.
  destruct (ExtractionResult.tracking_or_awb r) as [w|]; [|reflexivity].
  cbn [Py.truthy_ostr] in H.
  destruct (Py.truthy_str w); [|reflexivity].
  rewrite andb_true_r in H. rewrite H. reflexivity.
Qed.

Lemma other_pages_keep (post : list ExtractionResult.t) :
  forall a v,
    (forall q, In q post -> priority_tracking q = false) ->
    DocumentAggregator.tracking_or_awb a = Some v ->
    DocumentAggregator.tracking_or_awb
      (fold_left DocumentAggregator.step post a) = Some v.
Proof.
  induction post as [|q rest IH]; intros a v Hall Ha; cbn [fold_left].
  - exact Ha.
  - apply IH.
    + intros q' Hq'. apply Hall. right. exact Hq'.
    + apply other_page_keeps; [apply Hall; left; reflexivity | exact Ha].
Qed.

(** The number of the last priority-class page that carries one is the
    number of the aggregate, whatever came before it: values of other
    pages, earlier or later, never win over it, but an earlier
    priority-class page does not either. *)
Lemma last_priority_page_wins (pre post : list ExtractionResult.t)
    (p : ExtractionResult.t) (filename : string) :
  priority_tracking p = true ->
  (forall q, In q post -> priority_tracking q = false) ->
  DocumentAggregator.tracking_or_awb
    (DocumentAggregator.aggregate_inbound (pre ++ p :: post) filename)
  = ExtractionResult.tracking_or_awb p.
Proof.
  intros Hp Hpost.
  unfold DocumentAggregator.aggregate_inbound.
  change (DocumentAggregator.tracking_or_awb (DocumentAggregator.finish ?a))
    with (DocumentAggregator.tracking_or_awb a).
  rewrite fold_left_app. cbn [fold_left].
  pose proof (priority_page_writes
                (fold_left DocumentAggregator.step pre
                           DocumentAggregator.initial) p Hp) as Hw.
  destruct (ExtractionResult.tracking_or_awb p) as [v|] eqn:Hv.
  - apply other_pages_keep; assumption.
  - unfold priority_tracking in Hp. rewrite Hv in Hp.
    rewrite andb_false_r in Hp. discriminate Hp.
Qed.

(** The first two parts of C1 on a sample: the waybill's number wins over
    the invoice numbers before and after it. *)
Example waybill_wins_over_invoices :
  DocumentAggregator.tracking_or_awb
    (DocumentAggregator.aggregate_inbound invoice_waybill_invoice
       "PDO 2500444.pdf")
  = Some "111-11111111".
Proof.
  apply (last_priority_page_wins
           [page DocumentType.COMMERCIAL_INVOICE ExtractionConfidence.HIGH
                 (Some "INV-1")]
           [page DocumentType.COMMERCIAL_INVOICE ExtractionConfidence.HIGH
                 (Some "INV-2")]
           (page DocumentType.AIR_WAYBILL ExtractionConfidence.HIGH
                 (Some "111-11111111"))).
  - reflexivity.
  - intros q [<- | []]. reflexivity.
Defined.

(** C1: the code departs from the claim in its last part.  Of two
    air-waybill pages with different numbers, the second page's number is
    the one the aggregate holds: a later priority-class page overwrites
    the value of an earlier one, where the claim (and the aggregator's own
    documented decision that the first valid value wins) keeps the
    first. *)
Theorem C1_later_priority_page_overwrites :
  DocumentAggregator.tracking_or_awb
    (DocumentAggregator.aggregate_inbound two_waybills "PDO 2500444.pdf")
  = Some "222-22222222"
  /\ DocumentAggregator.tracking_or_awb
       (DocumentAggregator.aggregate_inbound two_waybills "PDO 2500444.pdf")
     <> ExtractionResult.tracking_or_awb
          (page DocumentType.AIR_WAYBILL ExtractionConfidence.HIGH
                (Some "111-11111111")).
Proof.
  assert (DocumentAggregator.tracking_or_awb
            (DocumentAggregator.aggregate_inbound two_waybills
               "PDO 2500444.pdf")
          = Some "222-22222222") as E.
  { unfold DocumentAggregator.aggregate_inbound, two_waybills.
    cbn [fold_left].
    change (DocumentAggregator.tracking_or_awb
              (DocumentAggregator.finish ?a))
      with (DocumentAggregator.tracking_or_awb a).
    rewrite step_tracking. reflexivity. }
  split; [exact E|].
  rewrite E. discriminate.
Qed.

(** ** Reconciliation *)

Lemma of_Z_zero : Float.of_Z 0 = S754_zero false.
Proof. reflexivity. Qed.

Lemma is_zero_not_truthy (x : Float.float) :
  is_zero x = true -> Float.truthy x = false.
Proof.
  unfold is_zero. rewrite of_Z_zero.
  destruct x as [sx|sx| |sx mx ex]; try reflexivity;
    cbv [Float.eqb SFeqb SFcompare];
    repeat match goal with b : bool |- _ => destruct b end;
    discriminate.
Qed.

(** The currency check reports no value mismatch and touches only the
    currency. *)
Lemma check_currency_frame (aa : bool) (l : SAPPDOData.t)
    (s : InboundShipment.t) :
  let r := ReconciliationEngine.check_currency aa l s in
  filter is_value_mismatch (fst r) = []
  /\ InboundShipment.total_value (snd r) = InboundShipment.total_value s
  /\ InboundShipment.brands (snd r) = InboundShipment.brands s
  /\ InboundShipment.country_splits (snd r)
     = InboundShipment.country_splits s.
Proof.
  unfold ReconciliationEngine.check_currency.
  destruct (InboundShipment.currency s) as [doc|]; cbn;
    [|repeat split; reflexivity].
  destruct (Py.truthy_str doc && Py.truthy_str (SAPPDOData.currency l));
    [|repeat split; reflexivity].
  destruct (negb (doc =? SAPPDOData.currency l)%string);
    [|repeat split; reflexivity].
  destruct aa; repeat split; reflexivity.
Qed.

(** The value check touches only the total value. *)
Lemma check_value_frame (self : ReconciliationEngine.t) (aa : bool)
    (l : SAPPDOData.t) (s : InboundShipment.t) :
  let r := ReconciliationEngine.check_value self aa l s in
  InboundShipment.brands (snd r) = InboundShipment.brands s
  /\ InboundShipment.country_splits (snd r)
     = InboundShipment.country_splits s.
Proof.
  unfold ReconciliationEngine.check_value.
  destruct (InboundShipment.total_value s) as [doc|];
    [|split; reflexivity].
  destruct (Float.truthy doc && Float.truthy (SAPPDOData.total_value l));
    [|split; reflexivity].
  destruct (Float.ltb _ _); [|split; reflexivity].
  destruct aa; split; reflexivity.
Qed.

(** What the value check reports. *)
Lemma check_value_issues (self : ReconciliationEngine.t) (aa : bool)
    (l : SAPPDOData.t) (s : InboundShipment.t) :
  fst (ReconciliationEngine.check_value self aa l s)
  = match InboundShipment.total_value s with
    | Some doc =>
        if Float.truthy doc && Float.truthy (SAPPDOData.total_value l)
           && Float.ltb (ReconciliationEngine.tolerance self)
                (ReconciliationEngine.diff_pct doc (SAPPDOData.total_value l))
        then [ReconciliationEngine.value_mismatch
                (ReconciliationEngine.diff_pct doc (SAPPDOData.total_value l))
                (SAPPDOData.total_value l) doc]
        else []
    | None => []
    end.
Proof.
  unfold ReconciliationEngine.check_value.
  destruct (InboundShipment.total_value s) as [doc|]; [|reflexivity].
  destruct (Float.truthy doc && Float.truthy (SAPPDOData.total_value l));
    [|reflexivity].
  cbn [andb].
  destruct (Float.ltb _ _); reflexivity.
Qed.

(** The result of a call that found a ledger record, in terms of the two
    checks and the closing block. *)
Lemma reconcile_matched (self : ReconciliationEngine.t)
    (s : InboundShipment.t) (sap_data : sap_dict) (auto_apply : option bool)
    (l : SAPPDOData.t) :
  ReconciliationEngine._find_matching_sap
    self (InboundShipment.reference s) sap_data = Some l ->
  let aa := effective_auto_apply self auto_apply in
  let c := ReconciliationEngine.check_currency aa l s in
  let v := ReconciliationEngine.check_value self aa l (snd c) in
  ReconciliationResult.issues
    (fst (ReconciliationEngine.reconcile_inbound self s sap_data auto_apply))
  = fst c ++ fst v
  /\ snd (ReconciliationEngine.reconcile_inbound self s sap_data auto_apply)
     = if aa then ReconciliationEngine.apply_sap l (snd v) else snd v.
Proof.
  intros H.
  unfold ReconciliationEngine.reconcile_inbound, effective_auto_apply.
  rewrite H.
  destruct (ReconciliationEngine.check_currency _ l s) as [ci s1].
  cbn [fst snd].
  destruct (ReconciliationEngine.check_value self _ l s1) as [vi s2].
  cbn [fst snd app].
  destruct (match auto_apply with
            | Some b => b
            | None => ReconciliationEngine.auto_apply self
            end); split; reflexivity.
Qed.

Lemma value_mismatch_is_value_issue (pct sap doc : Float.float) :
  is_value_mismatch (ReconciliationEngine.value_mismatch pct sap doc) = true.
Proof. reflexivity. Qed.

(** The value-mismatch issues of a call that found a ledger record. *)
Lemma reconcile_value_issues (self : ReconciliationEngine.t)
    (s : InboundShipment.t) (sap_data : sap_dict) (auto_apply : option bool)
    (l : SAPPDOData.t) :
  ReconciliationEngine._find_matching_sap
    self (InboundShipment.reference s) sap_data = Some l ->
  value_issues
    (fst (ReconciliationEngine.reconcile_inbound self s sap_data auto_apply))
  = match InboundShipment.total_value s with
    | Some doc =>
        if Float.truthy doc && Float.truthy (SAPPDOData.total_value l)
           && Float.ltb (ReconciliationEngine.tolerance self)
                (ReconciliationEngine.diff_pct doc (SAPPDOData.total_value l))
        then [ReconciliationEngine.value_mismatch
                (ReconciliationEngine.diff_pct doc (SAPPDOData.total_value l))
                (SAPPDOData.total_value l) doc]
        else []
    | None => []
    end.
Proof.
  intros H.
  destruct (reconcile_matched self s sap_data auto_apply l H) as [Hi _].
  unfold value_issues. rewrite Hi.
  pose proof (check_currency_frame
                (effective_auto_apply self auto_apply) l s) as F.
  cbv zeta in F. destruct F as (Fi & Ft & _).
  rewrite filter_app, Fi, check_value_issues, Ft.
  cbn [app].
  destruct (InboundShipment.total_value s) as [doc|]; [|reflexivity].
  destruct (Float.truthy doc && Float.truthy (SAPPDOData.total_value l)
            && Float.ltb _ _); [|reflexivity].
  cbn [filter]. rewrite value_mismatch_is_value_issue. reflexivity.
Qed.

(** With [auto_apply], the closing block decides the four ledger-sourced
    fields. *)
Lemma reconcile_applied (self : ReconciliationEngine.t)
    (s : InboundShipment.t) (sap_data : sap_dict) (auto_apply : option bool)
    (l : SAPPDOData.t) :
  ReconciliationEngine._find_matching_sap
    self (InboundShipment.reference s) sap_data = Some l ->
  effective_auto_apply self auto_apply = true ->
  let s' :=
    snd (ReconciliationEngine.reconcile_inbound self s sap_data auto_apply) in
  InboundShipment.currency s' = Some (SAPPDOData.currency l)
  /\ InboundShipment.total_value s' = Some (SAPPDOData.total_value l)
  /\ InboundShipment.brands s'
     = (if Py.truthy_list (SAPPDOData.brands l)
        then SAPPDOData.brands l else InboundShipment.brands s)
  /\ InboundShipment.country_splits s'
     = (if Py.truthy_list (SAPPDOData.country_splits l)
        then SAPPDOData.country_splits l
        else InboundShipment.country_splits s).
Proof.
  intros H Haa.
  destruct (reconcile_matched self s sap_data auto_apply l H) as [_ Hs].
  cbv zeta in Hs. rewrite Haa in Hs.
  cbv zeta. rewrite Hs.
  pose proof (check_currency_frame true l s) as Fc.
  cbv zeta in Fc. destruct Fc as (_ & _ & Fcb & Fcs).
  pose proof (check_value_frame self true l
                (snd (ReconciliationEngine.check_currency true l s))) as Fv.
  cbv zeta in Fv. destruct Fv as (Fvb & Fvs).
  rewrite <- Fcb, <- Fcs, <- Fvb, <- Fvs.
  unfold ReconciliationEngine.apply_sap.
  destruct (Py.truthy_list (SAPPDOData.brands l));
    destruct (Py.truthy_list (SAPPDOData.country_splits l));
    repeat split; reflexivity.
Qed.

(** Scenario 3 of the specification, first half: 1050.0 against a ledger
    value of 1000.0 is a deviation of exactly 5.0, which does not exceed
    the tolerance of 5.0. *)
Example deviation_1050 :
  ReconciliationEngine.diff_pct (Float.of_Z 1050) (Float.of_Z 1000)
  = Float.of_Z 5.
Proof. vm_compute; reflexivity. Qed.

(** C4, as stated, fails for a document value that is present and is 0.0:
    against a ledger value of 1000.0 the deviation is 100.0, which exceeds
    the tolerance of 5.0, yet no value-mismatch issue is produced, because
    the check is skipped when either value is zero. *)
Lemma C4_counterexample_zero_value :
  InboundShipment.total_value (shipment_of_value (Some (Float.of_Z 0)))
  = Some (Float.of_Z 0)
  /\ ReconciliationEngine._find_matching_sap ReconciliationEngine.default
       (InboundShipment.reference (shipment_of_value (Some (Float.of_Z 0))))
       sap_1000
     = Some ledger_600_400
  /\ Float.ltb (ReconciliationEngine.tolerance ReconciliationEngine.default)
       (ReconciliationEngine.diff_pct
          (Float.of_Z 0) (SAPPDOData.total_value ledger_600_400))
     = true
  /\ value_issues
       (fst (ReconciliationEngine.reconcile_inbound
               ReconciliationEngine.default
               (shipment_of_value (Some (Float.of_Z 0))) sap_1000 None))
     = [].
Proof. repeat split; vm_compute; reflexivity. Qed.

(** C4, amended: for every reconciliation in which a ledger record is
    matched and both the document value and the ledger value are present
    and not zero, a value-mismatch issue is produced exactly when
    [abs(shipment_value - ledger_value) / ledger_value * 100] strictly
    exceeds the tolerance; there is then exactly one, its severity is info
    when the deviation is under 10 and warning otherwise, and it is
    auto-resolvable.  With the default tolerance of 5, 1050.0 against
    1000.0 gives no value-mismatch issue; 1200.0 against 1000.0 gives
    exactly one, a warning, and with auto-apply the shipment's value is
    1000.0 afterwards. *)
Theorem C4_value_mismatch_rule :
  (forall (self : ReconciliationEngine.t) (s : InboundShipment.t)
          (sap_data : sap_dict) (auto_apply : option bool)
          (l : SAPPDOData.t) (doc : Float.float),
      ReconciliationEngine._find_matching_sap
        self (InboundShipment.reference s) sap_data = Some l ->
      InboundShipment.total_value s = Some doc ->
      Float.truthy doc = true ->
      Float.truthy (SAPPDOData.total_value l) = true ->
      let pct :=
        ReconciliationEngine.diff_pct doc (SAPPDOData.total_value l) in
      let found :=
        value_issues
          (fst (ReconciliationEngine.reconcile_inbound
                  self s sap_data auto_apply)) in
      (Float.ltb (ReconciliationEngine.tolerance self) pct = true ->
       exists i,
         found = [i]
         /\ ReconciliationIssue.severity i
            = (if Float.ltb pct (Float.of_Z 10)
               then ValidationSeverity.INFO else ValidationSeverity.WARNING)
         /\ ReconciliationIssue.auto_resolvable i = true)
      /\ (Float.ltb (ReconciliationEngine.tolerance self) pct = false ->
          found = []))
  /\ value_issues
       (fst (ReconciliationEngine.reconcile_inbound
               ReconciliationEngine.default
               (shipment_of_value (Some (Float.of_Z 1050))) sap_1000 None))
     = []
  /\ (exists i,
         value_issues
           (fst (ReconciliationEngine.reconcile_inbound
                   ReconciliationEngine.default
                   (shipment_of_value (Some (Float.of_Z 1200))) sap_1000
                   (Some true)))
         = [i]
         /\ ReconciliationIssue.severity i = ValidationSeverity.WARNING)
  /\ InboundShipment.total_value
       (snd (ReconciliationEngine.reconcile_inbound
               ReconciliationEngine.default
               (shipment_of_value (Some (Float.of_Z 1200))) sap_1000
               (Some true)))
     = Some (Float.of_Z 1000).
Proof.
  split; [|split; [|split]].
  - intros self s sap_data auto_apply l doc Hm Hdoc Ht Hl pct found.
    subst found.
    rewrite (reconcile_value_issues self s sap_data auto_apply l Hm).
    rewrite Hdoc, Ht, Hl. cbn [andb]. fold pct.
    split; intros Hc; rewrite Hc; [|reflexivity].
    eexists. split; [reflexivity|]. split; reflexivity.
  - vm_compute; reflexivity.
  - eexists. split; vm_compute; reflexivity.
  - vm_compute; reflexivity.
Qed.

Lemma C4_value_mismatch_rule_witness :
  exists i,
    value_issues
      (fst (ReconciliationEngine.reconcile_inbound
              ReconciliationEngine.default
              (shipment_of_value (Some (Float.of_Z 1080))) sap_1000 None))
    = [i]
    /\ ReconciliationIssue.severity i
       = (if Float.ltb
               (ReconciliationEngine.diff_pct
                  (Float.of_Z 1080) (SAPPDOData.total_value ledger_600_400))
               (Float.of_Z 10)
          then ValidationSeverity.INFO else ValidationSeverity.WARNING)
    /\ ReconciliationIssue.auto_resolvable i = true.
Proof.
  apply (proj1 C4_value_mismatch_rule
           ReconciliationEngine.default
           (shipment_of_value (Some (Float.of_Z 1080))) sap_1000 None
           ledger_600_400 (Float.of_Z 1080));
    vm_compute; reflexivity.
Defined.

(** C5, as stated, fails when the matched ledger record carries no brand
    and no region split: with auto-apply the shipment keeps its own brand
    list and its own splits instead of taking the ledger's empty ones. *)
Lemma C5_counterexample_bare_ledger :
  ReconciliationEngine._find_matching_sap ReconciliationEngine.default
    (InboundShipment.reference shipment_with_brands) sap_bare
  = Some (ledger "2500444" [] 1000 [])
  /\ InboundShipment.brands
       (snd (ReconciliationEngine.reconcile_inbound
               ReconciliationEngine.default shipment_with_brands sap_bare
               (Some true)))
     = ["NST"]
  /\ InboundShipment.brands
       (snd (ReconciliationEngine.reconcile_inbound
               ReconciliationEngine.default shipment_with_brands sap_bare
               (Some true)))
     <> SAPPDOData.brands (ledger "2500444" [] 1000 [])
  /\ InboundShipment.country_splits
       (snd (ReconciliationEngine.reconcile_inbound
               ReconciliationEngine.default shipment_with_brands sap_bare
               (Some true)))
     <> SAPPDOData.country_splits (ledger "2500444" [] 1000 []).
Proof.
  repeat split; try (vm_compute; reflexivity);
    intros H; vm_compute in H; discriminate H.
Qed.

(** C5, amended: for every reconciliation call with auto-apply in which a
    ledger record is matched, whatever issues the checks reported, the
    shipment's currency and total value are afterwards the ledger
    record's; its brand list is the ledger record's when that list is not
    empty and is left as it was otherwise, and likewise its region
    splits. *)
Theorem C5_auto_apply_overwrites (self : ReconciliationEngine.t)
    (s : InboundShipment.t) (sap_data : sap_dict) (auto_apply : option bool)
    (l : SAPPDOData.t) :
  ReconciliationEngine._find_matching_sap
    self (InboundShipment.reference s) sap_data = Some l ->
  effective_auto_apply self auto_apply = true ->
  let s' :=
    snd (ReconciliationEngine.reconcile_inbound self s sap_data auto_apply) in
  InboundShipment.currency s' = Some (SAPPDOData.currency l)
  /\ InboundShipment.total_value s' = Some (SAPPDOData.total_value l)
  /\ (SAPPDOData.brands l <> [] ->
      InboundShipment.brands s' = SAPPDOData.brands l)
  /\ (SAPPDOData.brands l = [] ->
      InboundShipment.brands s' = InboundShipment.brands s)
  /\ (SAPPDOData.country_splits l <> [] ->
      InboundShipment.country_splits s' = SAPPDOData.country_splits l)
  /\ (SAPPDOData.country_splits l = [] ->
      InboundShipment.country_splits s' = InboundShipment.country_splits s).
Proof.
  intros Hm Haa.
  pose proof (reconcile_applied self s sap_data auto_apply l Hm Haa) as R.
  cbv zeta in R |- *.
  destruct R as (Rc & Rt & Rb & Rs).
  rewrite Rc, Rt, Rb, Rs.
  destruct (SAPPDOData.brands l) as [|b bs];
    destruct (SAPPDOData.country_splits l) as [|c cs];
    cbn [Py.truthy_list];
    repeat split; intros; congruence.
Qed.

Lemma C5_auto_apply_overwrites_witness :
  let s' :=
    snd (ReconciliationEngine.reconcile_inbound
           ReconciliationEngine.default
           (shipment_of_value (Some (Float.of_Z 1200))) sap_1000 None) in
  InboundShipment.currency s' = Some "USD"
  /\ InboundShipment.total_value s' = Some (Float.of_Z 1000)
  /\ InboundShipment.brands s' = ["NST"]
  /\ InboundShipment.country_splits s'
     = [("SIN", Float.of_Z 600); ("MAL", Float.of_Z 400)].
Proof.
  pose proof (C5_auto_apply_overwrites
                ReconciliationEngine.default
                (shipment_of_value (Some (Float.of_Z 1200))) sap_1000 None
                ledger_600_400 eq_refl eq_refl) as W.
  cbv zeta in W |- *.
  destruct W as (Wc & Wt & Wb & _ & Ws & _).
  split; [exact Wc|].
  split; [exact Wt|].
  split; [apply Wb; discriminate | apply Ws; discriminate].
Defined.

(** C10: for every reconciliation call in which a ledger record is
    matched while the shipment's total value is None or 0.0, or the
    ledger record's total value is 0.0, no value-mismatch issue is
    emitted, whatever the two values are; with auto-apply the shipment's
    total value and currency are nevertheless replaced by the ledger
    record's. *)
Theorem C10_no_value_issue_without_value (self : ReconciliationEngine.t)
    (s : InboundShipment.t) (sap_data : sap_dict) (auto_apply : option bool)
    (l : SAPPDOData.t) :
  ReconciliationEngine._find_matching_sap
    self (InboundShipment.reference s) sap_data = Some l ->
  (InboundShipment.total_value s = None
   \/ (exists x, InboundShipment.total_value s = Some x /\ is_zero x = true)
   \/ is_zero (SAPPDOData.total_value l) = true) ->
  let r := ReconciliationEngine.reconcile_inbound self s sap_data auto_apply in
  (forall i, In i (ReconciliationResult.issues (fst r)) ->
             ReconciliationIssue.issue_type i
             <> ReconciliationType.VALUE_MISMATCH)
  /\ (effective_auto_apply self auto_apply = true ->
      InboundShipment.total_value (snd r) = Some (SAPPDOData.total_value l)
      /\ InboundShipment.currency (snd r) = Some (SAPPDOData.currency l)).
Proof.
  intros Hm Hz r. subst r. split.
  - assert (value_issues
              (fst (ReconciliationEngine.reconcile_inbound
                      self s sap_data auto_apply)) = []) as E.
    { rewrite (reconcile_value_issues self s sap_data auto_apply l Hm).
      destruct Hz as [Hn | [(x & Hx & Hzx) | Hzl]].
      - rewrite Hn. reflexivity.
      - rewrite Hx, (is_zero_not_truthy x Hzx). reflexivity.
      - rewrite (is_zero_not_truthy _ Hzl).
        destruct (InboundShipment.total_value s) as [doc|]; [|reflexivity].
        rewrite andb_false_r. reflexivity. }
    intros i Hi Ht.
    assert (In i (value_issues
                    (fst (ReconciliationEngine.reconcile_inbound
                            self s sap_data auto_apply)))) as C.
    { unfold value_issues. apply filter_In. split; [exact Hi|].
      unfold is_value_mismatch. rewrite Ht. reflexivity. }
    rewrite E in C. exact C.
  - intros Haa.
    pose proof (reconcile_applied self s sap_data auto_apply l Hm Haa) as R.
    cbv zeta in R. destruct R as (Rc & Rt & _).
    split; assumption.
Qed.

Lemma C10_no_value_issue_without_value_witness :
  (forall i,
      In i (ReconciliationResult.issues
              (fst (ReconciliationEngine.reconcile_inbound
                      ReconciliationEngine.default (shipment_of_value None)
                      sap_1000 None))) ->
      ReconciliationIssue.issue_type i <> ReconciliationType.VALUE_MISMATCH)
  /\ InboundShipment.total_value
       (snd (ReconciliationEngine.reconcile_inbound
               ReconciliationEngine.default (shipment_of_value None)
               sap_1000 None))
     = Some (Float.of_Z 1000)
  /\ InboundShipment.currency
       (snd (ReconciliationEngine.reconcile_inbound
               ReconciliationEngine.default (shipment_of_value None)
               sap_1000 None))
     = Some "USD".
Proof.
  pose proof (C10_no_value_issue_without_value
                ReconciliationEngine.default (shipment_of_value None)
                sap_1000 None ledger_600_400 eq_refl
                (or_introl eq_refl)) as W.
  cbv zeta in W. destruct W as (Wi & Wa).
  split; [exact Wi|]. apply Wa. reflexivity.
Defined.

(** ** Identifier matching *)

(** The file name of the specification's identifier-extraction property
    yields exactly the two identifiers. *)
Example extract_two_identifiers :
  forall x,
    In x (Helpers.extract_pdo_numbers
            "PDO 2500430 & 2500432_dtd250926_IFC.pdf")
    <-> x = "2500430" \/ x = "2500432".
Proof.
  intros x.
  replace (Helpers.extract_pdo_numbers
             "PDO 2500430 & 2500432_dtd250926_IFC.pdf")
    with ["2500430"; "2500432"] by (vm_compute; reflexivity).
  cbn [In]. intuition congruence.
Qed.

(** [first_match] accepts the first sheet, in ledger order, that passes
    any one of the three tests: a sheet is passed over only when all three
    fail on it. *)
Lemma first_match_skips (pdo_num sheet_name : string) (data : SAPPDOData.t)
    (rest : sap_dict) :
  (SAPPDOData.pdo_number data =? pdo_num)%string = false ->
  Py.contains pdo_num sheet_name = false ->
  ((5 <=? String.length pdo_num)%nat
   && (5 <=? String.length (SAPPDOData.pdo_number data))%nat
   && (SapParser.last5 pdo_num
       =? SapParser.last5 (SAPPDOData.pdo_number data))%string) = false ->
  SapParser.first_match pdo_num ((sheet_name, data) :: rest)
  = SapParser.first_match pdo_num rest.
Proof.
  intros H1 H2 H3. cbn [SapParser.first_match].
  rewrite H1, H2, H3. reflexivity.
Qed.

Lemma first_match_fuzzy_first (pdo_num sheet_name : string)
    (data : SAPPDOData.t) (rest : sap_dict) :
  (SAPPDOData.pdo_number data =? pdo_num)%string = false ->
  Py.contains pdo_num sheet_name = false ->
  ((5 <=? String.length pdo_num)%nat
   && (5 <=? String.length (SAPPDOData.pdo_number data))%nat
   && (SapParser.last5 pdo_num
       =? SapParser.last5 (SAPPDOData.pdo_number data))%string) = true ->
  SapParser.first_match pdo_num ((sheet_name, data) :: rest)
  = Some (SapParser.Fuzzy, data).
Proof.
  intros H1 H2 H3. cbn [SapParser.first_match].
  rewrite H1, H2, H3. reflexivity.
Qed.

(** C6: the code departs from the claim.  The three tests are made sheet
    by sheet, not tier by tier: for the file name of PDO 2500430 and a
    ledger that holds the sheet of PDO 1200430 before the sheet of
    PDO 2500430, the match returned is the record 1200430, accepted by the
    last-five-characters test, although the record 2500430 equals the
    candidate exactly. *)
Theorem C6_fuzzy_match_shadows_exact :
  Helpers.extract_pdo_numbers "PDO 2500430_dtd250926_IFC.pdf" = ["2500430"]
  /\ SAPPDOData.pdo_number ledger_2500430 = "2500430"
  /\ SapParser.first_match "2500430" sap_two_sheets
     = Some (SapParser.Fuzzy, ledger_1200430)
  /\ SapParser.match_pdo_to_filename
       "PDO 2500430_dtd250926_IFC.pdf" sap_two_sheets
     = [("2500430", ledger_1200430)].
Proof.
  assert (SapParser.first_match "2500430" sap_two_sheets
          = Some (SapParser.Fuzzy, ledger_1200430)) as F.
  { apply first_match_fuzzy_first; vm_compute; reflexivity. }
  assert (Helpers.extract_pdo_numbers "PDO 2500430_dtd250926_IFC.pdf"
          = ["2500430"]) as E.
  { vm_compute; reflexivity. }
  split; [exact E|].
  split; [reflexivity|].
  split; [exact F|].
  unfold SapParser.match_pdo_to_filename. rewrite E.
  cbn [Py.truthy_list negb]. 
  unfold SapParser.match_candidates. cbn [flat_map].
  rewrite F. reflexivity.
Qed.

(** ** Response parsing *)

(** The match of the brace pattern runs from the first opening brace to
    the last closing brace. *)
Example json_match_greedy :
  VisionExtractor.json_match "Result: {a {b} c} and } more"
  = Some "{a {b} c} and }".
Proof. reflexivity. Qed.

Example json_match_none :
  VisionExtractor.json_match "} no object opens after this {" = None.
Proof. reflexivity. Qed.

(** The sample response is one JSON object, found whole by the brace
    pattern; decoded, its mode is the number 5, and [_parse_response]
    raises on it in the inbound mode: [from_string] calls [upper] on the
    number. *)
Lemma C7_counterexample_numeric_mode :
  VisionExtractor.json_match numeric_mode_response
  = Some numeric_mode_response
  /\ decoder_sample numeric_mode_response = Loaded [("mode", JInt 5)]
  /\ VisionExtractor._parse_response decoder_sample
       (InboundResponse._parse_inbound_response rest_returning)
       parser_unreached parser_unreached
       numeric_mode_response 1 "inbound"
     = Raised "'int' object has no attribute 'upper'".
Proof. repeat split; vm_compute; reflexivity. Qed.

(** C7, amended: for every raw response, page number and extraction mode
    (and whatever the decoder and the mode-specific parsers do): when no
    JSON object is found in the response, or the decoder rejects the text
    found as malformed, [_parse_response] returns, without raising, an
    ExtractionResult of document type UNKNOWN and confidence LOW whose
    error list holds the parse-error text and whose raw response is the
    response it was given; when the text decodes, the outcome of
    [_parse_response], a result or an exception, is that of the parser of
    the mode on the decoded object; and [extract_from_image], its caller,
    returns the result of [_parse_response] when there is one, and for an
    exception a result of document type UNKNOWN and confidence LOW whose
    error list holds the text of the exception and whose raw response is
    empty. *)
Theorem C7_parse_failures_return_unknown_low
    (json_loads : string -> loads_result)
    (parse_inbound parse_awb parse_invoice :
       json_dict -> string -> Z -> ExtractionConfidence.t -> list string ->
       outcome ExtractionResult.t)
    (raw_response : string) (page_number : Z) (prompt_type : string) :
  let parsed :=
    VisionExtractor._parse_response json_loads
      parse_inbound parse_awb parse_invoice
      raw_response page_number prompt_type in
  let extracted :=
    VisionExtractor.extract_from_image json_loads
      parse_inbound parse_awb parse_invoice
      (VisionExtractor.Responded raw_response) prompt_type page_number in
  (VisionExtractor.json_match raw_response = None ->
   exists r,
     parsed = Returned r
     /\ ExtractionResult.document_type r = DocumentType.UNKNOWN
     /\ ExtractionResult.confidence r = ExtractionConfidence.LOW
     /\ ExtractionResult.raw_response r = raw_response
     /\ ExtractionResult.page_number r = page_number
     /\ ExtractionResult.extraction_errors r = ["No JSON found in response"])
  /\ (forall text e,
         VisionExtractor.json_match raw_response = Some text ->
         json_loads text = JSONDecodeError e ->
         exists r,
           parsed = Returned r
           /\ ExtractionResult.document_type r = DocumentType.UNKNOWN
           /\ ExtractionResult.confidence r = ExtractionConfidence.LOW
           /\ ExtractionResult.raw_response r = raw_response
           /\ ExtractionResult.page_number r = page_number
           /\ ExtractionResult.extraction_errors r
              = [("JSON parse error: " ++ e)%string])
  /\ (forall text data,
         VisionExtractor.json_match raw_response = Some text ->
         json_loads text = Loaded data ->
         parsed
         = mode_parser prompt_type parse_inbound parse_awb parse_invoice
             data raw_response page_number (response_confidence data) [])
  /\ (forall r, parsed = Returned r -> extracted = r)
  /\ (forall e,
         parsed = Raised e ->
         ExtractionResult.document_type extracted = DocumentType.UNKNOWN
         /\ ExtractionResult.confidence extracted = ExtractionConfidence.LOW
         /\ ExtractionResult.raw_response extracted = EmptyString
         /\ ExtractionResult.page_number extracted = page_number
         /\ ExtractionResult.extraction_errors extracted = [e]).
Proof.
  cbv zeta. unfold VisionExtractor.extract_from_image.
  split; [|split; [|split; [|split]]].
  - intros Hn. unfold VisionExtractor._parse_response. rewrite Hn.
    eexists. split; [reflexivity|]. repeat split.
  - intros text e Hm He. unfold VisionExtractor._parse_response.
    rewrite Hm, He.
    eexists. split; [reflexivity|]. repeat split.
  - intros text data Hm Hd. unfold VisionExtractor._parse_response.
    rewrite Hm, Hd. cbv zeta. unfold mode_parser, response_confidence.
    destruct (prompt_type =? "outbound_awb")%string; [reflexivity|].
    destruct (prompt_type =? "outbound_invoice")%string; reflexivity.
  - intros r Hr. rewrite Hr. reflexivity.
  - intros e He. rewrite He. repeat split.
Qed.

Lemma C7_parse_failures_return_unknown_low_witness :
  (exists r,
      VisionExtractor._parse_response decoder_rejecting
        parser_unreached parser_unreached parser_unreached
        "The page is blank." 3 "inbound"
      = Returned r
      /\ ExtractionResult.document_type r = DocumentType.UNKNOWN
      /\ ExtractionResult.confidence r = ExtractionConfidence.LOW
      /\ ExtractionResult.raw_response r = "The page is blank."
      /\ ExtractionResult.page_number r = 3%Z
      /\ ExtractionResult.extraction_errors r = ["No JSON found in response"])
  /\ (exists r,
         VisionExtractor._parse_response decoder_rejecting
           parser_unreached parser_unreached parser_unreached
           "Here it is: {mode: AIR}" 4 "outbound_awb"
         = Returned r
         /\ ExtractionResult.document_type r = DocumentType.UNKNOWN
         /\ ExtractionResult.confidence r = ExtractionConfidence.LOW
         /\ ExtractionResult.raw_response r = "Here it is: {mode: AIR}"
         /\ ExtractionResult.page_number r = 4%Z
         /\ ExtractionResult.extraction_errors r
            = ["JSON parse error: Expecting property name enclosed in double quotes"])
  /\ (let extracted :=
        VisionExtractor.extract_from_image decoder_sample
          (InboundResponse._parse_inbound_response rest_returning)
          parser_unreached parser_unreached
          (VisionExtractor.Responded numeric_mode_response) "inbound" 1 in
      ExtractionResult.document_type extracted = DocumentType.UNKNOWN
      /\ ExtractionResult.confidence extracted = ExtractionConfidence.LOW
      /\ ExtractionResult.raw_response extracted = EmptyString
      /\ ExtractionResult.page_number extracted = 1%Z
      /\ ExtractionResult.extraction_errors extracted
         = ["'int' object has no attribute 'upper'"]).
Proof.
  split; [|split].
  - apply (proj1 (C7_parse_failures_return_unknown_low decoder_rejecting
                    parser_unreached parser_unreached parser_unreached
                    "The page is blank." 3 "inbound")).
    reflexivity.
  - apply (proj1 (proj2
             (C7_parse_failures_return_unknown_low decoder_rejecting
                parser_unreached parser_unreached parser_unreached
                "Here it is: {mode: AIR}" 4 "outbound_awb"))
             "{mode: AIR}"
             "Expecting property name enclosed in double quotes");
      reflexivity.
  - apply (proj2 (proj2 (proj2 (proj2
             (C7_parse_failures_return_unknown_low decoder_sample
                (InboundResponse._parse_inbound_response rest_returning)
                parser_unreached parser_unreached
                numeric_mode_response 1 "inbound"))))).
    vm_compute. reflexivity.
Defined.

(** ** Classification *)

(** The patterns of the rule tables all belong to the part of the syntax
    that [Re.compile] reads. *)
Example rule_patterns_compile :
  forallb (fun pattern =>
             match Re.compile pattern with Some _ => true | None => false end)
          (map fst (ProductClassifier.compound_rules
                      ProductClassifier._init_classification_rules)
           ++ flat_map snd (ProductClassifier.keyword_patterns
                              ProductClassifier._init_classification_rules))
  = true.
Proof. vm_compute; reflexivity. Qed.

(** Scenario 2 of the specification. *)
Example classification_scenario :
  ClassificationResult.categories
    (ProductClassifier.classify ProductClassifier._init_classification_rules
       "Profhilo 3, 2%, Box 1 Syringe 64mg 2ml")
  = [ProductCategory.MEDICAL_DEVICES]
  /\ ClassificationResult.categories
       (ProductClassifier.classify
          ProductClassifier._init_classification_rules
          "Profhilo Haenkenium Cream")
     = [ProductCategory.SKINCARE_PRODUCTS]
  /\ ClassificationResult.categories
       (ProductClassifier.classify
          ProductClassifier._init_classification_rules
          "Profhilo 3, 2%, Box 1 Syringe 64mg 2ml & Profhilo Haenkenium Cream")
     = [ProductCategory.MEDICAL_DEVICES; ProductCategory.SKINCARE_PRODUCTS].
Proof. repeat split; vm_compute; reflexivity. Qed.

Lemma verbatim_fold_patterns (d : string)
    (rules : list (string * list ProductCategory.t)) :
  forall a,
    ProductClassifier.matched_patterns
      (fold_left (ProductClassifier.verbatim_step d) rules a)
    = ProductClassifier.matched_patterns a
      ++ map (fun rule => ("verbatim:" ++ fst rule)%string)
             (filter (fun rule => Py.contains (fst rule) d) rules).
Proof.
  induction rules as [|[label cats] rest IH]; intros a;
    cbn [fold_left filter map fst].
  - symmetry. apply app_nil_r.
  - rewrite IH. unfold ProductClassifier.verbatim_step.
    destruct (Py.contains label d); cbn [map fst].
    + cbn [ProductClassifier.record ProductClassifier.matched_patterns].
      rewrite <- app_assoc. reflexivity.
    + reflexivity.
Qed.

Lemma compound_fold_patterns (d : string)
    (rules : list (string * list ProductCategory.t)) :
  forall a,
    ProductClassifier.matched_patterns
      (fold_left (ProductClassifier.compound_step d) rules a)
    = ProductClassifier.matched_patterns a
      ++ map (fun rule => ("compound:" ++ fst rule)%string)
             (filter (fun rule => Re.search (fst rule) d) rules).
Proof.
  induction rules as [|[pattern cats] rest IH]; intros a;
    cbn [fold_left filter map fst].
  - symmetry. apply app_nil_r.
  - rewrite IH. unfold ProductClassifier.compound_step.
    destruct (Re.search pattern d); cbn [map fst].
    + cbn [ProductClassifier.record ProductClassifier.matched_patterns].
      rewrite <- app_assoc. reflexivity.
    + reflexivity.
Qed.

Lemma brand_fold_patterns (d : string)
    (rules : list (string * ProductCategory.t)) :
  forall a,
    ProductClassifier.matched_patterns
      (fold_left (ProductClassifier.brand_step d) rules a)
    = ProductClassifier.matched_patterns a
      ++ map (fun rule => ("brand:" ++ fst rule)%string)
             (filter (fun rule => Py.contains (fst rule) d) rules).
Proof.
  induction rules as [|[brand cat] rest IH]; intros a;
    cbn [fold_left filter map fst].
  - symmetry. apply app_nil_r.
  - rewrite IH. unfold ProductClassifier.brand_step.
    destruct (Py.contains brand d); cbn [map fst].
    + cbn [ProductClassifier.record ProductClassifier.matched_patterns].
      rewrite <- app_assoc. reflexivity.
    + reflexivity.
Qed.

Lemma keyword_fold_patterns (d : string)
    (rules : list (ProductCategory.t * list string)) :
  forall a,
    ProductClassifier.matched_patterns
      (fold_left (ProductClassifier.keyword_step d) rules a)
    = ProductClassifier.matched_patterns a
      ++ flat_map
           (fun rule =>
              match ProductClassifier.first_hit d (snd rule) with
              | Some pattern => [("keyword:" ++ pattern)%string]
              | None => []
              end)
           rules.
Proof.
  induction rules as [|[cat patterns] rest IH]; intros a;
    cbn [fold_left flat_map snd].
  - symmetry. apply app_nil_r.
  - rewrite IH. unfold ProductClassifier.keyword_step.
    destruct (ProductClassifier.first_hit d patterns) as [pattern|].
    + cbn [ProductClassifier.record ProductClassifier.matched_patterns].
      rewrite <- app_assoc. reflexivity.
    + reflexivity.
Qed.

Lemma special_cases_patterns (d : string) (a : ProductClassifier.acc) :
  ProductClassifier.matched_patterns (ProductClassifier.special_cases d a)
  = ProductClassifier.matched_patterns a.
Proof.
  unfold ProductClassifier.special_cases.
  destruct (_ && _); [|reflexivity].
  destruct (Py.contains _ d); [|reflexivity].
  destruct (negb _); reflexivity.
Qed.

Lemma verbatim_acc_patterns (self : ProductClassifier.t) (d : string) :
  ProductClassifier.matched_patterns (verbatim_acc self d)
  = verbatim_hits self d.
Proof.
  unfold verbatim_acc, verbatim_hits.
  rewrite verbatim_fold_patterns. reflexivity.
Qed.

Lemma nonempty_truthy (description : string) :
  description <> EmptyString -> Py.truthy_str description = true.
Proof.
  intros H. unfold Py.truthy_str.
  destruct (String.eqb_spec description ""); [contradiction|reflexivity].
Qed.

(** C3, as stated, fails: the tiers after the verbatim one do not
    short-circuit.  For the description Profhilo Haenkenium Cream no
    verbatim label matches and a compound rule matches, yet two brand
    rules and a keyword rule enter the matched-rule list, and they raise
    the confidence of the result from the 0.75 of the compound match alone
    to 1.0. *)
Lemma C3_counterexample_tiers_accumulate :
  verbatim_hits ProductClassifier._init_classification_rules
    (normalized "Profhilo Haenkenium Cream") = []
  /\ compound_hits ProductClassifier._init_classification_rules
       (normalized "Profhilo Haenkenium Cream")
     = ["compound:profhilo\s+haenkenium\s+cream"]
  /\ ClassificationResult.matched_patterns
       (ProductClassifier.classify
          ProductClassifier._init_classification_rules
          "Profhilo Haenkenium Cream")
     = ["compound:profhilo\s+haenkenium\s+cream"; "brand:profhilo";
        "brand:haenkenium"; "keyword:\bcream\b"]
  /\ ClassificationResult.confidence
       (ProductClassifier.classify
          ProductClassifier._init_classification_rules
          "Profhilo Haenkenium Cream")
     = Float.of_Z 1
  /\ ProductClassifier._calculate_confidence
       ["compound:profhilo\s+haenkenium\s+cream"]
     = Float.lit 75 100.
Proof. repeat split; vm_compute; reflexivity. Qed.

Lemma default_rules_supported :
  rules_supported ProductClassifier._init_classification_rules = true.
Proof. vm_compute; reflexivity. Qed.

Lemma fold_add_app (l1 l2 set : list ProductCategory.t) :
  fold_left ProductCategory.add (l1 ++ l2) set
  = fold_left ProductCategory.add l2 (fold_left ProductCategory.add l1 set).
Proof. apply fold_left_app. Qed.

Lemma compound_fold_categories (d : string)
    (rules : list (string * list ProductCategory.t)) :
  forall a,
    ProductClassifier.matched_categories
      (fold_left (ProductClassifier.compound_step d) rules a)
    = fold_left ProductCategory.add
        (flat_map (fun rule => if Re.search (fst rule) d then snd rule else [])
                  rules)
        (ProductClassifier.matched_categories a).
Proof.
  induction rules as [|[pattern cats] rest IH]; intros a;
    cbn [fold_left flat_map fst snd]; [reflexivity|].
  rewrite IH, fold_add_app. unfold ProductClassifier.compound_step.
  destruct (Re.search pattern d); reflexivity.
Qed.

Lemma brand_fold_categories (d : string)
    (rules : list (string * ProductCategory.t)) :
  forall a,
    ProductClassifier.matched_categories
      (fold_left (ProductClassifier.brand_step d) rules a)
    = fold_left ProductCategory.add
        (flat_map (fun rule =>
                     if Py.contains (fst rule) d then [snd rule] else [])
                  rules)
        (ProductClassifier.matched_categories a).
Proof.
  induction rules as [|[brand cat] rest IH]; intros a;
    cbn [fold_left flat_map fst snd]; [reflexivity|].
  rewrite IH, fold_add_app. unfold ProductClassifier.brand_step.
  destruct (Py.contains brand d); reflexivity.
Qed.

Lemma keyword_fold_categories (d : string)
    (rules : list (ProductCategory.t * list string)) :
  forall a,
    ProductClassifier.matched_categories
      (fold_left (ProductClassifier.keyword_step d) rules a)
    = fold_left ProductCategory.add
        (flat_map (fun rule =>
                     match ProductClassifier.first_hit d (snd rule) with
                     | Some _ => [fst rule]
                     | None => []
                     end)
                  rules)
        (ProductClassifier.matched_categories a).
Proof.
  induction rules as [|[cat patterns] rest IH]; intros a;
    cbn [fold_left flat_map fst snd]; [reflexivity|].
  rewrite IH, fold_add_app. unfold ProductClassifier.keyword_step.
  destruct (ProductClassifier.first_hit d patterns); reflexivity.
Qed.

Lemma special_cases_categories (d : string) (a : ProductClassifier.acc) :
  ProductClassifier.matched_categories (ProductClassifier.special_cases d a)
  = haenkenium_override d (ProductClassifier.matched_categories a)
      (ProductClassifier.matched_patterns a).
Proof.
  unfold ProductClassifier.special_cases, haenkenium_override.
  destruct (ProductCategory.mem ProductCategory.MEDICAL_DEVICES
              (ProductClassifier.matched_categories a));
    destruct (ProductCategory.mem ProductCategory.SKINCARE_PRODUCTS
                (ProductClassifier.matched_categories a));
    destruct (Py.contains "haenkenium cream" d);
    destruct (ProductClassifier.has_keyword "syringe"
                (ProductClassifier.matched_patterns a)
              || ProductClassifier.has_keyword "injectable"
                   (ProductClassifier.matched_patterns a));
    reflexivity.
Qed.

(** C3, amended: for every non-empty description and rule tables of
    supported patterns, the verbatim-label tier is evaluated first, and
    when it yields a category the classification returns at once: the
    matched-rule list holds the verbatim matches only, the categories are
    theirs and the confidence is 0.95.  Otherwise the compound, brand and
    keyword tiers are all evaluated, in this order, and none of them
    stops the next: the matched-rule list is the compound matches, then
    the brand matches, then the keyword matches (one per category at
    most); the categories are those of all these matches together, less
    Medical Devices where step 4 removes it, in the order of their
    values, or Unknown when there is none; and the confidence is the one
    [_calculate_confidence] gives for the whole matched-rule list, or 0.2
    when there is no category. *)
Theorem C3_verbatim_first_then_all_tiers (self : ProductClassifier.t)
    (description : string) :
  description <> EmptyString ->
  rules_supported self = true ->
  let d := normalized description in
  let r := ProductClassifier.classify self description in
  (ProductClassifier.matched_categories (verbatim_acc self d) <> [] ->
   ClassificationResult.matched_patterns r = verbatim_hits self d
   /\ ClassificationResult.categories r
      = ProductCategory.sorted_by_value
          (ProductClassifier.matched_categories (verbatim_acc self d))
   /\ ClassificationResult.confidence r = Float.lit 95 100)
  /\ (ProductClassifier.matched_categories (verbatim_acc self d) = [] ->
      let hits :=
        verbatim_hits self d ++ compound_hits self d ++ brand_hits self d
        ++ keyword_hits self d in
      let kept := haenkenium_override d (tier_categories self d) hits in
      ClassificationResult.matched_patterns r = hits
      /\ ClassificationResult.categories r
         = (if Py.truthy_list kept
            then ProductCategory.sorted_by_value kept
            else [ProductCategory.UNKNOWN])
      /\ ClassificationResult.confidence r
         = (if Py.truthy_list kept
            then ProductClassifier._calculate_confidence hits
            else Float.lit 2 10)).
Proof.
  intros Hne _ d r. subst r.
  unfold ProductClassifier.classify.
  rewrite (nonempty_truthy description Hne). cbn [negb].
  fold (normalized description). fold d.
  fold (verbatim_acc self d).
  split.
  - intros Hv.
    destruct (ProductClassifier.matched_categories (verbatim_acc self d))
      as [|c cs] eqn:E; [congruence|].
    cbn [Py.truthy_list].
    cbn [ClassificationResult.matched_patterns
         ClassificationResult.categories ClassificationResult.confidence].
    rewrite verbatim_acc_patterns. repeat split; reflexivity.
  - intros Hv. rewrite Hv. cbn [Py.truthy_list]. cbv zeta.
    set (a := ProductClassifier.special_cases d
                (fold_left (ProductClassifier.keyword_step d)
                   (ProductClassifier.keyword_patterns self)
                   (fold_left (ProductClassifier.brand_step d)
                      (ProductClassifier.brand_categories self)
                      (fold_left (ProductClassifier.compound_step d)
                         (ProductClassifier.compound_rules self)
                         (verbatim_acc self d))))).
    assert (ProductClassifier.matched_patterns a
            = verbatim_hits self d ++ compound_hits self d
              ++ brand_hits self d ++ keyword_hits self d) as Hp.
    { unfold a.
      rewrite special_cases_patterns, keyword_fold_patterns,
        brand_fold_patterns, compound_fold_patterns, verbatim_acc_patterns.
      unfold compound_hits, brand_hits, keyword_hits.
      rewrite <- !app_assoc. reflexivity. }
    assert (ProductClassifier.matched_categories a
            = haenkenium_override d (tier_categories self d)
                (verbatim_hits self d ++ compound_hits self d
                 ++ brand_hits self d ++ keyword_hits self d)) as Hc.
    { unfold a. rewrite special_cases_categories.
      rewrite keyword_fold_patterns, brand_fold_patterns,
        compound_fold_patterns, verbatim_acc_patterns.
      rewrite keyword_fold_categories, brand_fold_categories,
        compound_fold_categories, Hv.
      rewrite <- !fold_add_app.
      unfold tier_categories, compound_categories, brand_hit_categories,
        keyword_categories, compound_hits, brand_hits, keyword_hits.
      rewrite <- !app_assoc. reflexivity. }
    rewrite <- Hc.
    destruct (Py.truthy_list (ProductClassifier.matched_categories a));
      cbn [negb ClassificationResult.matched_patterns
           ClassificationResult.categories ClassificationResult.confidence];
      rewrite Hp; repeat split; reflexivity.
Qed.

Lemma C3_verbatim_first_then_all_tiers_witness :
  let self := ProductClassifier._init_classification_rules in
  (ClassificationResult.matched_patterns
     (ProductClassifier.classify self "MEDICAL DEVICES")
   = verbatim_hits self (normalized "MEDICAL DEVICES")
   /\ ClassificationResult.categories
        (ProductClassifier.classify self "MEDICAL DEVICES")
      = ProductCategory.sorted_by_value
          (ProductClassifier.matched_categories
             (verbatim_acc self (normalized "MEDICAL DEVICES")))
   /\ ClassificationResult.confidence
        (ProductClassifier.classify self "MEDICAL DEVICES")
      = Float.lit 95 100)
  /\ (let d := normalized "Profhilo Haenkenium Cream" in
      let hits :=
        verbatim_hits self d ++ compound_hits self d ++ brand_hits self d
        ++ keyword_hits self d in
      let kept := haenkenium_override d (tier_categories self d) hits in
      ClassificationResult.matched_patterns
        (ProductClassifier.classify self "Profhilo Haenkenium Cream") = hits
      /\ ClassificationResult.categories
           (ProductClassifier.classify self "Profhilo Haenkenium Cream")
         = (if Py.truthy_list kept
            then ProductCategory.sorted_by_value kept
            else [ProductCategory.UNKNOWN])
      /\ ClassificationResult.confidence
           (ProductClassifier.classify self "Profhilo Haenkenium Cream")
         = (if Py.truthy_list kept
            then ProductClassifier._calculate_confidence hits
            else Float.lit 2 10)).
Proof.
  cbv zeta. split.
  - apply (proj1 (C3_verbatim_first_then_all_tiers
                    ProductClassifier._init_classification_rules
                    "MEDICAL DEVICES" ltac:(discriminate)
                    default_rules_supported)).
    vm_compute. discriminate.
  - apply (proj2 (C3_verbatim_first_then_all_tiers
                    ProductClassifier._init_classification_rules
                    "Profhilo Haenkenium Cream" ltac:(discriminate)
                    default_rules_supported)).
    vm_compute. reflexivity.
Defined.

(** ** Further properties of the aggregation *)

(** The merge rule of the priority-governed fields, field by field: a
    priority-class page's true value is written whatever the field
    holds. *)
Lemma priority_assign_priority {A : Type} (truthy : A -> bool)
    (current : option A) (v : A) :
  truthy v = true ->
  DocumentAggregator.priority_assign truthy true current (Some v) = Some v.
Proof.
  intros H. unfold DocumentAggregator.priority_assign. rewrite H.
  reflexivity.
Qed.

(** A page of another class never changes a field that is set. *)
Lemma priority_assign_other_set {A : Type} (truthy : A -> bool)
    (c : A) (incoming : option A) :
  DocumentAggregator.priority_assign truthy false (Some c) incoming = Some c.
Proof.
  unfold DocumentAggregator.priority_assign.
  destruct incoming as [v|]; [|reflexivity].
  destruct (truthy v); reflexivity.
Qed.

(** A page of another class writes its true value into a field that is
    still unset. *)
Lemma priority_assign_other_unset {A : Type} (truthy : A -> bool) (v : A) :
  truthy v = true ->
  DocumentAggregator.priority_assign truthy false None (Some v) = Some v.
Proof.
  intros H. unfold DocumentAggregator.priority_assign. rewrite H.
  reflexivity.
Qed.

Lemma step_brand_codes (a : DocumentAggregator.t) (r : ExtractionResult.t) :
  DocumentAggregator.brand_codes (DocumentAggregator.step a r)
  = DocumentAggregator.brand_codes a ++ order_brand_codes r.
Proof.
  cbn [DocumentAggregator.step DocumentAggregator.brand_codes].
  unfold order_brand_codes.
  destruct (DocumentType.eqb _ _).
  - destruct (ExtractionResult.brand_codes r) as [|b bs];
      cbn [Py.truthy_list andb].
    + rewrite app_nil_r. reflexivity.
    + reflexivity.
  - rewrite andb_false_r, app_nil_r. reflexivity.
Qed.

Lemma brand_codes_fold (results : list ExtractionResult.t) :
  forall a,
    DocumentAggregator.brand_codes
      (fold_left DocumentAggregator.step results a)
    = DocumentAggregator.brand_codes a ++ flat_map order_brand_codes results.
Proof.
  induction results as [|r rest IH]; intros a; cbn [fold_left flat_map].
  - symmetry. apply app_nil_r.
  - rewrite IH, step_brand_codes, <- app_assoc. reflexivity.
Qed.

(** Brand codes are taken from purchase-order pages only: the brand codes
    of the aggregate are those of the purchase-order pages, without
    repetition and sorted. *)
Theorem brand_codes_from_purchase_orders
    (results : list ExtractionResult.t) (filename : string) :
  DocumentAggregator.brand_codes
    (DocumentAggregator.aggregate_inbound results filename)
  = Py.sorted (Py.dedup (flat_map order_brand_codes results)).
Proof.
  unfold DocumentAggregator.aggregate_inbound.
  change (DocumentAggregator.brand_codes (DocumentAggregator.finish ?a))
    with (Py.sorted (Py.dedup (DocumentAggregator.brand_codes a))).
  rewrite brand_codes_fold. reflexivity.
Qed.

Example brand_codes_sample :
  DocumentAggregator.brand_codes
    (DocumentAggregator.aggregate_inbound order_and_packing_list "PO.pdf")
  = ["HLC"; "NST"].
Proof. vm_compute; reflexivity. Qed.

Lemma incoterms_fold (results : list ExtractionResult.t) :
  forall a,
    DocumentAggregator.incoterms (fold_left DocumentAggregator.step results a)
    = match DocumentAggregator.incoterms a with
      | Some v => Some v
      | None => first_truthy (map ExtractionResult.incoterms results)
      end.
Proof.
  induction results as [|r rest IH]; intros a;
    cbn [fold_left map first_truthy].
  - destruct (DocumentAggregator.incoterms a); reflexivity.
  - rewrite IH. cbn [DocumentAggregator.step DocumentAggregator.incoterms].
    unfold DocumentAggregator.first_assign.
    destruct (DocumentAggregator.incoterms a) as [v|]; cbn [Py.is_none].
    + rewrite andb_false_r. reflexivity.
    + rewrite andb_true_r.
      destruct (Py.truthy_ostr (ExtractionResult.incoterms r)) eqn:E.
      * destruct (ExtractionResult.incoterms r); [reflexivity|discriminate E].
      * reflexivity.
Qed.

(** The incoterm of the aggregate is the first non-empty incoterm of the
    pages, whatever their document types. *)
Theorem incoterms_first_value_wins
    (results : list ExtractionResult.t) (filename : string) :
  DocumentAggregator.incoterms
    (DocumentAggregator.aggregate_inbound results filename)
  = first_truthy (map ExtractionResult.incoterms results).
Proof.
  unfold DocumentAggregator.aggregate_inbound.
  change (DocumentAggregator.incoterms (DocumentAggregator.finish ?a))
    with (DocumentAggregator.incoterms a).
  rewrite incoterms_fold. reflexivity.
Qed.

Lemma audit_fold (results : list ExtractionResult.t) :
  forall a,
    DocumentAggregator.raw_responses
      (fold_left DocumentAggregator.step results a)
    = DocumentAggregator.raw_responses a
      ++ map ExtractionResult.raw_response results
    /\ DocumentAggregator.errors (fold_left DocumentAggregator.step results a)
       = DocumentAggregator.errors a
         ++ flat_map ExtractionResult.extraction_errors results.
Proof.
  induction results as [|r rest IH]; intros a;
    cbn [fold_left map flat_map].
  - rewrite !app_nil_r. split; reflexivity.
  - destruct (IH (DocumentAggregator.step a r)) as [Hr He].
    rewrite Hr, He.
    cbn [DocumentAggregator.step DocumentAggregator.raw_responses
         DocumentAggregator.errors].
    rewrite <- !app_assoc. split; reflexivity.
Qed.

(** Every raw response and every per-page error is kept on the aggregate,
    in page order. *)
Theorem raw_responses_and_errors_retained
    (results : list ExtractionResult.t) (filename : string) :
  DocumentAggregator.raw_responses
    (DocumentAggregator.aggregate_inbound results filename)
  = map ExtractionResult.raw_response results
  /\ DocumentAggregator.errors
       (DocumentAggregator.aggregate_inbound results filename)
     = flat_map ExtractionResult.extraction_errors results.
Proof.
  unfold DocumentAggregator.aggregate_inbound.
  change (DocumentAggregator.raw_responses (DocumentAggregator.finish ?a))
    with (DocumentAggregator.raw_responses a).
  change (DocumentAggregator.errors (DocumentAggregator.finish ?a))
    with (DocumentAggregator.errors a).
  apply (audit_fold results DocumentAggregator.initial).
Qed.

(** ** Further properties of the reconciliation *)

(** Without a matching ledger record the call reports one
    missing-in-ledger warning and leaves the shipment as it was. *)
Theorem reconcile_unmatched (self : ReconciliationEngine.t)
    (s : InboundShipment.t) (sap_data : sap_dict)
    (auto_apply : option bool) :
  ReconciliationEngine._find_matching_sap
    self (InboundShipment.reference s) sap_data = None ->
  let r := ReconciliationEngine.reconcile_inbound self s sap_data auto_apply in
  snd r = s
  /\ ReconciliationResult.matched_pdo (fst r) = None
  /\ ReconciliationResult.sap_used (fst r) = false
  /\ ReconciliationResult.issues (fst r)
     = [ReconciliationEngine.missing_in_sap (InboundShipment.reference s)]
  /\ ReconciliationIssue.severity
       (ReconciliationEngine.missing_in_sap (InboundShipment.reference s))
     = ValidationSeverity.WARNING.
Proof.
  intros H. cbv zeta.
  unfold ReconciliationEngine.reconcile_inbound. rewrite H.
  repeat split.
Qed.

Lemma reconcile_unmatched_witness :
  snd (ReconciliationEngine.reconcile_inbound ReconciliationEngine.default
         (inbound_default "PDO2500999") sap_1000 None)
  = inbound_default "PDO2500999"
  /\ ReconciliationResult.matched_pdo
       (fst (ReconciliationEngine.reconcile_inbound
               ReconciliationEngine.default
               (inbound_default "PDO2500999") sap_1000 None))
     = None.
Proof.
  pose proof (reconcile_unmatched ReconciliationEngine.default
                (inbound_default "PDO2500999") sap_1000 None eq_refl) as W.
  cbv zeta in W. destruct W as (W1 & W2 & _).
  split; assumption.
Defined.

(* ================================================================== *)
(** * Properties of the further functions *)
(* ================================================================== *)

(** ** Characters *)

Ltac by_all_chars c :=
  destruct c as [b0 b1 b2 b3 b4 b5 b6 b7];
  destruct b0, b1, b2, b3, b4, b5, b6, b7;
  try reflexivity; try discriminate.

Lemma isspace_not_alnum (c : ascii) :
  Py.isspace c = true -> Py.isalnum c = false.
Proof. by_all_chars c. Qed.

Lemma isdigit_isalnum (c : ascii) :
  Py.isdigit c = true -> Py.isalnum c = true.
Proof. by_all_chars c. Qed.

Lemma isdigit_isdigit_str (c : ascii) :
  Py.isdigit c = true -> Py.isdigit_str c = true.
Proof. by_all_chars c. Qed.

Lemma isdigit_str_isalnum (c : ascii) :
  Py.isdigit_str c = true -> Py.isalnum c = true.
Proof. by_all_chars c. Qed.

Lemma upper_upper_char (c : ascii) :
  PyText.upper_char (PyText.upper_char c) = PyText.upper_char c.
Proof. by_all_chars c. Qed.

Lemma upper_lower_char (c : ascii) :
  PyText.isascii_char c = true ->
  PyText.upper_char (Py.lower_char c) = PyText.upper_char c.
Proof. by_all_chars c. Qed.

Lemma lower_char_isascii (c : ascii) :
  PyText.isascii_char c = true ->
  PyText.isascii_char (Py.lower_char c) = true.
Proof. by_all_chars c. Qed.

Lemma upper_char_isascii (c : ascii) :
  PyText.isascii_char c = true ->
  PyText.isascii_char (PyText.upper_char c) = true.
Proof. by_all_chars c. Qed.

(** A character that [str.lower] takes to one of a to z is that letter
    or its capital. *)
Lemma lower_char_letter (c : ascii) :
  Py.islower (Py.lower_char c) = true ->
  PyText.upper_char c = PyText.upper_char (Py.lower_char c).
Proof. by_all_chars c. Qed.

Lemma lower_upper_char (c : ascii) :
  Py.lower_char (PyText.upper_char c) = Py.lower_char c.
Proof. by_all_chars c. Qed.

Lemma upper_upper (s : string) : PyText.upper (PyText.upper s) = PyText.upper s.
Proof.
  induction s as [|c r IH]; cbn [PyText.upper]; [reflexivity|].
  rewrite upper_upper_char, IH. reflexivity.
Qed.

Lemma upper_lower (s : string) :
  PyText.isascii s = true ->
  PyText.upper (Py.lower s) = PyText.upper s.
Proof.
  unfold PyText.isascii.
  induction s as [|c r IH]; cbn [PyText.upper Py.lower PyText.all_chars];
    [reflexivity|].
  intros H. apply andb_true_iff in H. destruct H as [Hc Hr].
  rewrite (upper_lower_char c Hc), (IH Hr). reflexivity.
Qed.

Lemma upper_of_lower (s : string) :
  PyText.all_chars Py.islower (Py.lower s) = true ->
  PyText.upper s = PyText.upper (Py.lower s).
Proof.
  induction s as [|c r IH]; cbn [PyText.upper Py.lower PyText.all_chars];
    [reflexivity|].
  intros H. apply andb_true_iff in H. destruct H as [Hc Hr].
  rewrite <- (lower_char_letter c Hc), <- (IH Hr). reflexivity.
Qed.

Lemma lower_isascii (s : string) :
  PyText.isascii s = true -> PyText.isascii (Py.lower s) = true.
Proof.
  unfold PyText.isascii.
  induction s as [|c r IH]; cbn [Py.lower PyText.all_chars];
    [reflexivity|].
  intros H. apply andb_true_iff in H. destruct H as [Hc Hr].
  rewrite (lower_char_isascii c Hc), (IH Hr). reflexivity.
Qed.

Lemma upper_isascii (s : string) :
  PyText.isascii s = true -> PyText.isascii (PyText.upper s) = true.
Proof.
  unfold PyText.isascii.
  induction s as [|c r IH]; cbn [PyText.upper PyText.all_chars];
    [reflexivity|].
  intros H. apply andb_true_iff in H. destruct H as [Hc Hr].
  rewrite (upper_char_isascii c Hc), (IH Hr). reflexivity.
Qed.

Lemma lower_upper (s : string) : Py.lower (PyText.upper s) = Py.lower s.
Proof.
  induction s as [|c r IH]; cbn [PyText.upper Py.lower]; [reflexivity|].
  rewrite lower_upper_char, IH. reflexivity.
Qed.

Lemma truthy_upper (s : string) :
  Py.truthy_str (PyText.upper s) = Py.truthy_str s.
Proof. destruct s; reflexivity. Qed.

Lemma truthy_lower (s : string) :
  Py.truthy_str (Py.lower s) = Py.truthy_str s.
Proof. destruct s; reflexivity. Qed.

(** ** Filtering a string *)

Lemma filter_str_app (p : ascii -> bool) (s t : string) :
  PyText.filter_str p (s ++ t)%string
  = (PyText.filter_str p s ++ PyText.filter_str p t)%string.
Proof.
  induction s as [|c r IH]; cbn [String.append PyText.filter_str];
    [reflexivity|].
  destruct (p c); cbn [String.append]; rewrite IH; reflexivity.
Qed.

Lemma filter_str_all (p : ascii -> bool) (s : string) :
  PyText.all_chars p s = true -> PyText.filter_str p s = s.
Proof.
  induction s as [|c r IH]; cbn [PyText.all_chars PyText.filter_str];
    [reflexivity|].
  intros H. apply andb_true_iff in H. destruct H as [Hc Hr].
  rewrite Hc, (IH Hr). reflexivity.
Qed.

Lemma all_chars_filter (p : ascii -> bool) (s : string) :
  PyText.all_chars p (PyText.filter_str p s) = true.
Proof.
  induction s as [|c r IH]; cbn [PyText.filter_str]; [reflexivity|].
  destruct (p c) eqn:E; [|exact IH].
  cbn [PyText.all_chars]. rewrite E, IH. reflexivity.
Qed.

Lemma all_chars_app (p : ascii -> bool) (s t : string) :
  PyText.all_chars p (s ++ t)%string
  = PyText.all_chars p s && PyText.all_chars p t.
Proof.
  induction s as [|c r IH]; cbn [String.append PyText.all_chars];
    [reflexivity|].
  rewrite IH. apply andb_assoc.
Qed.

Lemma all_chars_weaken (p q : ascii -> bool) (s : string) :
  (forall c, p c = true -> q c = true) ->
  PyText.all_chars p s = true -> PyText.all_chars q s = true.
Proof.
  intros Hpq. induction s as [|c r IH]; cbn [PyText.all_chars];
    [reflexivity|].
  intros H. apply andb_true_iff in H. destruct H as [Hc Hr].
  rewrite (Hpq c Hc), (IH Hr). reflexivity.
Qed.

(** ** [normalize_tracking_number] *)

(** The result of [normalize_tracking_number] holds alphanumeric
    characters only (the alphanumeric characters of the argument, in
    order), and normalizing it again changes nothing. *)
Theorem normalize_tracking_number_idempotent (tracking : option string) :
  PyText.all_chars Py.isalnum (Normalize.normalize_tracking_number tracking)
  = true
  /\ Normalize.normalize_tracking_number
       (Some (Normalize.normalize_tracking_number tracking))
     = Normalize.normalize_tracking_number tracking
  /\ Normalize.normalize_tracking_number tracking
     = match tracking with
       | Some t => PyText.filter_str Py.isalnum t
       | None => EmptyString
       end.
Proof.
  assert (forall t, Normalize.normalize_tracking_number (Some t)
                    = PyText.filter_str Py.isalnum t) as E.
  { intros t. unfold Normalize.normalize_tracking_number.
    destruct t; reflexivity. }
  destruct tracking as [t|].
  - rewrite !E. split; [apply all_chars_filter|].
    split; [|reflexivity].
    apply filter_str_all, all_chars_filter.
  - split; [reflexivity|]. split; reflexivity.
Qed.

(** ** [TransportMode.from_string] *)

Lemma of_value_sound (s : string) (m : TransportMode.t) :
  TransportMode_of_value s = Some m -> s = TransportMode.value m.
Proof.
  unfold TransportMode_of_value.
  repeat match goal with
         | |- context [String.eqb ?a ?b] =>
             destruct (String.eqb_spec a b); [subst|]
         end;
    intros H; inversion H; reflexivity.
Qed.

(** On a text of ASCII characters [from_string] ignores the case of its
    argument, and the mode it answers, when that is not UNKNOWN, is the
    one whose value is the argument in capitals; it inverts [value] and
    answers UNKNOWN for [None] and for the empty string. *)
Theorem from_string_round_trip (v : string) :
  PyText.isascii v = true ->
  TransportMode_from_string (Some (Py.lower v))
  = TransportMode_from_string (Some v)
  /\ TransportMode_from_string (Some (PyText.upper v))
     = TransportMode_from_string (Some v)
  /\ (TransportMode_from_string (Some v) = TransportMode.UNKNOWN
      \/ PyText.upper v
         = TransportMode.value (TransportMode_from_string (Some v)))
  /\ (forall m, TransportMode_from_string (Some (TransportMode.value m)) = m)
  /\ TransportMode_from_string None = TransportMode.UNKNOWN
  /\ TransportMode_from_string (Some EmptyString) = TransportMode.UNKNOWN.
Proof.
  intros Ha.
  split.
  { unfold TransportMode_from_string.
    rewrite truthy_lower, (upper_lower v Ha). reflexivity. }
  split.
  { unfold TransportMode_from_string.
    rewrite truthy_upper, upper_upper. reflexivity. }
  split.
  { unfold TransportMode_from_string.
    destruct (negb (Py.truthy_str v)); [left; reflexivity|].
    destruct (TransportMode_of_value (PyText.upper v)) as [m|] eqn:E;
      [|left; reflexivity].
    right. apply of_value_sound. exact E. }
  split; [intros []; reflexivity|].
  split; reflexivity.
Qed.

Lemma from_string_round_trip_witness :
  TransportMode_from_string (Some (Py.lower "Courier"))
  = TransportMode_from_string (Some "Courier")
  /\ TransportMode_from_string (Some (PyText.upper "Courier"))
     = TransportMode_from_string (Some "Courier")
  /\ (TransportMode_from_string (Some "Courier") = TransportMode.UNKNOWN
      \/ PyText.upper "Courier"
         = TransportMode.value (TransportMode_from_string (Some "Courier")))
  /\ (forall m, TransportMode_from_string (Some (TransportMode.value m)) = m)
  /\ TransportMode_from_string None = TransportMode.UNKNOWN
  /\ TransportMode_from_string (Some EmptyString) = TransportMode.UNKNOWN.
Proof.
  apply (from_string_round_trip "Courier"). reflexivity.
Defined.

(** ** Splitting and stripping *)

Lemma split_on_nonempty (sep : ascii) (s : string) :
  PyText.split_on sep s <> [].
Proof.
  destruct s as [|c r]; cbn [PyText.split_on]; [discriminate|].
  destruct (Ascii.eqb c sep); [discriminate|].
  destruct (PyText.split_on sep r); discriminate.
Qed.

Lemma split_on_single (sep : ascii) (s : string) :
  forall b, PyText.split_on sep s = [b] ->
            s = b /\ PyText.has_char sep s = false.
Proof.
  induction s as [|c r IH]; intros b; cbn [PyText.split_on PyText.has_char].
  - intros H. inversion H. split; reflexivity.
  - destruct (Ascii.eqb c sep) eqn:E.
    + intros H. inversion H as [[Hb Hr]].
      exfalso. exact (split_on_nonempty sep r Hr).
    + destruct (PyText.split_on sep r) as [|h t] eqn:Es.
      * exfalso. exact (split_on_nonempty sep r Es).
      * intros H. inversion H; subst.
        destruct (IH h eq_refl) as [-> Hh].
        cbn [orb]. split; [reflexivity | exact Hh].
Qed.

Lemma split_on_pair (sep : ascii) (s : string) :
  forall a b, PyText.split_on sep s = [a; b] ->
              s = (a ++ String sep b)%string
              /\ PyText.has_char sep a = false
              /\ PyText.has_char sep b = false.
Proof.
  induction s as [|c r IH]; intros a b; cbn [PyText.split_on].
  - discriminate.
  - destruct (Ascii.eqb c sep) eqn:E.
    + intros H. inversion H as [[Ha Hr]].
      apply Ascii.eqb_eq in E. subst c.
      destruct (split_on_single sep r b Hr) as [-> Hb].
      split; [reflexivity|]. split; [reflexivity | exact Hb].
    + destruct (PyText.split_on sep r) as [|h t] eqn:Es.
      * discriminate.
      * intros H. inversion H; subst.
        destruct (IH h b eq_refl) as (-> & Hh & Hb).
        split; [reflexivity|]. split; [|exact Hb].
        cbn [PyText.has_char]. rewrite E, Hh. reflexivity.
Qed.

Lemma split_on_no_sep (sep : ascii) (s : string) :
  PyText.has_char sep s = false -> PyText.split_on sep s = [s].
Proof.
  induction s as [|c r IH]; cbn [PyText.split_on PyText.has_char];
    [reflexivity|].
  intros H. apply orb_false_iff in H. destruct H as [Hc Hr].
  rewrite Hc, (IH Hr). reflexivity.
Qed.

Lemma split_on_join (sep : ascii) (a b : string) :
  PyText.has_char sep a = false ->
  PyText.has_char sep b = false ->
  PyText.split_on sep (a ++ String sep b)%string = [a; b].
Proof.
  intros Ha Hb. induction a as [|c r IH];
    cbn [String.append PyText.split_on].
  - rewrite Ascii.eqb_refl, (split_on_no_sep sep b Hb). reflexivity.
  - cbn [PyText.has_char] in Ha. apply orb_false_iff in Ha.
    destruct Ha as [Hc Hr]. rewrite Hc, (IH Hr). reflexivity.
Qed.

Lemma has_char_app (sep : ascii) (a b : string) :
  PyText.has_char sep (a ++ String sep b)%string = true.
Proof.
  induction a as [|c r IH]; cbn [String.append PyText.has_char].
  - rewrite Ascii.eqb_refl. reflexivity.
  - rewrite IH. apply orb_true_r.
Qed.

Lemma truthy_app_char (a b : string) (c : ascii) :
  Py.truthy_str (a ++ String c b)%string = true.
Proof. destruct a; reflexivity. Qed.

Lemma lstrip_has_char (sep : ascii) (s : string) :
  PyText.has_char sep s = false ->
  PyText.has_char sep (Py.lstrip s) = false.
Proof.
  induction s as [|c r IH]; cbn [Py.lstrip]; [reflexivity|].
  intros H. destruct (Py.isspace c); [|exact H].
  apply IH. cbn [PyText.has_char] in H.
  apply orb_false_iff in H. apply H.
Qed.

Lemma rstrip_has_char (sep : ascii) (s : string) :
  PyText.has_char sep s = false ->
  PyText.has_char sep (Py.rstrip s) = false.
Proof.
  induction s as [|c r IH]; cbn [Py.rstrip]; [reflexivity|].
  intros H. cbn [PyText.has_char] in H.
  apply orb_false_iff in H. destruct H as [Hc Hr].
  specialize (IH Hr).
  destruct (Py.rstrip r) as [|x r'].
  - destruct (Py.isspace c); [reflexivity|].
    cbn [PyText.has_char]. rewrite Hc. reflexivity.
  - change (PyText.has_char sep (String c (String x r')))
      with (Ascii.eqb c sep || PyText.has_char sep (String x r')).
    rewrite Hc, IH. reflexivity.
Qed.

Lemma strip_has_char (sep : ascii) (s : string) :
  PyText.has_char sep s = false ->
  PyText.has_char sep (Py.strip s) = false.
Proof.
  intros H. unfold Py.strip.
  apply rstrip_has_char, lstrip_has_char, H.
Qed.

Lemma filter_lstrip (s : string) :
  PyText.filter_str Py.isalnum (Py.lstrip s)
  = PyText.filter_str Py.isalnum s.
Proof.
  induction s as [|c r IH]; cbn [Py.lstrip]; [reflexivity|].
  destruct (Py.isspace c) eqn:E; [|reflexivity].
  cbn [PyText.filter_str]. rewrite (isspace_not_alnum c E). exact IH.
Qed.

Lemma filter_rstrip (s : string) :
  PyText.filter_str Py.isalnum (Py.rstrip s)
  = PyText.filter_str Py.isalnum s.
Proof.
  induction s as [|c r IH]; cbn [Py.rstrip]; [reflexivity|].
  cbn [PyText.filter_str].
  destruct (Py.rstrip r) as [|x r'].
  - cbn [PyText.filter_str] in IH. rewrite <- IH.
    destruct (Py.isspace c) eqn:E.
    + rewrite (isspace_not_alnum c E). reflexivity.
    + cbn [PyText.filter_str]. reflexivity.
  - change (PyText.filter_str Py.isalnum (String c (String x r')))
      with (if Py.isalnum c
            then String c (PyText.filter_str Py.isalnum (String x r'))
            else PyText.filter_str Py.isalnum (String x r')).
    rewrite IH. reflexivity.
Qed.

Lemma filter_strip (s : string) :
  PyText.filter_str Py.isalnum (Py.strip s)
  = PyText.filter_str Py.isalnum s.
Proof.
  unfold Py.strip. rewrite filter_rstrip, filter_lstrip. reflexivity.
Qed.

(** A string that is empty or starts with a character other than white
    space. *)
Lemma lstrip_fixed (s : string) :
  match s with
  | String c _ => Py.isspace c = false
  | EmptyString => True
  end ->
  Py.lstrip s = s.
Proof.
  destruct s as [|c r]; [reflexivity|].
  intros H. cbn [Py.lstrip]. rewrite H. reflexivity.
Qed.

Lemma lstrip_head (s : string) :
  match Py.lstrip s with
  | String c _ => Py.isspace c = false
  | EmptyString => True
  end.
Proof.
  induction s as [|c r IH]; cbn [Py.lstrip]; [exact I|].
  destruct (Py.isspace c) eqn:E; [exact IH | exact E].
Qed.

Lemma rstrip_head (s : string) :
  match s with
  | String c _ => Py.isspace c = false
  | EmptyString => True
  end ->
  match Py.rstrip s with
  | String c _ => Py.isspace c = false
  | EmptyString => True
  end.
Proof.
  destruct s as [|c r]; [intros; exact I|].
  intros H. cbn [Py.rstrip].
  destruct (Py.rstrip r); [rewrite H|]; exact H.
Qed.

Lemma rstrip_rstrip (s : string) : Py.rstrip (Py.rstrip s) = Py.rstrip s.
Proof.
  induction s as [|c r IH]; cbn [Py.rstrip]; [reflexivity|].
  destruct (Py.rstrip r) as [|x r'] eqn:E.
  - destruct (Py.isspace c) eqn:Ec; [reflexivity|].
    cbn [Py.rstrip]. rewrite Ec. reflexivity.
  - change (Py.rstrip (String c (String x r')))
      with (match Py.rstrip (String x r') with
            | EmptyString =>
                if Py.isspace c then EmptyString else String c EmptyString
            | String y r'' => String c (String y r'')
            end).
    rewrite IH. reflexivity.
Qed.

Lemma strip_strip (s : string) : Py.strip (Py.strip s) = Py.strip s.
Proof.
  unfold Py.strip.
  rewrite (lstrip_fixed (Py.rstrip (Py.lstrip s))).
  - apply rstrip_rstrip.
  - apply rstrip_head, lstrip_head.
Qed.

Lemma substring_whole (s : string) :
  String.substring 0 (String.length s) s = s.
Proof.
  induction s as [|c r IH]; cbn [String.length String.substring];
    [reflexivity|].
  rewrite IH. reflexivity.
Qed.

Lemma substring_split (s : string) :
  forall n, (n <= String.length s)%nat ->
            (String.substring 0 n s
             ++ String.substring n (String.length s - n) s)%string = s.
Proof.
  induction s as [|c r IH]; intros n Hn; cbn [String.length] in *.
  - destruct n; [reflexivity|lia].
  - destruct n as [|n'].
    + cbn [String.substring Nat.sub String.append].
      rewrite substring_whole. reflexivity.
    + cbn [String.substring Nat.sub String.append].
      rewrite (IH n'); [reflexivity|lia].
Qed.

(** ** [normalize_awb_number] *)

Lemma filter_dash (a b : string) :
  PyText.filter_str Py.isalnum (a ++ String "-" b)%string
  = (PyText.filter_str Py.isalnum a ++ PyText.filter_str Py.isalnum b)%string.
Proof. rewrite filter_str_app. reflexivity. Qed.

(** The canonical form that an identifier of eleven digits is given. *)
Lemma awb_canonical (clean : string) :
  String.length clean = 11%nat ->
  PyText.all_chars Py.isdigit_str clean = true ->
  Normalize.normalize_awb_number
    (Some (String.substring 0 3 clean ++ "-"
           ++ String.substring 3 (String.length clean - 3) clean)%string)
  = (String.substring 0 3 clean ++ "-"
     ++ String.substring 3 (String.length clean - 3) clean)%string.
Proof.
  intros Hl Hd.
  pose proof (substring_split clean 3 ltac:(lia)) as Hs.
  assert (Py.truthy_str clean = true) as Ht.
  { destruct clean; [discriminate Hl | reflexivity]. }
  rewrite Hl in *.
  set (d3 := String.substring 0 3 clean) in *.
  set (d8 := String.substring 3 (11 - 3) clean) in *.
  assert (PyText.all_chars Py.isalnum d3 = true
          /\ PyText.all_chars Py.isalnum d8 = true) as [H3 H8].
  { apply andb_true_iff. rewrite <- all_chars_app, Hs.
    apply (all_chars_weaken Py.isdigit_str);
      [exact isdigit_str_isalnum | exact Hd]. }
  unfold Normalize.normalize_awb_number.
  change (d3 ++ "-" ++ d8)%string with (d3 ++ String "-" d8)%string.
  rewrite truthy_app_char. cbn [negb].
  rewrite filter_dash, (filter_str_all _ d3 H3), (filter_str_all _ d8 H8), Hs.
  rewrite Hl. cbn [Nat.eqb andb].
  unfold PyText.str_isdigit. rewrite Hd, Ht. cbn [andb].
  reflexivity.
Qed.

(** [normalize_awb_number] is idempotent: a normalized identifier is left
    as it is, whichever of the three shapes it has. *)
Theorem normalize_awb_number_idempotent (awb : option string) :
  Normalize.normalize_awb_number (Some (Normalize.normalize_awb_number awb))
  = Normalize.normalize_awb_number awb.
Proof.
  destruct awb as [a|]; [|reflexivity].
  destruct a as [|c0 r0]; [reflexivity|].
  set (a := String c0 r0).
  unfold Normalize.normalize_awb_number at 2 3.
  change (Py.truthy_str a) with true. cbn [negb].
  set (clean := PyText.filter_str Py.isalnum a).
  destruct ((String.length clean =? 11)%nat && PyText.str_isdigit clean)
    eqn:E11.
  - apply andb_true_iff in E11. destruct E11 as [Hl Hd].
    apply Nat.eqb_eq in Hl. unfold PyText.str_isdigit in Hd.
    apply andb_true_iff in Hd. destruct Hd as [_ Hd].
    apply awb_canonical; assumption.
  - destruct (PyText.has_char "-" a) eqn:Hdash.
    + destruct (PyText.split_on "-" a) as [|p0 [|p1 [|p2 rest]]] eqn:Es;
        try (unfold Normalize.normalize_awb_number;
             change (Py.truthy_str a) with true; cbn [negb];
             fold clean; rewrite E11, Hdash, Es; reflexivity).
      destruct (split_on_pair "-" a p0 p1 Es) as (Ha & H0 & H1).
      unfold Normalize.normalize_awb_number.
      change (Py.strip p0 ++ "-" ++ Py.strip p1)%string
        with (Py.strip p0 ++ String "-" (Py.strip p1))%string.
      rewrite truthy_app_char. cbn [negb].
      rewrite filter_dash, !filter_strip, <- filter_dash, <- Ha.
      fold clean. rewrite E11, has_char_app.
      rewrite (split_on_join "-" _ _ (strip_has_char "-" p0 H0)
                 (strip_has_char "-" p1 H1)).
      rewrite !strip_strip. reflexivity.
    + unfold Normalize.normalize_awb_number.
      change (Py.truthy_str a) with true. cbn [negb].
      fold clean. rewrite E11, Hdash. reflexivity.
Qed.

(** An identifier whose letters and digits, as [str.isalnum] finds them,
    are eleven digits in the sense of [str.isdigit] is written as the
    first three of them, a dash and the other eight. *)
Theorem normalize_awb_number_eleven_digits (a : string) :
  String.length (PyText.filter_str Py.isalnum a) = 11%nat ->
  PyText.all_chars Py.isdigit_str (PyText.filter_str Py.isalnum a) = true ->
  exists d3 d8,
    Normalize.normalize_awb_number (Some a) = (d3 ++ "-" ++ d8)%string
    /\ String.length d3 = 3%nat
    /\ String.length d8 = 8%nat
    /\ (d3 ++ d8)%string = PyText.filter_str Py.isalnum a.
Proof.
  intros Hl Hd.
  unfold Normalize.normalize_awb_number.
  destruct a as [|c0 r0]; [discriminate Hl|].
  change (Py.truthy_str (String c0 r0)) with true. cbn [negb].
  set (clean := PyText.filter_str Py.isalnum (String c0 r0)) in *.
  rewrite Hl. cbn [Nat.eqb andb].
  unfold PyText.str_isdigit. rewrite Hd.
  do 11 (destruct clean as [|? clean]; [discriminate Hl|]).
  destruct clean; [|discriminate Hl].
  cbn [Py.truthy_str String.eqb negb andb].
  eexists. eexists. split; [reflexivity|].
  repeat split.
Qed.

Lemma normalize_awb_number_eleven_digits_witness :
  exists d3 d8,
    Normalize.normalize_awb_number (Some "235 30462681")
    = (d3 ++ "-" ++ d8)%string
    /\ String.length d3 = 3%nat
    /\ String.length d8 = 8%nat
    /\ (d3 ++ d8)%string = PyText.filter_str Py.isalnum "235 30462681".
Proof.
  apply (normalize_awb_number_eleven_digits "235 30462681"); reflexivity.
Defined.

(** ** [extract_itr_number] *)

Lemma isdigit_not_space (c : ascii) :
  Py.isdigit c = true -> Py.isspace c = false.
Proof. by_all_chars c. Qed.

Lemma span_parts (p : ascii -> bool) (s : string) :
  forall a b, Helpers.span p s = (a, b) ->
              PyText.all_chars p a = true /\ s = (a ++ b)%string.
Proof.
  induction s as [|c r IH]; intros a b; cbn [Helpers.span].
  - intros H. inversion H. split; reflexivity.
  - destruct (p c) eqn:E.
    + destruct (Helpers.span p r) as [a' b'] eqn:Es.
      intros H. inversion H; subst.
      destruct (IH a' b eq_refl) as [Ha ->].
      cbn [PyText.all_chars]. rewrite E, Ha. split; reflexivity.
    + intros H. inversion H. split; reflexivity.
Qed.

Lemma span_all (p : ascii -> bool) (a : string) :
  PyText.all_chars p a = true -> Helpers.span p a = (a, EmptyString).
Proof.
  induction a as [|c r IH]; cbn [PyText.all_chars Helpers.span];
    [reflexivity|].
  intros H. apply andb_true_iff in H. destruct H as [Hc Hr].
  rewrite Hc, (IH Hr). reflexivity.
Qed.

Lemma at_itr_shape (s out : string) :
  Normalize.at_itr s = Some out ->
  exists number,
    number <> EmptyString
    /\ PyText.all_chars Py.isdigit number = true
    /\ (out = ("ITR " ++ number)%string \/ out = ("SOM " ++ number)%string).
Proof.
  unfold Normalize.at_itr.
  destruct s as [|a [|b [|c r]]]; try discriminate.
  set (word := String a (String b (String c EmptyString))).
  destruct ((Py.lower word =? "itr") || (Py.lower word =? "som"))%string
    eqn:Ew; [|discriminate].
  destruct (Helpers.span Py.isspace r) as [ws r1].
  destruct (Helpers.span Py.isdigit r1) as [number rest] eqn:Ed.
  destruct (Py.truthy_str number) eqn:Et; [|discriminate].
  assert (PyText.upper word = "ITR" \/ PyText.upper word = "SOM") as Hu.
  { apply orb_true_iff in Ew.
    destruct Ew as [E|E]; apply String.eqb_eq in E;
      rewrite (upper_of_lower word) by (rewrite E; reflexivity);
      rewrite E; [left|right]; reflexivity. }
  intros H. injection H as <-. exists number.
  destruct (span_parts _ _ _ _ Ed) as [Hd _].
  split; [intros ->; discriminate Et|].
  split; [exact Hd|].
  destruct Hu as [Hu|Hu]; [left|right];
    cbn [PyText.upper] in Hu; injection Hu as -> -> ->; reflexivity.
Qed.

Lemma at_itr_canonical (number : string) (word : string) :
  number <> EmptyString ->
  PyText.all_chars Py.isdigit number = true ->
  word = "ITR" \/ word = "SOM" ->
  Normalize.at_itr (word ++ " " ++ number)%string
  = Some (word ++ " " ++ number)%string.
Proof.
  intros Hne Hd Hw.
  assert (Helpers.span Py.isspace number = (EmptyString, number)) as Hs.
  { destruct number as [|c r]; [contradiction|].
    cbn [PyText.all_chars] in Hd. apply andb_true_iff in Hd.
    cbn [Helpers.span]. rewrite (isdigit_not_space c (proj1 Hd)).
    reflexivity. }
  assert (Py.truthy_str number = true) as Ht.
  { destruct number; [contradiction | reflexivity]. }
  destruct Hw as [-> | ->]; cbn [String.append Normalize.at_itr];
    cbn [Py.lower]; unfold Helpers.span at 1; fold Helpers.span;
    change (Py.isspace " ") with true; cbn iota;
    rewrite Hs, (span_all _ _ Hd), Ht; reflexivity.
Qed.

Lemma extract_itr_found (text out : string) :
  Normalize.extract_itr_number text = Some out ->
  exists s, Normalize.at_itr s = Some out.
Proof.
  induction text as [|c r IH]; cbn [Normalize.extract_itr_number].
  - destruct (Normalize.at_itr "") eqn:E; [|discriminate].
    intros H. inversion H; subst. exists EmptyString. exact E.
  - destruct (Normalize.at_itr (String c r)) eqn:E.
    + intros H. inversion H; subst. exists (String c r). exact E.
    + exact IH.
Qed.

(** In an ASCII text, an invoice number that [extract_itr_number] finds
    is ITR or SOM in capitals, one space and a non-empty run of the
    digits 0 to 9, and extracting from that result gives it back. *)
Theorem extract_itr_number_normal_form (text out : string) :
  PyText.isascii text = true ->
  Normalize.extract_itr_number text = Some out ->
  (exists number,
      number <> EmptyString
      /\ PyText.all_chars Py.isdigit number = true
      /\ (out = ("ITR " ++ number)%string
          \/ out = ("SOM " ++ number)%string))
  /\ Normalize.extract_itr_number out = Some out.
Proof.
  intros _ H.
  destruct (extract_itr_found text out H) as (s & Hs).
  destruct (at_itr_shape s out Hs) as (number & Hne & Hd & Ho).
  split; [exists number; auto|].
  assert (Normalize.at_itr out = Some out) as Ha.
  { destruct Ho as [-> | ->].
    - apply (at_itr_canonical number "ITR"); auto.
    - apply (at_itr_canonical number "SOM"); auto. }
  destruct out; cbn [Normalize.extract_itr_number]; rewrite Ha; reflexivity.
Qed.

Lemma extract_itr_number_normal_form_witness :
  (exists number,
      number <> EmptyString
      /\ PyText.all_chars Py.isdigit number = true
      /\ ("ITR 2502027" = ("ITR " ++ number)%string
          \/ "ITR 2502027" = ("SOM " ++ number)%string))
  /\ Normalize.extract_itr_number "ITR 2502027" = Some "ITR 2502027".
Proof.
  apply (extract_itr_number_normal_form "itr2502027_Invoice.pdf");
    reflexivity.
Defined.

(* ------------------------------------------------------------------ *)
(** ** Reconciliation: what it reports and what it changes *)

Lemma check_currency_benign (aa : bool) (l : SAPPDOData.t)
    (s : InboundShipment.t) :
  let r := ReconciliationEngine.check_currency aa l s in
  existsb (ResultProperties.has_severity ValidationSeverity.ERROR) (fst r)
  = false
  /\ (List.length (fst r) <= 1)%nat.
Proof.
  unfold ReconciliationEngine.check_currency.
  destruct (InboundShipment.currency s) as [doc|]; [|cbn; split; [reflexivity|lia]].
  destruct (Py.truthy_str doc
            && Py.truthy_str (SAPPDOData.currency l));
    [|cbn; split; [reflexivity|lia]].
  destruct (negb (doc =? SAPPDOData.currency l));
    cbn; split; try reflexivity; lia.
Qed.

Lemma check_value_benign (self : ReconciliationEngine.t) (aa : bool)
    (l : SAPPDOData.t) (s : InboundShipment.t) :
  let r := ReconciliationEngine.check_value self aa l s in
  existsb (ResultProperties.has_severity ValidationSeverity.ERROR) (fst r)
  = false
  /\ (List.length (fst r) <= 1)%nat.
Proof.
  cbv zeta. rewrite check_value_issues.
  destruct (InboundShipment.total_value s) as [doc|];
    [|cbn; split; [reflexivity|lia]].
  match goal with
  | |- context [if ?b then _ else _] => destruct b
  end; [|cbn; split; [reflexivity|lia]].
  unfold ReconciliationEngine.value_mismatch, ResultProperties.has_severity.
  cbn [existsb ReconciliationIssue.severity List.length fst].
  match goal with
  | |- context [if ?b then _ else _] => destruct b
  end; cbn; split; try reflexivity; lia.
Qed.

(** Reconciliation never blocks: whatever the shipment, the ledger and
    the settings, the result of [reconcile_inbound] holds at most two
    issues, none of severity ERROR, and it names a ledger record exactly
    when it reports the ledger as used. *)
Theorem reconcile_never_blocks (self : ReconciliationEngine.t)
    (s : InboundShipment.t) (sap_data : sap_dict)
    (auto_apply : option bool) :
  let r :=
    fst (ReconciliationEngine.reconcile_inbound self s sap_data auto_apply) in
  ResultProperties.has_errors r = false
  /\ (List.length (ReconciliationResult.issues r) <= 2)%nat
  /\ (ReconciliationResult.matched_pdo r = None
      <-> ReconciliationResult.sap_used r = false).
Proof.
  cbv zeta.
  destruct (ReconciliationEngine._find_matching_sap
              self (InboundShipment.reference s) sap_data) as [l|] eqn:E.
  - destruct (reconcile_matched self s sap_data auto_apply l E) as [Hi _].
    cbv zeta in Hi.
    unfold ResultProperties.has_errors. rewrite Hi.
    rewrite existsb_app, length_app.
    destruct (check_currency_benign (effective_auto_apply self auto_apply)
                l s) as [Hc Hcl].
    destruct (check_value_benign self (effective_auto_apply self auto_apply) l
                (snd (ReconciliationEngine.check_currency
                        (effective_auto_apply self auto_apply) l s)))
      as [Hv Hvl].
    cbv zeta in Hc, Hcl, Hv, Hvl. rewrite Hc, Hv.
    split; [reflexivity|]. split; [lia|].
    unfold ReconciliationEngine.reconcile_inbound. rewrite E.
    destruct (ReconciliationEngine.check_currency _ l s) as [f1 s1].
    destruct (ReconciliationEngine.check_value self _ l s1) as [f2 s2].
    cbn. split; discriminate.
  - unfold ReconciliationEngine.reconcile_inbound. rewrite E. cbn.
    split; [reflexivity|]. split; [lia|]. split; reflexivity.
Qed.

Lemma check_currency_shipping (aa : bool) (l : SAPPDOData.t)
    (s : InboundShipment.t) :
  let r := ReconciliationEngine.check_currency aa l s in
  (snd r = s
   \/ snd r = InboundShipment.set_currency s (Some (SAPPDOData.currency l)))
  /\ (aa = false -> snd r = s).
Proof.
  unfold ReconciliationEngine.check_currency.
  destruct (InboundShipment.currency s) as [doc|]; [|cbn; auto].
  destruct (Py.truthy_str doc && Py.truthy_str (SAPPDOData.currency l));
    [|cbn; auto].
  destruct (negb (doc =? SAPPDOData.currency l)); [|cbn; auto].
  destruct aa; cbn; split; auto. discriminate.
Qed.

Lemma check_value_shipping (self : ReconciliationEngine.t) (aa : bool)
    (l : SAPPDOData.t) (s : InboundShipment.t) :
  let r := ReconciliationEngine.check_value self aa l s in
  (snd r = s
   \/ snd r
      = InboundShipment.set_total_value s (Some (SAPPDOData.total_value l)))
  /\ (aa = false -> snd r = s).
Proof.
  unfold ReconciliationEngine.check_value.
  destruct (InboundShipment.total_value s) as [doc|]; [|cbn; auto].
  destruct (Float.truthy doc && Float.truthy (SAPPDOData.total_value l));
    [|cbn; auto].
  cbv zeta.
  destruct (Float.ltb (ReconciliationEngine.tolerance self)
              (ReconciliationEngine.diff_pct doc (SAPPDOData.total_value l)));
    [|cbn; auto].
  destruct aa; cbn; split; auto. discriminate.
Qed.

Lemma apply_sap_absorbs_currency (l : SAPPDOData.t) (s : InboundShipment.t)
    (c : option string) :
  ReconciliationEngine.apply_sap l (InboundShipment.set_currency s c)
  = ReconciliationEngine.apply_sap l s.
Proof.
  unfold ReconciliationEngine.apply_sap.
  destruct (Py.truthy_list (SAPPDOData.brands l)),
           (Py.truthy_list (SAPPDOData.country_splits l)); reflexivity.
Qed.

Lemma apply_sap_absorbs_total (l : SAPPDOData.t) (s : InboundShipment.t)
    (v : option Float.float) :
  ReconciliationEngine.apply_sap l (InboundShipment.set_total_value s v)
  = ReconciliationEngine.apply_sap l s.
Proof.
  unfold ReconciliationEngine.apply_sap.
  destruct (Py.truthy_list (SAPPDOData.brands l)),
           (Py.truthy_list (SAPPDOData.country_splits l)); reflexivity.
Qed.

Lemma apply_sap_idempotent (l : SAPPDOData.t) (s : InboundShipment.t) :
  ReconciliationEngine.apply_sap l (ReconciliationEngine.apply_sap l s)
  = ReconciliationEngine.apply_sap l s.
Proof.
  unfold ReconciliationEngine.apply_sap.
  destruct (Py.truthy_list (SAPPDOData.brands l)),
           (Py.truthy_list (SAPPDOData.country_splits l)); reflexivity.
Qed.

Lemma apply_sap_shipping (l : SAPPDOData.t) (s : InboundShipment.t) :
  shipping_fields (ReconciliationEngine.apply_sap l s) = shipping_fields s.
Proof.
  unfold ReconciliationEngine.apply_sap.
  destruct (Py.truthy_list (SAPPDOData.brands l)),
           (Py.truthy_list (SAPPDOData.country_splits l)); reflexivity.
Qed.

(** With the ledger values applied, the record that [reconcile_inbound]
    leaves is the incoming record with the block of assignments run on
    it: what the two checks did to it is overwritten. *)
Lemma reconcile_auto_shipment (self : ReconciliationEngine.t)
    (s : InboundShipment.t) (sap_data : sap_dict) (auto_apply : option bool)
    (l : SAPPDOData.t) :
  ReconciliationEngine._find_matching_sap
    self (InboundShipment.reference s) sap_data = Some l ->
  effective_auto_apply self auto_apply = true ->
  snd (ReconciliationEngine.reconcile_inbound self s sap_data auto_apply)
  = ReconciliationEngine.apply_sap l s.
Proof.
  intros E Haa.
  destruct (reconcile_matched self s sap_data auto_apply l E) as [_ Hs].
  cbv zeta in Hs. rewrite Haa in Hs. rewrite Hs.
  destruct (check_currency_shipping true l s) as [Hc _].
  destruct (check_value_shipping self true l
              (snd (ReconciliationEngine.check_currency true l s)))
    as [Hv _].
  cbv zeta in Hc, Hv.
  destruct Hv as [-> | ->]; rewrite ?apply_sap_absorbs_total;
    destruct Hc as [-> | ->]; rewrite ?apply_sap_absorbs_currency;
    reflexivity.
Qed.

Lemma reconcile_manual_shipment (self : ReconciliationEngine.t)
    (s : InboundShipment.t) (sap_data : sap_dict)
    (auto_apply : option bool) :
  effective_auto_apply self auto_apply = false ->
  snd (ReconciliationEngine.reconcile_inbound self s sap_data auto_apply) = s.
Proof.
  intros Haa.
  destruct (ReconciliationEngine._find_matching_sap
              self (InboundShipment.reference s) sap_data) as [l|] eqn:E.
  - destruct (reconcile_matched self s sap_data auto_apply l E) as [_ Hs].
    cbv zeta in Hs. rewrite Haa in Hs. rewrite Hs.
    destruct (check_currency_shipping false l s) as [_ Hc].
    cbv zeta in Hc. rewrite (Hc eq_refl).
    destruct (check_value_shipping self false l s) as [_ Hv].
    exact (Hv eq_refl).
  - unfold ReconciliationEngine.reconcile_inbound. rewrite E. reflexivity.
Qed.

Lemma reconcile_shipping (self : ReconciliationEngine.t)
    (s : InboundShipment.t) (sap_data : sap_dict)
    (auto_apply : option bool) :
  shipping_fields
    (snd (ReconciliationEngine.reconcile_inbound self s sap_data auto_apply))
  = shipping_fields s.
Proof.
  destruct (effective_auto_apply self auto_apply) eqn:Haa.
  - destruct (ReconciliationEngine._find_matching_sap
                self (InboundShipment.reference s) sap_data) as [l|] eqn:E.
    + rewrite (reconcile_auto_shipment self s sap_data auto_apply l E Haa).
      apply apply_sap_shipping.
    + unfold ReconciliationEngine.reconcile_inbound. rewrite E. reflexivity.
  - rewrite (reconcile_manual_shipment self s sap_data auto_apply Haa).
    reflexivity.
Qed.

(** The documents stay the source of the shipping details: whatever the
    ledger and the settings, [reconcile_inbound] leaves the reference, the
    ship date, the tracking number, the incoterms, the mode, the flight,
    the two countries, the description, the source files, the confidence,
    the stored validation issues and the list of user-modified fields as
    they were; and with the automatic application switched off it leaves
    the whole record as it was. *)
Theorem reconcile_keeps_shipping_fields (self : ReconciliationEngine.t)
    (s : InboundShipment.t) (sap_data : sap_dict)
    (auto_apply : option bool) :
  let s' :=
    snd (ReconciliationEngine.reconcile_inbound self s sap_data auto_apply) in
  shipping_fields s' = shipping_fields s
  /\ (effective_auto_apply self auto_apply = false -> s' = s).
Proof.
  cbv zeta. split.
  - apply reconcile_shipping.
  - apply reconcile_manual_shipment.
Qed.

Lemma ltb_zero_sign (x : Float.float) (b : bool) :
  Float.ltb x (S754_zero b) = Float.ltb x (S754_zero false).
Proof. destruct x as [[]|[]| |[] ? ?]; destruct b; reflexivity. Qed.

Lemma ltb_nan (x : Float.float) : Float.ltb x S754_nan = false.
Proof. destruct x as [[]|[]| |[] ? ?]; reflexivity. Qed.

(** A value compared with itself differs by nought percent, or by no
    number at all: it exceeds no tolerance that is not negative. *)
Lemma same_value_within_tolerance (tol t : Float.float) :
  Float.ltb tol (Float.of_Z 0) = false ->
  Float.ltb tol (ReconciliationEngine.diff_pct t t) = false.
Proof.
  intros H. rewrite of_Z_zero in H.
  unfold ReconciliationEngine.diff_pct.
  destruct t as [s|s| |s m e].
  - replace (Float.mul
               (Float.div (Float.abs (Float.sub (S754_zero s) (S754_zero s)))
                          (S754_zero s)) (Float.of_Z 100))
      with (@S754_nan) by (destruct s; vm_compute; reflexivity).
    apply ltb_nan.
  - replace (Float.mul
               (Float.div
                  (Float.abs (Float.sub (S754_infinity s) (S754_infinity s)))
                  (S754_infinity s)) (Float.of_Z 100))
      with (@S754_nan) by (destruct s; vm_compute; reflexivity).
    apply ltb_nan.
  - apply ltb_nan.
  - rewrite sub_same_finite.
    replace (Float.mul
               (Float.div (Float.abs (S754_zero false)) (S754_finite s m e))
               (Float.of_Z 100))
      with (S754_zero s) by (destruct s; vm_compute; reflexivity).
    rewrite ltb_zero_sign. exact H.
Qed.

Lemma check_currency_same (aa : bool) (l : SAPPDOData.t)
    (s : InboundShipment.t) :
  InboundShipment.currency s = Some (SAPPDOData.currency l) ->
  ReconciliationEngine.check_currency aa l s = ([], s).
Proof.
  intros H. unfold ReconciliationEngine.check_currency. rewrite H.
  destruct (Py.truthy_str (SAPPDOData.currency l)); cbn [andb];
    [|reflexivity].
  rewrite String.eqb_refl. reflexivity.
Qed.

Lemma check_value_same (self : ReconciliationEngine.t) (aa : bool)
    (l : SAPPDOData.t) (s : InboundShipment.t) :
  InboundShipment.total_value s = Some (SAPPDOData.total_value l) ->
  Float.ltb (ReconciliationEngine.tolerance self) (Float.of_Z 0) = false ->
  ReconciliationEngine.check_value self aa l s = ([], s).
Proof.
  intros H Htol. unfold ReconciliationEngine.check_value. rewrite H.
  destruct (Float.truthy (SAPPDOData.total_value l)); cbn [andb];
    [|reflexivity].
  cbv zeta. rewrite (same_value_within_tolerance _ _ Htol). reflexivity.
Qed.

(** Reconciliation with the ledger values applied is idempotent: a second
    run against the same ledger leaves the record as the first run left
    it and, where the first run had located a ledger record and the
    tolerance is not negative, reports no issue. *)
Theorem reconcile_idempotent (self : ReconciliationEngine.t)
    (s : InboundShipment.t) (sap_data : sap_dict)
    (auto_apply : option bool) :
  effective_auto_apply self auto_apply = true ->
  Float.ltb (ReconciliationEngine.tolerance self) (Float.of_Z 0) = false ->
  let r1 := ReconciliationEngine.reconcile_inbound self s sap_data auto_apply in
  let r2 :=
    ReconciliationEngine.reconcile_inbound self (snd r1) sap_data auto_apply in
  snd r2 = snd r1
  /\ (ReconciliationResult.matched_pdo (fst r1) <> None ->
      ReconciliationResult.issues (fst r2) = []).
Proof.
  intros Haa Htol. cbv zeta.
  assert (InboundShipment.reference
            (snd (ReconciliationEngine.reconcile_inbound
                    self s sap_data auto_apply))
          = InboundShipment.reference s) as Href.
  { pose proof (reconcile_shipping self s sap_data auto_apply) as H.
    unfold shipping_fields in H. congruence. }
  destruct (ReconciliationEngine._find_matching_sap
              self (InboundShipment.reference s) sap_data) as [l|] eqn:E.
  - assert (ReconciliationEngine._find_matching_sap self
              (InboundShipment.reference
                 (snd (ReconciliationEngine.reconcile_inbound
                         self s sap_data auto_apply))) sap_data = Some l)
      as E1 by (rewrite Href; exact E).
    destruct (reconcile_applied self s sap_data auto_apply l E Haa)
      as (Hc & Ht & _).
    cbv zeta in Hc, Ht.
    destruct (reconcile_matched self _ sap_data auto_apply l E1)
      as [Hi2 _].
    cbv zeta in Hi2. rewrite Haa in Hi2.
    rewrite (check_currency_same _ _ _ Hc) in Hi2. cbn [fst snd] in Hi2.
    rewrite (check_value_same _ _ _ _ Ht Htol) in Hi2. cbn [fst app] in Hi2.
    split; [|intros _; exact Hi2].
    rewrite (reconcile_auto_shipment self _ sap_data auto_apply l E1 Haa).
    rewrite (reconcile_auto_shipment self s sap_data auto_apply l E Haa).
    apply apply_sap_idempotent.
  - assert (snd (ReconciliationEngine.reconcile_inbound
                   self s sap_data auto_apply) = s) as Hs.
    { unfold ReconciliationEngine.reconcile_inbound. rewrite E.
      reflexivity. }
    assert (ReconciliationResult.matched_pdo
              (fst (ReconciliationEngine.reconcile_inbound
                      self s sap_data auto_apply)) = None) as Hm.
    { unfold ReconciliationEngine.reconcile_inbound. rewrite E.
      reflexivity. }
    rewrite Hs. split; [exact Hs|]. intros H. contradiction.
Qed.

Lemma reconcile_idempotent_witness :
  let r1 :=
    ReconciliationEngine.reconcile_inbound ReconciliationEngine.default
      (shipment_of_value (Some (Float.of_Z 1200))) sap_1000 None in
  let r2 :=
    ReconciliationEngine.reconcile_inbound ReconciliationEngine.default
      (snd r1) sap_1000 None in
  snd r2 = snd r1
  /\ (ReconciliationResult.matched_pdo (fst r1) <> None ->
      ReconciliationResult.issues (fst r2) = []).
Proof.
  apply (reconcile_idempotent ReconciliationEngine.default
           (shipment_of_value (Some (Float.of_Z 1200))) sap_1000 None);
    reflexivity.
Defined.

(* ------------------------------------------------------------------ *)
(** ** The one error of an inbound record *)

Lemma has_error_snoc (l : list ValidationIssue) (i : ValidationIssue) :
  has_error (l ++ [i]) = has_error l || is_error i.
Proof.
  unfold has_error. rewrite existsb_app. cbn. rewrite orb_false_r.
  reflexivity.
Qed.

Lemma inbound_has_error (s : InboundShipment.t) :
  has_error (InboundShipment.issues_of s)
  = match InboundShipment.total_value s with
    | Some total =>
        Py.truthy_list (InboundShipment.country_splits s)
        && Float.truthy total
        && deviates (Float.sum (values (InboundShipment.country_splits s)))
                    total
    | None => false
    end.
Proof.
  unfold InboundShipment.issues_of, deviates, epsilon.
  destruct (negb (Py.truthy_ostr (InboundShipment.tracking_or_awb s)));
    destruct (Py.is_none (InboundShipment.etd_date s));
    destruct (InboundShipment.mode s);
    destruct (Py.truthy_ostr (InboundShipment.flight_vessel s));
    destruct (InboundShipment.tracking_or_awb s) as [tr|];
    try destruct (Py.truthy_str tr);
    try destruct (InboundShipment.digit_count tr <? 10)%Z;
    cbn [negb app];
    (destruct (InboundShipment.total_value s) as [total|]; [|reflexivity]);
    (destruct (Py.truthy_list (InboundShipment.country_splits s)
               && Float.truthy total); cbn [andb]; [|reflexivity]);
    cbv zeta;
    (destruct (Float.ltb (Float.lit 1 100)
                (Float.abs
                   (Float.sub
                      (Float.sum
                         (values (InboundShipment.country_splits s)))
                      total))); [|reflexivity]);
    rewrite ?has_error_snoc; reflexivity.
Qed.

(** Only the region amounts can block an inbound record: after
    [validate], [has_errors] is true exactly when the record has a total
    other than zero, at least one region amount, and region amounts whose
    sum misses the total by more than 0.01.  A missing tracking number,
    ship date or flight never does. *)
Theorem inbound_blocks_only_on_splits (s : InboundShipment.t) :
  InboundShipment.has_errors (snd (InboundShipment.validate s)) = true
  <-> exists total,
        InboundShipment.total_value s = Some total
        /\ InboundShipment.country_splits s <> []
        /\ Float.truthy total = true
        /\ deviates (Float.sum (values (InboundShipment.country_splits s)))
                    total = true.
Proof.
  unfold InboundShipment.has_errors, InboundShipment.validate.
  cbn [snd InboundShipment.set_validation_issues
       InboundShipment.validation_issues].
  change (existsb is_error (InboundShipment.issues_of s))
    with (has_error (InboundShipment.issues_of s)).
  rewrite inbound_has_error.
  destruct (InboundShipment.total_value s) as [total|].
  - split.
    + intros H. apply andb_true_iff in H. destruct H as [H Hd].
      apply andb_true_iff in H. destruct H as [Hl Ht].
      exists total. repeat split; auto.
      intros Hn. rewrite Hn in Hl. discriminate.
    + intros (t & Et & Hl & Ht & Hd). injection Et as <-.
      rewrite Ht, Hd.
      destruct (InboundShipment.country_splits s); [contradiction|].
      reflexivity.
  - split; [discriminate|]. intros (t & Et & _). discriminate.
Qed.

(** After a reconciliation that applied a ledger record with region
    amounts and a total other than zero, the inbound record is blocked by
    its own validation exactly when the ledger record fails the ledger's
    validation. *)
Theorem reconciled_shipment_validates_like_ledger
    (self : ReconciliationEngine.t) (s : InboundShipment.t)
    (sap_data : sap_dict) (auto_apply : option bool) (l : SAPPDOData.t) :
  ReconciliationEngine._find_matching_sap
    self (InboundShipment.reference s) sap_data = Some l ->
  effective_auto_apply self auto_apply = true ->
  SAPPDOData.country_splits l <> [] ->
  Float.truthy (SAPPDOData.total_value l) = true ->
  let s' :=
    snd (ReconciliationEngine.reconcile_inbound self s sap_data auto_apply) in
  InboundShipment.has_errors (snd (InboundShipment.validate s'))
  = has_error (SAPPDOData.validate l).
Proof.
  intros E Haa Hl Ht. cbv zeta.
  unfold InboundShipment.has_errors, InboundShipment.validate.
  cbn [snd InboundShipment.set_validation_issues
       InboundShipment.validation_issues].
  change (existsb is_error (InboundShipment.issues_of ?x))
    with (has_error (InboundShipment.issues_of x)).
  rewrite inbound_has_error, ledger_error_iff.
  destruct (reconcile_applied self s sap_data auto_apply l E Haa)
    as (_ & Hv & _ & Hs).
  cbv zeta in Hv, Hs. rewrite Hv, Hs, Ht.
  destruct (SAPPDOData.country_splits l) eqn:El; [contradiction|].
  cbn [Py.truthy_list andb]. unfold splits_sum. rewrite El.
  rewrite ?andb_true_r. reflexivity.
Qed.

Lemma reconciled_shipment_validates_like_ledger_witness :
  InboundShipment.has_errors
    (snd (InboundShipment.validate
            (snd (ReconciliationEngine.reconcile_inbound
                    ReconciliationEngine.default
                    (shipment_of_value (Some (Float.of_Z 1000)))
                    sap_600_300 None))))
  = has_error (SAPPDOData.validate ledger_600_300).
Proof.
  apply (reconciled_shipment_validates_like_ledger
           ReconciliationEngine.default
           (shipment_of_value (Some (Float.of_Z 1000))) sap_600_300 None
           ledger_600_300);
    [reflexivity | reflexivity | discriminate | reflexivity].
Defined.

(* ------------------------------------------------------------------ *)
(** ** [merge_sap_into_shipment] beside [reconcile_inbound] *)

(** Where the located ledger record has brands and region amounts, a
    reconciliation that applies the ledger values leaves the record as
    [merge_sap_into_shipment] does in the modes [sap_wins] and [merge],
    which name the same four fields; every other mode leaves the record
    alone and names no field. *)
Theorem merge_agrees_with_reconcile (self : ReconciliationEngine.t)
    (s : InboundShipment.t) (sap_data : sap_dict) (auto_apply : option bool)
    (l : SAPPDOData.t) :
  ReconciliationEngine._find_matching_sap
    self (InboundShipment.reference s) sap_data = Some l ->
  effective_auto_apply self auto_apply = true ->
  SAPPDOData.brands l <> [] ->
  SAPPDOData.country_splits l <> [] ->
  forall overwrite_mode,
    Reconciliation.merge_sap_into_shipment s l overwrite_mode
    = if (overwrite_mode =? "sap_wins") || (overwrite_mode =? "merge")
      then (["currency"; "total_value"; "brands"; "country_splits"],
            snd (ReconciliationEngine.reconcile_inbound
                   self s sap_data auto_apply))
      else ([], s).
Proof.
  intros E Haa Hb Hs overwrite_mode.
  rewrite (reconcile_auto_shipment self s sap_data auto_apply l E Haa).
  assert (ReconciliationEngine.apply_sap l s = Reconciliation.overwrite s l)
    as ->.
  { unfold ReconciliationEngine.apply_sap, Reconciliation.overwrite.
    destruct (SAPPDOData.brands l); [contradiction|].
    destruct (SAPPDOData.country_splits l); [contradiction|].
    reflexivity. }
  unfold Reconciliation.merge_sap_into_shipment.
  destruct (overwrite_mode =? "sap_wins"); [reflexivity|].
  destruct (overwrite_mode =? "merge"); reflexivity.
Qed.

Lemma merge_agrees_with_reconcile_witness :
  Reconciliation.merge_sap_into_shipment
    (shipment_of_value (Some (Float.of_Z 1200))) ledger_600_400 "merge"
  = (["currency"; "total_value"; "brands"; "country_splits"],
     snd (ReconciliationEngine.reconcile_inbound
            ReconciliationEngine.default
            (shipment_of_value (Some (Float.of_Z 1200))) sap_1000 None)).
Proof.
  apply (merge_agrees_with_reconcile ReconciliationEngine.default
           (shipment_of_value (Some (Float.of_Z 1200))) sap_1000 None
           ledger_600_400);
    [reflexivity | reflexivity | discriminate | discriminate].
Defined.

(* ------------------------------------------------------------------ *)
(** ** Looking a record up in the ledger *)

Lemma take_digits_parts (n : nat) :
  forall s d rest,
    Helpers.take_digits n s = Some (d, rest) ->
    s = (d ++ rest)%string
    /\ String.length d = n
    /\ PyText.all_chars Py.isdigit d = true.
Proof.
  induction n as [|n IH]; intros s d rest; cbn [Helpers.take_digits].
  - intros H. injection H as <- <-. split; [reflexivity|].
    split; reflexivity.
  - destruct s as [|c r]; [discriminate|].
    destruct (Py.isdigit c) eqn:Ec; [|discriminate].
    destruct (Helpers.take_digits n r) as [[d' rest']|] eqn:E;
      [|discriminate].
    intros H. injection H as <- <-.
    destruct (IH _ _ _ E) as (-> & Hl & Hd).
    cbn [String.append String.length PyText.all_chars].
    rewrite Ec, Hd, Hl. split; [reflexivity|]. split; reflexivity.
Qed.

Lemma take_digits_exact (p : string) :
  forall n rest,
    String.length p = n ->
    PyText.all_chars Py.isdigit p = true ->
    Helpers.take_digits n (p ++ rest) = Some (p, rest).
Proof.
  induction p as [|c r IH]; intros n rest Hl Hd; cbn in Hl; subst n.
  - reflexivity.
  - cbn [PyText.all_chars] in Hd. apply andb_true_iff in Hd.
    destruct Hd as [Hc Hr].
    cbn [String.append Helpers.take_digits]. rewrite Hc.
    rewrite (IH _ rest eq_refl Hr). reflexivity.
Qed.

Lemma prefix_app (d rest : string) : String.prefix d (d ++ rest) = true.
Proof.
  induction d as [|c r IH]; cbn [String.append String.prefix];
    [destruct rest; reflexivity|].
  destruct (Ascii.ascii_dec c c); [exact IH | contradiction].
Qed.

Lemma contains_here (needle hay : string) :
  String.prefix needle hay = true -> Py.contains needle hay = true.
Proof.
  intros H. destruct hay; cbn [Py.contains]; rewrite H; reflexivity.
Qed.

Lemma contains_cons (needle : string) (c : ascii) (hay : string) :
  Py.contains needle hay = true ->
  Py.contains needle (String c hay) = true.
Proof.
  intros H. cbn [Py.contains]. rewrite H. apply orb_true_r.
Qed.

Lemma seven_digit_runs_in (s : string) :
  forall k p,
    In p (Helpers.scan ReconciliationEngine.at_digits7 k s) ->
    String.length p = 7%nat
    /\ PyText.all_chars Py.isdigit p = true
    /\ Py.contains p s = true.
Proof.
  induction s as [|c r IH]; intros k p; cbn [Helpers.scan];
    [contradiction|].
  destruct k as [|k].
  - unfold ReconciliationEngine.at_digits7 at 1.
    destruct (Helpers.take_digits 7 (String c r)) as [[d rest]|] eqn:E.
    + cbn [In]. intros [<- | H].
      * destruct (take_digits_parts _ _ _ _ E) as (Hs & Hl & Hd).
        split; [exact Hl|]. split; [exact Hd|].
        apply contains_here. rewrite Hs. apply prefix_app.
      * destruct (IH _ _ H) as (Hl & Hd & Hc).
        split; [exact Hl|]. split; [exact Hd|].
        apply contains_cons. exact Hc.
    + intros H. destruct (IH _ _ H) as (Hl & Hd & Hc).
      split; [exact Hl|]. split; [exact Hd|].
      apply contains_cons. exact Hc.
  - intros H. destruct (IH _ _ H) as (Hl & Hd & Hc).
    split; [exact Hl|]. split; [exact Hd|].
    apply contains_cons. exact Hc.
Qed.

Lemma first_sheet_some (p : string) (sap_data : sap_dict)
    (d : SAPPDOData.t) :
  ReconciliationEngine.first_sheet p sap_data = Some d ->
  exists sheet,
    In (sheet, d) sap_data
    /\ (SAPPDOData.pdo_number d = p \/ Py.contains p sheet = true).
Proof.
  induction sap_data as [|[sheet data] rest IH];
    cbn [ReconciliationEngine.first_sheet]; [discriminate|].
  destruct (SAPPDOData.pdo_number data =? p) eqn:E1.
  - intros H. injection H as <-. apply String.eqb_eq in E1.
    exists sheet. split; [left; reflexivity | left; exact E1].
  - destruct (Py.contains p sheet) eqn:E2.
    + intros H. injection H as <-.
      exists sheet. split; [left; reflexivity | right; exact E2].
    + intros H. destruct (IH H) as (sh & Hin & Hor).
      exists sh. split; [right; exact Hin | exact Hor].
Qed.

Lemma first_sheet_none (p : string) (sap_data : sap_dict) :
  ReconciliationEngine.first_sheet p sap_data = None
  <-> forall sheet d,
        In (sheet, d) sap_data ->
        SAPPDOData.pdo_number d <> p /\ Py.contains p sheet = false.
Proof.
  induction sap_data as [|[sheet data] rest IH];
    cbn [ReconciliationEngine.first_sheet].
  - split; [intros _ sh d []|reflexivity].
  - destruct (SAPPDOData.pdo_number data =? p) eqn:E1.
    + split; [discriminate|]. intros H.
      destruct (H sheet data (or_introl eq_refl)) as [Hn _].
      apply String.eqb_eq in E1. contradiction.
    + destruct (Py.contains p sheet) eqn:E2.
      * split; [discriminate|]. intros H.
        destruct (H sheet data (or_introl eq_refl)) as [_ Hc].
        congruence.
      * rewrite IH. split.
        -- intros H sh d [Heq | Hin].
           ++ injection Heq as <- <-. split; [|exact E2].
              apply String.eqb_neq. exact E1.
           ++ apply H. exact Hin.
        -- intros H sh d Hin. apply H. right. exact Hin.
Qed.

Lemma first_found_some (ps : list string) (sap_data : sap_dict)
    (d : SAPPDOData.t) :
  ReconciliationEngine.first_found ps sap_data = Some d ->
  exists p sheet,
    In p ps /\ In (sheet, d) sap_data
    /\ (SAPPDOData.pdo_number d = p \/ Py.contains p sheet = true).
Proof.
  induction ps as [|p rest IH]; cbn [ReconciliationEngine.first_found];
    [discriminate|].
  destruct (ReconciliationEngine.first_sheet p sap_data) as [d'|] eqn:E.
  - intros H. injection H as <-.
    destruct (first_sheet_some _ _ _ E) as (sh & Hin & Hor).
    exists p, sh. split; [left; reflexivity|]. split; assumption.
  - intros H. destruct (IH H) as (q & sh & Hq & Hin & Hor).
    exists q, sh. split; [right; exact Hq|]. split; assumption.
Qed.

Lemma first_found_none (ps : list string) (sap_data : sap_dict) :
  ReconciliationEngine.first_found ps sap_data = None
  <-> forall p sheet d,
        In p ps -> In (sheet, d) sap_data ->
        SAPPDOData.pdo_number d <> p /\ Py.contains p sheet = false.
Proof.
  induction ps as [|p rest IH]; cbn [ReconciliationEngine.first_found].
  - split; [intros _ q sh d []|reflexivity].
  - destruct (ReconciliationEngine.first_sheet p sap_data) as [d'|] eqn:E.
    + split; [discriminate|]. intros H.
      destruct (first_sheet_some _ _ _ E) as (sh & Hin & Hor).
      destruct (H p sh d' (or_introl eq_refl) Hin) as [Hn Hc].
      destruct Hor as [Hp | Hs]; [contradiction | congruence].
    + rewrite IH. split.
      * intros H q sh d [<- | Hq] Hin.
        -- apply (proj1 (first_sheet_none p sap_data) E sh d Hin).
        -- apply (H q sh d Hq Hin).
      * intros H q sh d Hq Hin. apply (H q sh d (or_intror Hq) Hin).
Qed.

(** [_find_matching_sap] is sound and complete for its two tests.  The
    identifiers it tries are runs of seven digits that occur in the
    reference.  A record it returns is a record of the ledger whose
    number is one of these identifiers, or whose sheet name contains one;
    and it returns none exactly when no identifier passes either test on
    any sheet.  The settings of the engine play no part. *)
Theorem find_matching_sap_sound_complete (self : ReconciliationEngine.t)
    (reference : string) (sap_data : sap_dict) :
  (forall p, In p (seven_digit_runs reference) ->
             String.length p = 7%nat
             /\ PyText.all_chars Py.isdigit p = true
             /\ Py.contains p reference = true)
  /\ (forall d,
         ReconciliationEngine._find_matching_sap self reference sap_data
         = Some d ->
         exists p sheet,
           In p (seven_digit_runs reference)
           /\ In (sheet, d) sap_data
           /\ (SAPPDOData.pdo_number d = p \/ Py.contains p sheet = true))
  /\ (ReconciliationEngine._find_matching_sap self reference sap_data = None
      <-> forall p sheet d,
            In p (seven_digit_runs reference) ->
            In (sheet, d) sap_data ->
            SAPPDOData.pdo_number d <> p /\ Py.contains p sheet = false).
Proof.
  unfold ReconciliationEngine._find_matching_sap, seven_digit_runs.
  split; [intros p; apply seven_digit_runs_in|].
  split; [intros d; apply first_found_some | apply first_found_none].
Qed.

(* ------------------------------------------------------------------ *)
(** ** Matching a filename against the ledger *)

Lemma first_match_some (p : string) (sap_data : sap_dict)
    (m : SapParser.method) (d : SAPPDOData.t) :
  SapParser.first_match p sap_data = Some (m, d) ->
  exists sheet,
    In (sheet, d) sap_data
    /\ match m with
       | SapParser.Exact => SAPPDOData.pdo_number d = p
       | SapParser.Substring => Py.contains p sheet = true
       | SapParser.Fuzzy =>
           last_five_agree p (SAPPDOData.pdo_number d) = true
       end.
Proof.
  induction sap_data as [|[sheet data] rest IH];
    cbn [SapParser.first_match]; [discriminate|].
  destruct (SAPPDOData.pdo_number data =? p) eqn:E1.
  { intros H. injection H as <- <-. apply String.eqb_eq in E1.
    exists sheet. split; [left; reflexivity | exact E1]. }
  destruct (Py.contains p sheet) eqn:E2.
  { intros H. injection H as <- <-.
    exists sheet. split; [left; reflexivity | exact E2]. }
  fold (last_five_agree p (SAPPDOData.pdo_number data)).
  destruct (last_five_agree p (SAPPDOData.pdo_number data)) eqn:E3.
  { intros H. injection H as <- <-.
    exists sheet. split; [left; reflexivity | exact E3]. }
  intros H. destruct (IH H) as (sh & Hin & Hm).
  exists sh. split; [right; exact Hin | exact Hm].
Qed.

Lemma first_match_none (p : string) (sap_data : sap_dict) :
  SapParser.first_match p sap_data = None
  <-> forall sheet d,
        In (sheet, d) sap_data ->
        SAPPDOData.pdo_number d <> p
        /\ Py.contains p sheet = false
        /\ last_five_agree p (SAPPDOData.pdo_number d) = false.
Proof.
  induction sap_data as [|[sheet data] rest IH];
    cbn [SapParser.first_match].
  - split; [intros _ sh d []|reflexivity].
  - fold (last_five_agree p (SAPPDOData.pdo_number data)).
    destruct (SAPPDOData.pdo_number data =? p) eqn:E1.
    { split; [discriminate|]. intros H.
      destruct (H sheet data (or_introl eq_refl)) as [Hn _].
      apply String.eqb_eq in E1. contradiction. }
    destruct (Py.contains p sheet) eqn:E2.
    { split; [discriminate|]. intros H.
      destruct (H sheet data (or_introl eq_refl)) as (_ & Hc & _).
      congruence. }
    destruct (last_five_agree p (SAPPDOData.pdo_number data)) eqn:E3.
    { split; [discriminate|]. intros H.
      destruct (H sheet data (or_introl eq_refl)) as (_ & _ & Hf).
      congruence. }
    rewrite IH. split.
    + intros H sh d [Heq | Hin].
      * injection Heq as <- <-. split; [|split; assumption].
        apply String.eqb_neq. exact E1.
      * apply H. exact Hin.
    + intros H sh d Hin. apply H. right. exact Hin.
Qed.

Lemma first_match_nonfuzzy (p : string) (sap_data : sap_dict)
    (m : SapParser.method) (d : SAPPDOData.t) :
  SapParser.first_match p sap_data = Some (m, d) ->
  m <> SapParser.Fuzzy ->
  ReconciliationEngine.first_sheet p sap_data = Some d.
Proof.
  induction sap_data as [|[sheet data] rest IH];
    cbn [SapParser.first_match ReconciliationEngine.first_sheet];
    [discriminate|].
  destruct (SAPPDOData.pdo_number data =? p).
  { intros H _. injection H as _ <-. reflexivity. }
  destruct (Py.contains p sheet).
  { intros H _. injection H as _ <-. reflexivity. }
  match goal with
  | |- context [if ?b then _ else _] => destruct b
  end.
  { intros H Hm. injection H as <- _. contradiction. }
  exact IH.
Qed.

Lemma dedup_In (l : list string) (x : string) :
  In x (Py.dedup l) <-> In x l.
Proof.
  induction l as [|y r IH]; cbn [Py.dedup In]; [reflexivity|].
  rewrite filter_In, IH. split.
  - intros [H | [H _]]; auto.
  - intros [H | H]; [left; exact H|].
    destruct (String.eqb_spec x y) as [-> | Hn]; [left; reflexivity|].
    right. split; [exact H | reflexivity].
Qed.

Lemma dedup_NoDup (l : list string) : NoDup (Py.dedup l).
Proof.
  induction l as [|y r IH]; cbn [Py.dedup]; constructor.
  - rewrite filter_In. intros [_ H].
    rewrite String.eqb_refl in H. discriminate.
  - apply NoDup_filter. exact IH.
Qed.

Lemma match_candidates_In (ps : list string) (sap_data : sap_dict)
    (p : string) (d : SAPPDOData.t) :
  In (p, d) (SapParser.match_candidates ps sap_data)
  <-> In p ps /\ exists m, SapParser.first_match p sap_data = Some (m, d).
Proof.
  unfold SapParser.match_candidates. rewrite in_flat_map. split.
  - intros (q & Hq & Hin).
    destruct (SapParser.first_match q sap_data) as [[m d']|] eqn:E;
      [|contradiction].
    destruct Hin as [Heq | []]. injection Heq as -> ->.
    split; [exact Hq|]. exists m. exact E.
  - intros (Hp & m & E). exists p. split; [exact Hp|].
    rewrite E. left. reflexivity.
Qed.

Lemma match_candidates_NoDup (ps : list string) (sap_data : sap_dict) :
  NoDup ps -> NoDup (map fst (SapParser.match_candidates ps sap_data)).
Proof.
  induction 1 as [|p r Hp Hr IH]; [constructor|].
  unfold SapParser.match_candidates. cbn [flat_map].
  fold (SapParser.match_candidates r sap_data).
  destruct (SapParser.first_match p sap_data) as [[m d]|];
    cbn [app map fst]; [|exact IH].
  constructor; [|exact IH].
  intros Hin. apply in_map_iff in Hin.
  destruct Hin as ([q d'] & Hq & Hin). cbn [fst] in Hq. subst q.
  apply match_candidates_In in Hin. destruct Hin as [Hin _].
  contradiction.
Qed.

Lemma match_pdo_to_filename_In (filename : string) (sap_data : sap_dict)
    (p : string) (d : SAPPDOData.t) :
  In (p, d) (SapParser.match_pdo_to_filename filename sap_data)
  <-> In p (Helpers.extract_pdo_numbers filename)
      /\ exists m, SapParser.first_match p sap_data = Some (m, d).
Proof.
  unfold SapParser.match_pdo_to_filename.
  destruct (Helpers.extract_pdo_numbers filename) as [|q r] eqn:Ec.
  - cbn. split; [contradiction | intros [[] _]].
  - cbn [Py.truthy_list negb].
    destruct sap_data as [|s0 rest].
    + cbn. split; [contradiction|]. intros (_ & m & H). discriminate.
    + cbn [Py.truthy_list negb]. apply match_candidates_In.
Qed.

(** [match_pdo_to_filename] is sound and complete for its three tests.
    Every pair it returns joins an identifier read off the filename with
    a record of the ledger whose number is the identifier, whose sheet
    name contains it, or whose number agrees with it in the last five
    characters.  An identifier of the filename is left without a pair
    exactly when all three tests fail on every sheet.  No identifier is
    paired twice. *)
Theorem match_pdo_to_filename_sound_complete (filename : string)
    (sap_data : sap_dict) :
  let matches := SapParser.match_pdo_to_filename filename sap_data in
  (forall p d,
      In (p, d) matches ->
      In p (Helpers.extract_pdo_numbers filename)
      /\ exists sheet,
           In (sheet, d) sap_data
           /\ (SAPPDOData.pdo_number d = p
               \/ Py.contains p sheet = true
               \/ last_five_agree p (SAPPDOData.pdo_number d) = true))
  /\ (forall p,
         In p (Helpers.extract_pdo_numbers filename) ->
         ((forall d, ~ In (p, d) matches)
          <-> forall sheet d,
                In (sheet, d) sap_data ->
                SAPPDOData.pdo_number d <> p
                /\ Py.contains p sheet = false
                /\ last_five_agree p (SAPPDOData.pdo_number d) = false))
  /\ NoDup (map fst matches).
Proof.
  cbv zeta. split; [|split].
  - intros p d H. apply match_pdo_to_filename_In in H.
    destruct H as (Hp & m & E). split; [exact Hp|].
    destruct (first_match_some _ _ _ _ E) as (sh & Hin & Hm).
    exists sh. split; [exact Hin|].
    destruct m; auto.
  - intros p Hp. rewrite <- first_match_none. split.
    + intros H.
      destruct (SapParser.first_match p sap_data) as [[m d]|] eqn:E;
        [|reflexivity].
      exfalso. apply (H d). apply match_pdo_to_filename_In.
      split; [exact Hp|]. exists m. exact E.
    + intros E d H. apply match_pdo_to_filename_In in H.
      destruct H as (_ & m & E'). congruence.
  - unfold SapParser.match_pdo_to_filename.
    destruct (negb (Py.truthy_list (Helpers.extract_pdo_numbers filename)));
      [constructor|].
    destruct (negb (Py.truthy_list sap_data)); [constructor|].
    apply match_candidates_NoDup.
    unfold Helpers.extract_pdo_numbers. apply dedup_NoDup.
Qed.

(* ------------------------------------------------------------------ *)
(** ** From the filename match to the reconciliation *)

Lemma pdo_reference_head (p : string) (ps : list string) :
  exists tail,
    Pipeline.pdo_reference (p :: ps)
    = String "P" (String "D" (String "O" (p ++ tail))).
Proof.
  unfold Pipeline.pdo_reference. cbn [map String.concat].
  destruct (map (fun n => ("PDO" ++ n)%string) ps) as [|x xs].
  - exists EmptyString. cbn [String.append].
    replace (p ++ "")%string with p; [reflexivity|].
    induction p as [|c r IH]; cbn [String.append]; [reflexivity|].
    rewrite <- IH. reflexivity.
  - exists (", " ++ String.concat ", " (x :: xs))%string.
    cbn [String.append]. reflexivity.
Qed.

Lemma seven_digit_runs_head (p tail : string) :
  String.length p = 7%nat ->
  PyText.all_chars Py.isdigit p = true ->
  exists l,
    seven_digit_runs (String "P" (String "D" (String "O" (p ++ tail))))
    = p :: l.
Proof.
  intros Hl Hd. unfold seven_digit_runs.
  do 3 (cbn [Helpers.scan];
        unfold ReconciliationEngine.at_digits7 at 1;
        cbn [Helpers.take_digits];
        match goal with
        | |- context [Py.isdigit ?c] =>
            change (Py.isdigit c) with false
        end; cbn iota).
  pose proof (take_digits_exact p 7 tail Hl Hd) as Ht.
  destruct p as [|c r]; [discriminate Hl|].
  cbn [String.append] in *. cbn [Helpers.scan].
  unfold ReconciliationEngine.at_digits7 at 1. rewrite Ht.
  eexists. reflexivity.
Qed.

Lemma pdo_reference_found (self : ReconciliationEngine.t)
    (sap_data : sap_dict) (p : string) (d : SAPPDOData.t)
    (m : SapParser.method) (ps : list string) :
  String.length p = 7%nat ->
  PyText.all_chars Py.isdigit p = true ->
  SapParser.first_match p sap_data = Some (m, d) ->
  m <> SapParser.Fuzzy ->
  ReconciliationEngine._find_matching_sap self
    (Pipeline.pdo_reference (p :: ps)) sap_data
  = Some d.
Proof.
  intros Hl Hd E Hm.
  destruct (pdo_reference_head p ps) as (tail & ->).
  unfold ReconciliationEngine._find_matching_sap.
  destruct (seven_digit_runs_head p tail Hl Hd) as (l & Hr).
  unfold seven_digit_runs in Hr. rewrite Hr.
  cbn [ReconciliationEngine.first_found].
  rewrite (first_match_nonfuzzy _ _ _ _ E Hm). reflexivity.
Qed.

(** The reference that [_create_inbound_shipment] builds leads the
    reconciliation back to the ledger: where the first pair of the
    filename match has an identifier of seven digits and was accepted by
    the exact test or by the sheet-name test, [_find_matching_sap] on the
    reference of the created record returns the record of that pair. *)
Theorem created_reference_locates_first_match
    (self : ReconciliationEngine.t) (filename : string)
    (aggregated : DocumentAggregator.t) (sap_data : sap_dict)
    (p : string) (d : SAPPDOData.t) (m : SapParser.method)
    (others : list (string * SAPPDOData.t)) :
  String.length p = 7%nat ->
  PyText.all_chars Py.isdigit p = true ->
  SapParser.first_match p sap_data = Some (m, d) ->
  m <> SapParser.Fuzzy ->
  ReconciliationEngine._find_matching_sap self
    (InboundShipment.reference
       (Pipeline._create_inbound_shipment filename aggregated
          ((p, d) :: others)))
    sap_data
  = Some d.
Proof.
  intros Hl Hd E Hm.
  unfold Pipeline._create_inbound_shipment.
  cbn [InboundShipment.reference Py.truthy_list map fst].
  apply (pdo_reference_found self sap_data p d m _ Hl Hd E Hm).
Qed.

Lemma created_reference_locates_first_match_witness :
  ReconciliationEngine._find_matching_sap ReconciliationEngine.default
    (InboundShipment.reference
       (Pipeline._create_inbound_shipment "PDO 2500444 & 2500430.pdf"
          DocumentAggregator.initial
          [("2500444", ledger_600_400); ("2500430", ledger_2500430)]))
    sap_1000
  = Some ledger_600_400.
Proof.
  apply (created_reference_locates_first_match ReconciliationEngine.default
           "PDO 2500444 & 2500430.pdf" DocumentAggregator.initial
           sap_1000 "2500444" ledger_600_400 SapParser.Exact
           [("2500430", ledger_2500430)]);
    [reflexivity | reflexivity | reflexivity | discriminate].
Defined.

Lemma zero_add_positive (t : Float.float) :
  Float.ltb (Float.of_Z 0) (Float.add (Float.of_Z 0) t) = true ->
  Float.add (Float.of_Z 0) t = t.
Proof.
  rewrite of_Z_zero.
  destruct t as [s|s| |s m e]; intros H; try reflexivity;
    destruct s; try reflexivity; vm_compute in H; discriminate.
Qed.

Lemma check_value_none (self : ReconciliationEngine.t) (aa : bool)
    (l : SAPPDOData.t) (s : InboundShipment.t) :
  InboundShipment.total_value s = None ->
  ReconciliationEngine.check_value self aa l s = ([], s).
Proof.
  intros H. unfold ReconciliationEngine.check_value. rewrite H.
  reflexivity.
Qed.

(** A record created from a single pair of the filename match reconciles
    without an issue: where the identifier has seven digits and was
    accepted by the exact test or by the sheet-name test, and the
    tolerance is not negative, [reconcile_inbound] on the record that
    [_create_inbound_shipment] built from the pair finds the record of
    the pair again and reports nothing. *)
Theorem fresh_single_match_reconciles_clean
    (self : ReconciliationEngine.t) (filename : string)
    (aggregated : DocumentAggregator.t) (sap_data : sap_dict)
    (auto_apply : option bool) (p : string) (d : SAPPDOData.t)
    (m : SapParser.method) :
  String.length p = 7%nat ->
  PyText.all_chars Py.isdigit p = true ->
  SapParser.first_match p sap_data = Some (m, d) ->
  m <> SapParser.Fuzzy ->
  Float.ltb (ReconciliationEngine.tolerance self) (Float.of_Z 0) = false ->
  let s := Pipeline._create_inbound_shipment filename aggregated [(p, d)] in
  let r := ReconciliationEngine.reconcile_inbound self s sap_data auto_apply in
  ReconciliationResult.issues (fst r) = []
  /\ ReconciliationResult.matched_pdo (fst r)
     = Some (SAPPDOData.pdo_number d).
Proof.
  intros Hl Hd E Hm Htol s.
  assert (ReconciliationEngine._find_matching_sap self
            (InboundShipment.reference s) sap_data = Some d) as Ef.
  { apply (pdo_reference_found self sap_data p d m [] Hl Hd E Hm). }
  assert (InboundShipment.currency s = Some (SAPPDOData.currency d))
    as Hc by reflexivity.
  assert (InboundShipment.total_value s
          = if Float.ltb (Float.of_Z 0)
                 (Float.add (Float.of_Z 0) (SAPPDOData.total_value d))
            then Some (Float.add (Float.of_Z 0) (SAPPDOData.total_value d))
            else None) as Ht by reflexivity.
  cbv zeta. split.
  - destruct (reconcile_matched self s sap_data auto_apply d Ef) as [Hi _].
    cbv zeta in Hi. rewrite Hi.
    rewrite (check_currency_same _ _ _ Hc). cbn [fst snd app].
    destruct (Float.ltb (Float.of_Z 0)
                (Float.add (Float.of_Z 0) (SAPPDOData.total_value d)))
      eqn:Ep.
    + rewrite (zero_add_positive _ Ep) in Ht.
      rewrite (check_value_same _ _ _ _ Ht Htol). reflexivity.
    + rewrite (check_value_none _ _ _ _ Ht). reflexivity.
  - unfold ReconciliationEngine.reconcile_inbound. rewrite Ef.
    destruct (ReconciliationEngine.check_currency _ d s) as [f1 s1].
    destruct (ReconciliationEngine.check_value self _ d s1) as [f2 s2].
    reflexivity.
Qed.

Lemma fresh_single_match_reconciles_clean_witness :
  let s :=
    Pipeline._create_inbound_shipment "PDO 2500444_dtd251006_NST.pdf"
      DocumentAggregator.initial [("2500444", ledger_600_400)] in
  let r :=
    ReconciliationEngine.reconcile_inbound ReconciliationEngine.default
      s sap_1000 None in
  ReconciliationResult.issues (fst r) = []
  /\ ReconciliationResult.matched_pdo (fst r) = Some "2500444".
Proof.
  apply (fresh_single_match_reconciles_clean ReconciliationEngine.default
           "PDO 2500444_dtd251006_NST.pdf" DocumentAggregator.initial
           sap_1000 None "2500444" ledger_600_400 SapParser.Exact);
    [reflexivity | reflexivity | reflexivity | discriminate | reflexivity].
Defined.

(* ------------------------------------------------------------------ *)
(** ** The identifiers read off a filename *)

Lemma scan_all {A : Type} (m : string -> option (A * nat)) (P : A -> Prop) :
  (forall s a n, m s = Some (a, n) -> P a) ->
  forall s k a, In a (Helpers.scan m k s) -> P a.
Proof.
  intros Hm. induction s as [|c r IH]; intros k a; cbn [Helpers.scan];
    [contradiction|].
  destruct k as [|k]; [|apply IH].
  destruct (m (String c r)) as [[a' n]|] eqn:E; [|apply IH].
  cbn [In]. intros [<- | H]; [exact (Hm _ _ _ E) | exact (IH _ _ H)].
Qed.

Lemma all_chars_substring (p : ascii -> bool) (s : string) :
  PyText.all_chars p s = true ->
  forall n m, PyText.all_chars p (String.substring n m s) = true.
Proof.
  induction s as [|c r IH]; intros H n m.
  - destruct n, m; reflexivity.
  - cbn [PyText.all_chars] in H. apply andb_true_iff in H.
    destruct H as [Hc Hr].
    destruct n as [|n]; cbn [String.substring].
    + destruct m as [|m]; [reflexivity|].
      cbn [PyText.all_chars]. rewrite Hc. apply (IH Hr).
    + apply (IH Hr).
Qed.

Lemma at_pdo_digits (s ds : string) (n : nat) :
  Helpers.at_pdo s = Some (ds, n) ->
  ds <> EmptyString /\ PyText.all_chars Py.isdigit ds = true.
Proof.
  unfold Helpers.at_pdo.
  destruct s as [|a [|b [|c r]]]; try discriminate.
  match goal with
  | |- context [if ?b then _ else _] => destruct b
  end; [|discriminate].
  destruct (Helpers.span Py.isspace r) as [ws r1].
  destruct (Helpers.span Py.isdigit r1) as [digits rest] eqn:Ed.
  destruct (Py.truthy_str digits) eqn:Et; [|discriminate].
  intros H. injection H as <- _.
  destruct (span_parts _ _ _ _ Ed) as [Hd _].
  split; [intros ->; discriminate Et | exact Hd].
Qed.

Lemma partials_digits (fuel : nat) :
  forall s x, In x (Helpers.partials fuel s) ->
              String.length x = 3%nat
              /\ PyText.all_chars Py.isdigit x = true.
Proof.
  induction fuel as [|f IH]; intros s x; cbn [Helpers.partials];
    [contradiction|].
  destruct s as [|c r]; [contradiction|].
  destruct (Ascii.eqb c ","); [|contradiction].
  destruct (Helpers.take_digits 3 r) as [[d rest]|] eqn:E; [|contradiction].
  cbn [In]. intros [<- | H]; [|exact (IH _ _ H)].
  destruct (take_digits_parts _ _ _ _ E) as (_ & Hl & Hd). auto.
Qed.

Lemma at_partial_digits (s g1 : string) (parts : list string) :
  Helpers.at_partial s = Some (g1, parts) ->
  (String.length g1 = 7%nat /\ PyText.all_chars Py.isdigit g1 = true)
  /\ forall x, In x parts ->
               String.length x = 3%nat
               /\ PyText.all_chars Py.isdigit x = true.
Proof.
  unfold Helpers.at_partial.
  destruct (Helpers.take_digits 7 s) as [[g r]|] eqn:E; [|discriminate].
  destruct r as [|c r]; [discriminate|].
  destruct (Ascii.eqb c ","); [|discriminate].
  destruct (Helpers.take_digits 3 r) as [[d rest]|] eqn:E3; [|discriminate].
  intros H. injection H as <- <-.
  destruct (take_digits_parts _ _ _ _ E) as (_ & Hl & Hd).
  split; [auto|].
  intros x [<- | Hx]; [|exact (partials_digits _ _ _ Hx)].
  destruct (take_digits_parts _ _ _ _ E3) as (_ & Hl3 & Hd3). auto.
Qed.

Lemma search_partial_digits (s g1 : string) (parts : list string) :
  Helpers.search_partial s = Some (g1, parts) ->
  (String.length g1 = 7%nat /\ PyText.all_chars Py.isdigit g1 = true)
  /\ forall x, In x parts ->
               String.length x = 3%nat
               /\ PyText.all_chars Py.isdigit x = true.
Proof.
  induction s as [|c r IH]; cbn [Helpers.search_partial].
  - destruct (Helpers.at_partial "") as [[g ps]|] eqn:E; [|discriminate].
    intros H. injection H as <- <-. exact (at_partial_digits _ _ _ E).
  - destruct (Helpers.at_partial (String c r)) as [[g ps]|] eqn:E;
      [|exact IH].
    intros H. injection H as <- <-. exact (at_partial_digits _ _ _ E).
Qed.

Lemma at_pair_digits (s a b : string) (n : nat) :
  Helpers.at_pair s = Some ((a, b), n) ->
  (String.length a = 7%nat /\ PyText.all_chars Py.isdigit a = true)
  /\ (String.length b = 7%nat /\ PyText.all_chars Py.isdigit b = true).
Proof.
  unfold Helpers.at_pair.
  destruct (Helpers.take_digits 7 s) as [[a' r]|] eqn:E; [|discriminate].
  destruct (Helpers.span Py.isspace r) as [ws1 r1].
  destruct r1 as [|c r2]; [discriminate|].
  destruct (Ascii.eqb c "&" || Ascii.eqb c ","); [|discriminate].
  destruct (Helpers.span Py.isspace r2) as [ws2 r3].
  destruct (Helpers.take_digits 7 r3) as [[b' rest]|] eqn:E2;
    [|discriminate].
  intros H. injection H as <- <- _.
  destruct (take_digits_parts _ _ _ _ E) as (_ & Hl & Hd).
  destruct (take_digits_parts _ _ _ _ E2) as (_ & Hl2 & Hd2). auto.
Qed.

Lemma append_new_all (P : string -> Prop) (l : list string) (x : string) :
  (forall y, In y l -> P y) -> P x ->
  forall y, In y (Helpers.append_new l x) -> P y.
Proof.
  intros Hl Hx y. unfold Helpers.append_new.
  destruct (Py.mem x l); [apply Hl|].
  rewrite in_app_iff. cbn [In]. intros [H | [<- | []]]; auto.
Qed.

Lemma digits_nonempty (n : nat) (s : string) :
  String.length s = S n -> s <> EmptyString.
Proof. intros H ->. discriminate. Qed.

Lemma fold_append_new_all {B : Type} (P : string -> Prop)
    (f : B -> string) (ys : list B) :
  forall init,
    (forall y, In y init -> P y) ->
    (forall b, In b ys -> P (f b)) ->
    forall y,
      In y (fold_left (fun acc b => Helpers.append_new acc (f b)) ys init) ->
      P y.
Proof.
  induction ys as [|b bs IH]; intros init Hinit Hys; cbn [fold_left];
    [exact Hinit|].
  apply IH.
  - apply append_new_all; [exact Hinit|]. apply Hys. left. reflexivity.
  - intros b' Hb'. apply Hys. right. exact Hb'.
Qed.

Lemma fold_pairs_all (P : string -> Prop) (ms : list (string * string)) :
  forall init,
    (forall y, In y init -> P y) ->
    (forall m, In m ms -> P (fst m) /\ P (snd m)) ->
    forall y,
      In y (fold_left
              (fun acc (m : string * string) =>
                 Helpers.append_new (Helpers.append_new acc (fst m)) (snd m))
              ms init) ->
      P y.
Proof.
  induction ms as [|m r IH]; intros init Hinit Hms; cbn [fold_left];
    [exact Hinit|].
  apply IH.
  - destruct (Hms m (or_introl eq_refl)) as [Ha Hb].
    apply append_new_all; [|exact Hb].
    apply append_new_all; [exact Hinit | exact Ha].
  - intros m' Hm'. apply Hms. right. exact Hm'.
Qed.

(** Whatever the text, [extract_pdo_numbers] returns identifiers that are
    non-empty strings of digits, none of them twice. *)
Theorem extract_pdo_numbers_wellformed (text : string) :
  NoDup (Helpers.extract_pdo_numbers text)
  /\ forall p, In p (Helpers.extract_pdo_numbers text) ->
               p <> EmptyString /\ PyText.all_chars Py.isdigit p = true.
Proof.
  unfold Helpers.extract_pdo_numbers. split; [apply dedup_NoDup|].
  intros p Hp. apply (proj1 (dedup_In _ _)) in Hp. cbv zeta in Hp.
  revert p Hp.
  set (P := fun p : string =>
              p <> EmptyString /\ PyText.all_chars Py.isdigit p = true).
  assert (forall p, In p (Helpers.scan Helpers.at_pdo 0 text) -> P p) as H1.
  { apply (scan_all Helpers.at_pdo P). intros s a n. apply at_pdo_digits. }
  apply (fold_pairs_all P).
  - destruct (Helpers.search_partial text) as [[g1 parts]|] eqn:E;
      [|exact H1].
    destruct (search_partial_digits _ _ _ E) as [[Hl Hd] Hparts].
    apply (fold_append_new_all P
             (fun partial => (String.substring 0 4 g1 ++ partial)%string)).
    + intros q Hq. apply in_app_iff in Hq.
      destruct Hq as [Hq | [<- | []]]; [exact (H1 _ Hq)|].
      split; [exact (digits_nonempty _ _ Hl) | exact Hd].
    + intros x Hx. destruct (Hparts x Hx) as [Hxl Hxd]. split.
      * intros Hn.
        destruct (String.substring 0 4 g1); cbn [String.append] in Hn;
          [subst x; discriminate Hxl | discriminate Hn].
      * rewrite all_chars_app, Hxd.
        rewrite (all_chars_substring _ _ Hd). reflexivity.
  - apply (scan_all Helpers.at_pair (fun m => P (fst m) /\ P (snd m))).
    intros s [a b] n E.
    destruct (at_pair_digits _ _ _ _ E) as [[Hal Had] [Hbl Hbd]].
    split; (split; [eapply digits_nonempty; eassumption | assumption]).
Qed.

(* ------------------------------------------------------------------ *)
(** ** More of the aggregation *)

Lemma priority_assign_holds {A : Type} (truthy : A -> bool)
    (is_priority : bool) (current incoming : option A) :
  holds_true truthy current ->
  holds_true truthy
    (DocumentAggregator.priority_assign truthy is_priority current incoming).
Proof.
  intros H. unfold DocumentAggregator.priority_assign.
  destruct incoming as [v|]; [|exact H].
  destruct (truthy v) eqn:E; [|exact H].
  destruct (is_priority || Py.is_none current); [|exact H].
  intros w Hw. injection Hw as <-. exact E.
Qed.

Lemma first_assign_holds (current incoming : option string) :
  holds_true Py.truthy_str current ->
  holds_true Py.truthy_str
    (DocumentAggregator.first_assign current incoming).
Proof.
  intros H. unfold DocumentAggregator.first_assign.
  destruct (Py.truthy_ostr incoming && Py.is_none current) eqn:E;
    [|exact H].
  apply andb_true_iff in E. destruct E as [E _].
  intros w Hw. subst incoming. exact E.
Qed.

Lemma step_no_hollow_value (a : DocumentAggregator.t)
    (r : ExtractionResult.t) :
  no_hollow_value a -> no_hollow_value (DocumentAggregator.step a r).
Proof.
  intros (H1 & H2 & H3 & H4 & H5 & H6 & H7).
  unfold no_hollow_value, DocumentAggregator.step.
  cbn [DocumentAggregator.tracking_or_awb DocumentAggregator.mode
       DocumentAggregator.carrier DocumentAggregator.origin_country
       DocumentAggregator.incoterms DocumentAggregator.vessel_info
       DocumentAggregator.container_number].
  repeat split;
    first [apply priority_assign_holds | apply first_assign_holds];
    assumption.
Qed.

Lemma fold_no_hollow_value (results : list ExtractionResult.t) :
  forall a, no_hollow_value a ->
            no_hollow_value (fold_left DocumentAggregator.step results a).
Proof.
  induction results as [|r rest IH]; intros a H; cbn [fold_left];
    [exact H|].
  apply IH. apply step_no_hollow_value. exact H.
Qed.

(** The aggregate never stores a hollow value: whatever the pages, a
    tracking number, carrier, origin country, incoterms, vessel or
    container number that [aggregate_inbound] returns is not the empty
    string, and a mode it returns is not UNKNOWN; such page values leave
    the field at None. *)
Theorem aggregate_no_hollow_value (results : list ExtractionResult.t)
    (filename : string) :
  no_hollow_value (DocumentAggregator.aggregate_inbound results filename).
Proof.
  unfold DocumentAggregator.aggregate_inbound.
  assert (no_hollow_value
            (fold_left DocumentAggregator.step results
               DocumentAggregator.initial)) as H.
  { apply fold_no_hollow_value.
    unfold no_hollow_value, holds_true. cbn.
    repeat split; intros v Hv; discriminate Hv. }
  exact H.
Qed.

Lemma tracking_first_value (results : list ExtractionResult.t) :
  forall a,
    (forall q, In q results -> priority_tracking q = false) ->
    DocumentAggregator.tracking_or_awb
      (fold_left DocumentAggregator.step results a)
    = match DocumentAggregator.tracking_or_awb a with
      | Some v => Some v
      | None =>
          first_truthy (map ExtractionResult.tracking_or_awb results)
      end.
Proof.
  induction results as [|r rest IH]; intros a Hall;
    cbn [fold_left map first_truthy].
  - destruct (DocumentAggregator.tracking_or_awb a); reflexivity.
  - rewrite IH by (intros q Hq; apply Hall; right; exact Hq).
    pose proof (Hall r (or_introl eq_refl)) as Hr.
    destruct (DocumentAggregator.tracking_or_awb a) as [v|] eqn:Ea.
    + rewrite (other_page_keeps a r v Hr Ea). reflexivity.
    + rewrite step_tracking, Ea.
      unfold priority_tracking in Hr.
      unfold DocumentAggregator.priority_assign.
      destruct (ExtractionResult.tracking_or_awb r) as [w|];
        cbn [Py.truthy_ostr] in *; [|reflexivity].
      destruct (Py.truthy_str w); [|reflexivity].
      rewrite orb_true_r. reflexivity.
Qed.

(** Where no page of a priority class carries a tracking number, the
    first number that any page carries is the one [aggregate_inbound]
    returns, and later pages do not replace it. *)
Theorem first_tracking_wins_without_priority_pages
    (results : list ExtractionResult.t) (filename : string) :
  (forall q, In q results -> priority_tracking q = false) ->
  DocumentAggregator.tracking_or_awb
    (DocumentAggregator.aggregate_inbound results filename)
  = first_truthy (map ExtractionResult.tracking_or_awb results).
Proof.
  intros Hall. unfold DocumentAggregator.aggregate_inbound.
  change (DocumentAggregator.tracking_or_awb (DocumentAggregator.finish ?a))
    with (DocumentAggregator.tracking_or_awb a).
  rewrite (tracking_first_value results DocumentAggregator.initial Hall).
  reflexivity.
Qed.

Lemma first_tracking_wins_without_priority_pages_witness :
  DocumentAggregator.tracking_or_awb
    (DocumentAggregator.aggregate_inbound three_invoices "PDO 2500444.pdf")
  = Some "INV-1".
Proof.
  apply (first_tracking_wins_without_priority_pages
           three_invoices "PDO 2500444.pdf").
  intros q Hq. cbn in Hq.
  destruct Hq as [<- | [<- | [<- | []]]]; reflexivity.
Defined.

Lemma flight_numbers_fold (results : list ExtractionResult.t) :
  forall a,
    DocumentAggregator.flight_numbers
      (fold_left DocumentAggregator.step results a)
    = DocumentAggregator.flight_numbers a
      ++ flat_map ExtractionResult.flight_numbers results.
Proof.
  induction results as [|r rest IH]; intros a; cbn [fold_left flat_map].
  - symmetry. apply app_nil_r.
  - rewrite IH. cbn [DocumentAggregator.step
                     DocumentAggregator.flight_numbers].
    rewrite <- app_assoc. reflexivity.
Qed.

Lemma aggregate_flight_numbers (results : list ExtractionResult.t)
    (filename : string) :
  DocumentAggregator.flight_numbers
    (DocumentAggregator.aggregate_inbound results filename)
  = Py.dedup (flat_map ExtractionResult.flight_numbers results).
Proof.
  unfold DocumentAggregator.aggregate_inbound.
  cbn [DocumentAggregator.finish DocumentAggregator.flight_numbers].
  rewrite flight_numbers_fold. reflexivity.
Qed.

(** The flight numbers of all pages are collected without repetition,
    and they alone make the flight field of the created record: that
    field is None exactly when no page carries a flight number, whatever
    vessel or container the pages name. *)
Theorem flight_numbers_collected (results : list ExtractionResult.t)
    (filename : string) (sap_data : sap_dict) :
  let flights :=
    DocumentAggregator.flight_numbers
      (DocumentAggregator.aggregate_inbound results filename) in
  NoDup flights
  /\ (forall x,
         In x flights
         <-> exists r, In r results /\ In x (ExtractionResult.flight_numbers r))
  /\ (InboundShipment.flight_vessel
        (Pipeline.shipment_of_pages filename results sap_data) = None
      <-> forall r, In r results -> ExtractionResult.flight_numbers r = []).
Proof.
  cbv zeta. rewrite aggregate_flight_numbers.
  split; [apply dedup_NoDup|]. split.
  - intros x. rewrite dedup_In, in_flat_map. reflexivity.
  - unfold Pipeline.shipment_of_pages, Pipeline._create_inbound_shipment.
    cbn [InboundShipment.flight_vessel].
    rewrite aggregate_flight_numbers.
    destruct (Py.dedup (flat_map ExtractionResult.flight_numbers results))
      as [|x l] eqn:E; cbn [Py.truthy_list].
    + split; [|reflexivity]. intros _ r Hr.
      destruct (ExtractionResult.flight_numbers r) as [|y ys] eqn:Ey;
        [reflexivity|].
      assert (In y (Py.dedup
                      (flat_map ExtractionResult.flight_numbers results)))
        as Hin.
      { apply dedup_In. apply in_flat_map. exists r.
        split; [exact Hr|]. rewrite Ey. left. reflexivity. }
      rewrite E in Hin. contradiction.
    + split; [discriminate|]. intros H. exfalso.
      assert (In x (Py.dedup
                      (flat_map ExtractionResult.flight_numbers results)))
        as Hin by (rewrite E; left; reflexivity).
      apply (proj1 (dedup_In _ _)) in Hin. apply in_flat_map in Hin.
      destruct Hin as (r & Hr & Hx). rewrite (H r Hr) in Hx.
      contradiction.
Qed.

(* ------------------------------------------------------------------ *)
(** ** The shape of a classification *)

Lemma category_eqb_eq (a b : ProductCategory.t) :
  ProductCategory.eqb a b = true <-> a = b.
Proof.
  destruct a, b; vm_compute; split; intros H;
    first [reflexivity | discriminate H].
Qed.

Lemma category_mem_In (c : ProductCategory.t) (set : list ProductCategory.t) :
  ProductCategory.mem c set = true <-> In c set.
Proof.
  unfold ProductCategory.mem. rewrite existsb_exists. split.
  - intros (x & Hx & E). apply category_eqb_eq in E. subst x. exact Hx.
  - intros H. exists c. split; [exact H|]. apply category_eqb_eq.
    reflexivity.
Qed.

Lemma category_add_NoDup (set : list ProductCategory.t)
    (c : ProductCategory.t) :
  NoDup set -> NoDup (ProductCategory.add set c).
Proof.
  intros H. unfold ProductCategory.add.
  destruct (ProductCategory.mem c set) eqn:E; [exact H|].
  apply NoDup_app; [exact H | constructor; [intros [] | constructor] |].
  intros a Ha [<- | []].
  apply category_mem_In in Ha. congruence.
Qed.

Lemma category_add_In (set : list ProductCategory.t)
    (c x : ProductCategory.t) :
  In x (ProductCategory.add set c) <-> In x set \/ x = c.
Proof.
  unfold ProductCategory.add.
  destruct (ProductCategory.mem c set) eqn:E.
  - apply category_mem_In in E. split; [auto|].
    intros [H | ->]; assumption.
  - rewrite in_app_iff. cbn [In]. split.
    + intros [H | [<- | []]]; auto.
    + intros [H | ->]; auto.
Qed.

Lemma fold_add_NoDup (cs : list ProductCategory.t) :
  forall set, NoDup set -> NoDup (fold_left ProductCategory.add cs set).
Proof.
  induction cs as [|c r IH]; intros set H; cbn [fold_left]; [exact H|].
  apply IH. apply category_add_NoDup. exact H.
Qed.

Lemma record_NoDup (a : ProductClassifier.acc)
    (cs : list ProductCategory.t) (pattern reason : string) :
  NoDup (ProductClassifier.matched_categories a) ->
  NoDup (ProductClassifier.matched_categories
           (ProductClassifier.record a cs pattern reason)).
Proof. apply fold_add_NoDup. Qed.

Lemma fold_left_preserves {A B : Type} (P : A -> Prop) (f : A -> B -> A)
    (l : list B) :
  (forall a b, P a -> P (f a b)) ->
  forall a, P a -> P (fold_left f l a).
Proof.
  intros Hf. induction l as [|b r IH]; intros a Ha; cbn [fold_left];
    [exact Ha|].
  apply IH. apply Hf. exact Ha.
Qed.

Lemma tiers_NoDup (self : ProductClassifier.t) (desc_lower : string)
    (a : ProductClassifier.acc) :
  NoDup (ProductClassifier.matched_categories a) ->
  NoDup (ProductClassifier.matched_categories
           (ProductClassifier.special_cases desc_lower
              (fold_left (ProductClassifier.keyword_step desc_lower)
                 (ProductClassifier.keyword_patterns self)
                 (fold_left (ProductClassifier.brand_step desc_lower)
                    (ProductClassifier.brand_categories self)
                    (fold_left (ProductClassifier.compound_step desc_lower)
                       (ProductClassifier.compound_rules self) a))))).
Proof.
  intros H.
  set (P := fun a => NoDup (ProductClassifier.matched_categories a)).
  assert (forall a, P a -> P (ProductClassifier.special_cases desc_lower a))
    as Hs.
  { intros x Hx. unfold P, ProductClassifier.special_cases.
    repeat match goal with
           | |- context [if ?b then _ else _] => destruct b
           end; try exact Hx.
    cbn [ProductClassifier.matched_categories].
    apply NoDup_filter. exact Hx. }
  apply Hs.
  apply (fold_left_preserves P).
  { intros x [c ps] Hx. unfold ProductClassifier.keyword_step.
    destruct (ProductClassifier.first_hit desc_lower ps); [|exact Hx].
    apply record_NoDup. exact Hx. }
  apply (fold_left_preserves P).
  { intros x [b c] Hx. unfold ProductClassifier.brand_step.
    destruct (Py.contains b desc_lower); [|exact Hx].
    apply record_NoDup. exact Hx. }
  apply (fold_left_preserves P).
  { intros x [p cs] Hx. unfold ProductClassifier.compound_step.
    destruct (Re.search p desc_lower); [|exact Hx].
    apply record_NoDup. exact Hx. }
  exact H.
Qed.

Lemma verbatim_NoDup (self : ProductClassifier.t) (desc_lower : string) :
  NoDup (ProductClassifier.matched_categories
           (fold_left (ProductClassifier.verbatim_step desc_lower)
              (ProductClassifier.verbatim_labels self)
              ProductClassifier.empty_acc)).
Proof.
  apply (fold_left_preserves
           (fun a => NoDup (ProductClassifier.matched_categories a))).
  - intros x [l cs] Hx. unfold ProductClassifier.verbatim_step.
    destruct (Py.contains l desc_lower); [|exact Hx].
    apply record_NoDup. exact Hx.
  - constructor.
Qed.

Lemma insert_by_value_In (c x : ProductCategory.t)
    (l : list ProductCategory.t) :
  In x (ProductCategory.insert_by_value c l) <-> x = c \/ In x l.
Proof.
  induction l as [|d r IH]; cbn [ProductCategory.insert_by_value In].
  - split; intros [H | H]; auto.
  - destruct (String.leb (ProductCategory.value c) (ProductCategory.value d));
      cbn [In]; [split; intros [H | H]; auto|].
    rewrite IH. split.
    + intros [H | [H | H]]; auto.
    + intros [H | [H | H]]; auto.
Qed.

Lemma sorted_by_value_In (x : ProductCategory.t)
    (l : list ProductCategory.t) :
  In x (ProductCategory.sorted_by_value l) <-> In x l.
Proof.
  unfold ProductCategory.sorted_by_value.
  induction l as [|d r IH]; cbn [fold_right In]; [reflexivity|].
  rewrite insert_by_value_In, IH. split; intros [H | H]; auto.
Qed.

Lemma insert_by_value_NoDup (c : ProductCategory.t)
    (l : list ProductCategory.t) :
  ~ In c l -> NoDup l -> NoDup (ProductCategory.insert_by_value c l).
Proof.
  induction l as [|d r IH]; intros Hc Hl;
    cbn [ProductCategory.insert_by_value].
  - constructor; [intros [] | constructor].
  - destruct (String.leb (ProductCategory.value c) (ProductCategory.value d)).
    + constructor; assumption.
    + inversion Hl as [|? ? Hd Hr]; subst.
      constructor.
      * rewrite insert_by_value_In. intros [-> | H]; [|contradiction].
        apply Hc. left. reflexivity.
      * apply IH; [|exact Hr]. intros H. apply Hc. right. exact H.
Qed.

Lemma sorted_by_value_NoDup (l : list ProductCategory.t) :
  NoDup l -> NoDup (ProductCategory.sorted_by_value l).
Proof.
  unfold ProductCategory.sorted_by_value.
  induction 1 as [|d r Hd Hr IH]; cbn [fold_right]; [constructor|].
  apply insert_by_value_NoDup; [|exact IH].
  intros H. apply (sorted_by_value_In d r) in H. contradiction.
Qed.

Lemma by_value_total (a b : ProductCategory.t) :
  String.leb (ProductCategory.value a) (ProductCategory.value b) = false ->
  by_value b a.
Proof. destruct a, b; vm_compute; intros H; congruence. Qed.

Lemma insert_by_value_Sorted (c : ProductCategory.t)
    (l : list ProductCategory.t) :
  Sorted by_value l -> Sorted by_value (ProductCategory.insert_by_value c l).
Proof.
  induction l as [|d r IH]; intros Hl;
    cbn [ProductCategory.insert_by_value].
  - constructor; constructor.
  - destruct (String.leb (ProductCategory.value c) (ProductCategory.value d))
      eqn:E.
    + constructor; [exact Hl|]. constructor. exact E.
    + apply Sorted_inv in Hl. destruct Hl as [Hr Hd].
      constructor; [apply IH; exact Hr|].
      destruct r as [|e r']; cbn [ProductCategory.insert_by_value].
      * constructor. apply by_value_total. exact E.
      * destruct (String.leb (ProductCategory.value c)
                    (ProductCategory.value e)).
        -- constructor. apply by_value_total. exact E.
        -- constructor. inversion Hd; assumption.
Qed.

Lemma sorted_by_value_Sorted (l : list ProductCategory.t) :
  Sorted by_value (ProductCategory.sorted_by_value l).
Proof.
  unfold ProductCategory.sorted_by_value.
  induction l as [|d r IH]; cbn [fold_right]; [constructor|].
  apply insert_by_value_Sorted. exact IH.
Qed.

Lemma sorted_categories_wellformed (l : list ProductCategory.t) :
  NoDup l -> Py.truthy_list l = true ->
  ProductCategory.sorted_by_value l <> []
  /\ NoDup (ProductCategory.sorted_by_value l)
  /\ Sorted by_value (ProductCategory.sorted_by_value l).
Proof.
  intros Hn Ht. split; [|split].
  - destruct l as [|d r]; [discriminate Ht|].
    intros H.
    assert (In d (ProductCategory.sorted_by_value (d :: r))) as Hin
      by (apply sorted_by_value_In; left; reflexivity).
    rewrite H in Hin. contradiction.
  - apply sorted_by_value_NoDup. exact Hn.
  - apply sorted_by_value_Sorted.
Qed.

Lemma calculate_confidence_capped (patterns : list string) :
  Float.ltb (Float.of_Z 1)
            (ProductClassifier._calculate_confidence patterns) = false.
Proof.
  unfold ProductClassifier._calculate_confidence.
  destruct (negb (Py.truthy_list patterns)); [vm_compute; reflexivity|].
  cbv zeta. unfold ProductClassifier.py_min.
  match goal with
  | |- context [if ?b then _ else _] => destruct b eqn:E
  end; [vm_compute; reflexivity | exact E].
Qed.

(** Whatever the description, and whatever rule tables of supported
    patterns, the result of [classify] names at least one category, names
    none twice, lists them in the order of their values, and has a
    confidence that does not exceed 1. *)
Theorem classify_result_wellformed (self : ProductClassifier.t)
    (description : string) :
  rules_supported self = true ->
  let r := ProductClassifier.classify self description in
  ClassificationResult.categories r <> []
  /\ NoDup (ClassificationResult.categories r)
  /\ Sorted by_value (ClassificationResult.categories r)
  /\ Float.ltb (Float.of_Z 1) (ClassificationResult.confidence r) = false.
Proof.
  assert (forall c, [c] <> [] /\ NoDup [c] /\ Sorted by_value [c]) as Hone.
  { intros c. split; [discriminate|]. split.
    - constructor; [intros [] | constructor].
    - constructor; constructor. }
  intros _. cbv zeta. unfold ProductClassifier.classify.
  destruct (negb (Py.truthy_str description)).
  { cbn [ClassificationResult.categories ClassificationResult.confidence].
    destruct (Hone ProductCategory.UNKNOWN) as (H1 & H2 & H3).
    repeat split; try assumption. }
  pose proof (verbatim_NoDup self (Py.strip (Py.lower description))) as H0.
  destruct (Py.truthy_list
              (ProductClassifier.matched_categories
                 (fold_left
                    (ProductClassifier.verbatim_step
                       (Py.strip (Py.lower description)))
                    (ProductClassifier.verbatim_labels self)
                    ProductClassifier.empty_acc))) eqn:E0.
  { cbn [ClassificationResult.categories ClassificationResult.confidence].
    destruct (sorted_categories_wellformed _ H0 E0) as (H1 & H2 & H3).
    repeat split; try assumption. }
  pose proof (tiers_NoDup self (Py.strip (Py.lower description)) _ H0) as Ht.
  match goal with
  | |- context [if negb (Py.truthy_list ?l) then _ else _] =>
      destruct (Py.truthy_list l) eqn:E1
  end; cbn [negb ClassificationResult.categories
            ClassificationResult.confidence].
  - destruct (sorted_categories_wellformed _ Ht E1) as (H1 & H2 & H3).
    split; [exact H1|]. split; [exact H2|]. split; [exact H3|].
    apply calculate_confidence_capped.
  - destruct (Hone ProductCategory.UNKNOWN) as (H1 & H2 & H3).
    repeat split; try assumption.
Qed.

Lemma classify_result_wellformed_witness :
  let r :=
    ProductClassifier.classify ProductClassifier._init_classification_rules
      "Profhilo Haenkenium Cream" in
  ClassificationResult.categories r <> []
  /\ NoDup (ClassificationResult.categories r)
  /\ Sorted by_value (ClassificationResult.categories r)
  /\ Float.ltb (Float.of_Z 1) (ClassificationResult.confidence r) = false.
Proof.
  apply (classify_result_wellformed
           ProductClassifier._init_classification_rules
           "Profhilo Haenkenium Cream").
  vm_compute. reflexivity.
Defined.

(* ------------------------------------------------------------------ *)
(** ** Adding a brand or a keyword pattern *)

Lemma brand_fold_dict_set (desc_lower : string)
    (table : list (string * ProductCategory.t)) (k : string)
    (category : ProductCategory.t) :
  Py.contains k desc_lower = false ->
  forall a,
    fold_left (ProductClassifier.brand_step desc_lower)
              (dict_set table k category) a
    = fold_left (ProductClassifier.brand_step desc_lower) table a.
Proof.
  intros Hk. induction table as [|[k' c'] r IH]; intros a;
    cbn [dict_set fold_left].
  - unfold ProductClassifier.brand_step. rewrite Hk. reflexivity.
  - destruct (String.eqb_spec k' k) as [-> | Hn]; cbn [fold_left].
    + unfold ProductClassifier.brand_step at 2 4. rewrite Hk. reflexivity.
    + apply IH.
Qed.

Lemma first_hit_snoc (desc_lower : string) (patterns : list string)
    (pattern : string) :
  Re.search pattern desc_lower = false ->
  ProductClassifier.first_hit desc_lower (patterns ++ [pattern])
  = ProductClassifier.first_hit desc_lower patterns.
Proof.
  intros H. induction patterns as [|p r IH];
    cbn [app ProductClassifier.first_hit].
  - rewrite H. reflexivity.
  - destruct (Re.search p desc_lower); [reflexivity | exact IH].
Qed.

Lemma keyword_fold_append_pattern (desc_lower : string)
    (table : list (ProductCategory.t * list string))
    (category : ProductCategory.t) (pattern : string) :
  Re.search pattern desc_lower = false ->
  forall a,
    fold_left (ProductClassifier.keyword_step desc_lower)
              (ClassifierUpdate.append_pattern table category pattern) a
    = fold_left (ProductClassifier.keyword_step desc_lower) table a.
Proof.
  intros Hp. induction table as [|[c ps] r IH]; intros a;
    cbn [ClassifierUpdate.append_pattern fold_left].
  - unfold ProductClassifier.keyword_step.
    cbn [app ProductClassifier.first_hit]. rewrite Hp. reflexivity.
  - destruct (ProductCategory.eqb c category); cbn [fold_left].
    + unfold ProductClassifier.keyword_step at 2 4.
      rewrite (first_hit_snoc _ _ _ Hp). reflexivity.
    + apply IH.
Qed.

Lemma extends_refl (a : ProductClassifier.acc) : extends a a.
Proof. split; auto. Qed.

Lemma extends_trans (a b c : ProductClassifier.acc) :
  extends a b -> extends b c -> extends a c.
Proof. intros [H1 H2] [H3 H4]. split; auto. Qed.

Lemma fold_add_keeps (cs : list ProductCategory.t) :
  forall set x, In x set -> In x (fold_left ProductCategory.add cs set).
Proof.
  induction cs as [|c r IH]; intros set x H; cbn [fold_left]; [exact H|].
  apply IH. apply category_add_In. left. exact H.
Qed.

Lemma fold_add_adds (cs : list ProductCategory.t) :
  forall set x, In x cs -> In x (fold_left ProductCategory.add cs set).
Proof.
  induction cs as [|c r IH]; intros set x H; cbn [fold_left];
    [contradiction|].
  destruct H as [<- | H]; [|apply IH; exact H].
  apply fold_add_keeps. apply category_add_In. right. reflexivity.
Qed.

Lemma record_extends (a : ProductClassifier.acc)
    (cs : list ProductCategory.t) (pattern reason : string) :
  extends a (ProductClassifier.record a cs pattern reason).
Proof.
  split; cbn [ProductClassifier.record ProductClassifier.matched_categories
              ProductClassifier.matched_patterns].
  - intros c. apply fold_add_keeps.
  - intros p H. apply in_app_iff. left. exact H.
Qed.

Lemma record_holds (a : ProductClassifier.acc)
    (cs : list ProductCategory.t) (pattern reason : string) :
  (forall c, In c cs ->
             In c (ProductClassifier.matched_categories
                     (ProductClassifier.record a cs pattern reason)))
  /\ In pattern (ProductClassifier.matched_patterns
                   (ProductClassifier.record a cs pattern reason)).
Proof.
  split; cbn [ProductClassifier.record ProductClassifier.matched_categories
              ProductClassifier.matched_patterns].
  - intros c. apply fold_add_adds.
  - apply in_app_iff. right. left. reflexivity.
Qed.

Lemma brand_step_extends (desc_lower : string) (a : ProductClassifier.acc)
    (rule : string * ProductCategory.t) :
  extends a (ProductClassifier.brand_step desc_lower a rule).
Proof.
  destruct rule as [b c]. unfold ProductClassifier.brand_step.
  destruct (Py.contains b desc_lower);
    [apply record_extends | apply extends_refl].
Qed.

Lemma keyword_step_extends (desc_lower : string) (a : ProductClassifier.acc)
    (rule : ProductCategory.t * list string) :
  extends a (ProductClassifier.keyword_step desc_lower a rule).
Proof.
  destruct rule as [c ps]. unfold ProductClassifier.keyword_step.
  destruct (ProductClassifier.first_hit desc_lower ps);
    [apply record_extends | apply extends_refl].
Qed.

Lemma fold_extends {B : Type}
    (f : ProductClassifier.acc -> B -> ProductClassifier.acc)
    (l : list B) :
  (forall a b, extends a (f a b)) ->
  forall a, extends a (fold_left f l a).
Proof.
  intros Hf. induction l as [|b r IH]; intros a; cbn [fold_left];
    [apply extends_refl|].
  apply (extends_trans _ (f a b)); [apply Hf | apply IH].
Qed.

Lemma brand_fold_hit (desc_lower : string)
    (table : list (string * ProductCategory.t)) (k : string)
    (category : ProductCategory.t) :
  Py.contains k desc_lower = true ->
  In (k, category) table ->
  forall a,
    let b := fold_left (ProductClassifier.brand_step desc_lower) table a in
    In category (ProductClassifier.matched_categories b)
    /\ In ("brand:" ++ k)%string (ProductClassifier.matched_patterns b).
Proof.
  intros Hk. induction table as [|rule r0 IH]; intros Hin a;
    [contradiction|].
  cbn [fold_left]. destruct Hin as [-> | Hin]; [|apply IH; exact Hin].
  cbv zeta.
  assert (ProductClassifier.brand_step desc_lower a (k, category)
          = ProductClassifier.record a [category] ("brand:" ++ k)%string
              ("Brand '" ++ k ++ "' -> "
                 ++ ProductCategory.value category)%string) as Ea.
  { unfold ProductClassifier.brand_step. rewrite Hk. reflexivity. }
  rewrite Ea.
  match goal with
  | |- context [ProductClassifier.record ?a ?cs ?p ?r] =>
      destruct (record_holds a cs p r) as [Hrc Hrp];
      destruct (fold_extends (ProductClassifier.brand_step desc_lower) r0
                  (brand_step_extends desc_lower)
                  (ProductClassifier.record a cs p r)) as [Hc Hp]
  end.
  split; [apply Hc; apply Hrc; left; reflexivity | apply Hp; exact Hrp].
Qed.

Lemma dict_set_In {A : Type} (d : list (string * A)) (k : string) (v : A) :
  In (k, v) (dict_set d k v).
Proof.
  induction d as [|[k' v'] r IH]; cbn [dict_set]; [left; reflexivity|].
  destruct (String.eqb_spec k' k) as [-> | Hn];
    [left; reflexivity | right; exact IH].
Qed.

Lemma special_cases_keeps (desc_lower : string) (a : ProductClassifier.acc) :
  (forall c, c <> ProductCategory.MEDICAL_DEVICES ->
             In c (ProductClassifier.matched_categories a) ->
             In c (ProductClassifier.matched_categories
                     (ProductClassifier.special_cases desc_lower a)))
  /\ ProductClassifier.matched_patterns
       (ProductClassifier.special_cases desc_lower a)
     = ProductClassifier.matched_patterns a.
Proof.
  unfold ProductClassifier.special_cases.
  repeat match goal with
         | |- context [if ?b then _ else _] => destruct b
         end; split; try reflexivity; try (intros c _ H; exact H).
  intros c Hc H.
  cbn [ProductClassifier.matched_categories]. unfold ProductCategory.discard.
  apply filter_In. split; [exact H|].
  apply negb_true_iff.
  destruct (ProductCategory.eqb c ProductCategory.MEDICAL_DEVICES) eqn:E;
    [|reflexivity].
  apply category_eqb_eq in E. contradiction.
Qed.

(** On rule tables of supported patterns, [add_brand] changes the
    classification of the descriptions that mention the brand, and of no
    other: a description that does not contain the brand in lower case is
    classified as before; a description that contains it and matches no
    verbatim label has the brand among its matched rules and its
    category, unless that is Medical Devices, among its categories. *)
Theorem add_brand_sound (self : ProductClassifier.t) (brand : string)
    (category : ProductCategory.t) (description : string) :
  rules_supported self = true ->
  let updated := ClassifierUpdate.add_brand self brand category in
  (Py.contains (Py.lower brand) (normalized description) = false ->
   ProductClassifier.classify updated description
   = ProductClassifier.classify self description)
  /\ (Py.truthy_str description = true ->
      Py.truthy_list
        (ProductClassifier.matched_categories
           (verbatim_acc self (normalized description))) = false ->
      Py.contains (Py.lower brand) (normalized description) = true ->
      In ("brand:" ++ Py.lower brand)%string
         (ClassificationResult.matched_patterns
            (ProductClassifier.classify updated description))
      /\ (category <> ProductCategory.MEDICAL_DEVICES ->
          In category
             (ClassificationResult.categories
                (ProductClassifier.classify updated description)))).
Proof.
  intros _. cbv zeta. unfold normalized, verbatim_acc. split.
  - intros Hk. unfold ProductClassifier.classify.
    cbn [ClassifierUpdate.add_brand ProductClassifier.verbatim_labels
         ProductClassifier.brand_categories
         ProductClassifier.keyword_patterns
         ProductClassifier.compound_rules].
    cbv zeta. rewrite (brand_fold_dict_set _ _ _ _ Hk). reflexivity.
  - intros Hd Hv Hk. unfold ProductClassifier.classify.
    cbn [ClassifierUpdate.add_brand ProductClassifier.verbatim_labels
         ProductClassifier.brand_categories
         ProductClassifier.keyword_patterns
         ProductClassifier.compound_rules].
    rewrite Hd. cbn [negb]. cbv zeta. rewrite Hv.
    match goal with
    | |- context [fold_left (ProductClassifier.brand_step ?dl) ?tbl ?a] =>
        destruct (brand_fold_hit dl tbl (Py.lower brand) category Hk
                    (dict_set_In _ _ _) a) as [Hc Hp];
        set (b := fold_left (ProductClassifier.brand_step dl) tbl a) in *
    end.
    cbv zeta in Hc, Hp.
    match goal with
    | |- context [fold_left (ProductClassifier.keyword_step ?dl) ?tbl b] =>
        destruct (fold_extends (ProductClassifier.keyword_step dl) tbl
                    (keyword_step_extends dl) b) as [Hkc Hkp];
        set (k := fold_left (ProductClassifier.keyword_step dl) tbl b) in *
    end.
    match goal with
    | |- context [ProductClassifier.special_cases ?dl k] =>
        destruct (special_cases_keeps dl k) as [Hsc Hsp];
        set (s := ProductClassifier.special_cases dl k) in *
    end.
    assert (In ("brand:" ++ Py.lower brand)%string
               (ProductClassifier.matched_patterns s)) as Hpat
      by (rewrite Hsp; apply Hkp; exact Hp).
    destruct (Py.truthy_list (ProductClassifier.matched_categories s))
      eqn:Es; cbn [negb ClassificationResult.matched_patterns
                   ClassificationResult.categories].
    + split; [exact Hpat|]. intros Hm.
      apply sorted_by_value_In. apply Hsc; [exact Hm|].
      apply Hkc. exact Hc.
    + split; [exact Hpat|]. intros Hm. exfalso.
      assert (In category (ProductClassifier.matched_categories s)) as Hin
        by (apply Hsc; [exact Hm | apply Hkc; exact Hc]).
      destruct (ProductClassifier.matched_categories s);
        [contradiction | discriminate Es].
Qed.

Lemma add_brand_sound_witness :
  let updated :=
    ClassifierUpdate.add_brand ProductClassifier._init_classification_rules
      "Teoxane" ProductCategory.SKINCARE_PRODUCTS in
  ProductClassifier.classify updated "Profhilo 2ml syringe"
  = ProductClassifier.classify ProductClassifier._init_classification_rules
      "Profhilo 2ml syringe"
  /\ In "brand:teoxane"
        (ClassificationResult.matched_patterns
           (ProductClassifier.classify updated "TEOXANE RHA night"))
  /\ In ProductCategory.SKINCARE_PRODUCTS
        (ClassificationResult.categories
           (ProductClassifier.classify updated "TEOXANE RHA night")).
Proof.
  pose proof (add_brand_sound ProductClassifier._init_classification_rules
                "Teoxane" ProductCategory.SKINCARE_PRODUCTS
                "Profhilo 2ml syringe" default_rules_supported) as H1.
  pose proof (add_brand_sound ProductClassifier._init_classification_rules
                "Teoxane" ProductCategory.SKINCARE_PRODUCTS
                "TEOXANE RHA night" default_rules_supported) as H2.
  cbv zeta in *. destruct H1 as [H1 _]. destruct H2 as [_ H2].
  split.
  - apply H1. vm_compute. reflexivity.
  - destruct H2 as [Hp Hc]; try (vm_compute; reflexivity).
    split; [exact Hp | apply Hc; discriminate].
Defined.

(** On rule tables of supported patterns, [add_keyword_pattern] with a
    supported pattern leaves alone every description in which the new
    pattern is not found: it is classified as before. *)
Theorem add_keyword_pattern_frame (self : ProductClassifier.t)
    (category : ProductCategory.t) (pattern description : string) :
  rules_supported self = true ->
  Re.supported pattern = true ->
  Re.search pattern (normalized description) = false ->
  ProductClassifier.classify
    (ClassifierUpdate.add_keyword_pattern self category pattern) description
  = ProductClassifier.classify self description.
Proof.
  intros _ _ Hp. unfold normalized in Hp. unfold ProductClassifier.classify.
  cbn [ClassifierUpdate.add_keyword_pattern
       ProductClassifier.verbatim_labels ProductClassifier.brand_categories
       ProductClassifier.keyword_patterns ProductClassifier.compound_rules].
  cbv zeta. rewrite (keyword_fold_append_pattern _ _ _ _ Hp). reflexivity.
Qed.

Lemma add_keyword_pattern_frame_witness :
  ProductClassifier.classify
    (ClassifierUpdate.add_keyword_pattern
       ProductClassifier._init_classification_rules
       ProductCategory.MEDICAL_DEVICES "\bcannula\b")
    "Heliocare sunscreen SPF 50"
  = ProductClassifier.classify ProductClassifier._init_classification_rules
      "Heliocare sunscreen SPF 50".
Proof.
  apply (add_keyword_pattern_frame
           ProductClassifier._init_classification_rules
           ProductCategory.MEDICAL_DEVICES "\bcannula\b"
           "Heliocare sunscreen SPF 50");
    vm_compute; reflexivity.
Defined.

(* ------------------------------------------------------------------ *)
(** ** The brand codes of a page *)

Lemma isalpha_upper_char (c : ascii) :
  PyText.isascii_char c = true ->
  Py.isalpha c = true -> Py.isupper (PyText.upper_char c) = true.
Proof. by_all_chars c. Qed.

Lemma isupper_isalpha (c : ascii) :
  Py.isupper c = true -> Py.isalpha c = true.
Proof. by_all_chars c. Qed.

Lemma isupper_upper_char (c : ascii) :
  Py.isupper c = true -> PyText.upper_char c = c.
Proof. by_all_chars c. Qed.

Lemma isupper_not_space (c : ascii) :
  Py.isupper c = true -> Py.isspace c = false.
Proof. by_all_chars c. Qed.

Lemma upper_length (s : string) :
  String.length (PyText.upper s) = String.length s.
Proof.
  induction s as [|c r IH]; cbn [PyText.upper String.length];
    [reflexivity|].
  rewrite IH. reflexivity.
Qed.

Lemma isalpha_upper (s : string) :
  PyText.isascii s = true ->
  PyText.all_chars Py.isalpha s = true ->
  PyText.all_chars Py.isupper (PyText.upper s) = true.
Proof.
  unfold PyText.isascii.
  induction s as [|c r IH]; cbn [PyText.upper PyText.all_chars];
    [reflexivity|].
  intros Ha H. apply andb_true_iff in Ha. destruct Ha as [Hac Har].
  apply andb_true_iff in H. destruct H as [Hc Hr].
  rewrite (isalpha_upper_char c Hac Hc), (IH Har Hr). reflexivity.
Qed.

Lemma lstrip_all_chars (p : ascii -> bool) (s : string) :
  PyText.all_chars p s = true -> PyText.all_chars p (Py.lstrip s) = true.
Proof.
  induction s as [|c r IH]; cbn [Py.lstrip]; [reflexivity|].
  intros H. destruct (Py.isspace c); [|exact H].
  cbn [PyText.all_chars] in H. apply andb_true_iff in H.
  apply IH. exact (proj2 H).
Qed.

Lemma rstrip_all_chars (p : ascii -> bool) (s : string) :
  PyText.all_chars p s = true -> PyText.all_chars p (Py.rstrip s) = true.
Proof.
  induction s as [|c r IH]; cbn [Py.rstrip PyText.all_chars];
    [reflexivity|].
  intros H. apply andb_true_iff in H. destruct H as [Hc Hr].
  specialize (IH Hr).
  destruct (Py.rstrip r) as [|c' r'].
  - destruct (Py.isspace c); [reflexivity|].
    cbn [PyText.all_chars]. rewrite Hc. reflexivity.
  - cbn [PyText.all_chars] in *. rewrite Hc, IH. reflexivity.
Qed.

Lemma strip_all_chars (p : ascii -> bool) (s : string) :
  PyText.all_chars p s = true -> PyText.all_chars p (Py.strip s) = true.
Proof.
  intros H. unfold Py.strip. apply rstrip_all_chars, lstrip_all_chars.
  exact H.
Qed.

Lemma isupper_upper (s : string) :
  PyText.all_chars Py.isupper s = true -> PyText.upper s = s.
Proof.
  induction s as [|c r IH]; cbn [PyText.upper PyText.all_chars];
    [reflexivity|].
  intros H. apply andb_true_iff in H. destruct H as [Hc Hr].
  rewrite (isupper_upper_char c Hc), (IH Hr). reflexivity.
Qed.

Lemma isupper_strip (s : string) :
  PyText.all_chars Py.isupper s = true -> Py.strip s = s.
Proof.
  intros H. unfold Py.strip.
  assert (Py.lstrip s = s) as ->.
  { apply lstrip_fixed. destruct s as [|c r]; [exact I|].
    cbn [PyText.all_chars] in H. apply andb_true_iff in H.
    apply isupper_not_space. exact (proj1 H). }
  induction s as [|c r IH]; cbn [Py.rstrip]; [reflexivity|].
  cbn [PyText.all_chars] in H. apply andb_true_iff in H.
  destruct H as [Hc Hr]. rewrite (IH Hr).
  destruct r; [|reflexivity].
  rewrite (isupper_not_space c Hc). reflexivity.
Qed.

Lemma valid_code_shape (s : string) (c : string) :
  PyText.isascii s = true ->
  In c (InboundResponse.valid_code (JStr s)) ->
  String.length c = 3%nat /\ PyText.all_chars Py.isupper c = true.
Proof.
  intros Hs. unfold InboundResponse.valid_code.
  destruct ((String.length (Py.strip s) =? 3)%nat
            && PyText.str_isalpha (Py.strip s)) eqn:E; [|contradiction].
  intros [<- | []].
  apply andb_true_iff in E. destruct E as [El Ea].
  apply Nat.eqb_eq in El.
  unfold PyText.str_isalpha in Ea. apply andb_true_iff in Ea.
  rewrite upper_length. split; [exact El|].
  apply isalpha_upper; [|exact (proj2 Ea)].
  apply strip_all_chars. exact Hs.
Qed.

(** From a list whose strings are ASCII text, [_parse_inbound_response]
    keeps as brand codes only strings of three capital letters, none of
    them twice; every other entry is dropped, and an entry that is three
    capital letters already is kept as it is. *)
Theorem brand_codes_of_list_valid (l : list json) :
  (forall s, In (JStr s) l -> PyText.isascii s = true) ->
  let codes := InboundResponse.brand_codes_of (JList l) in
  NoDup codes
  /\ (forall c, In c codes ->
                String.length c = 3%nat
                /\ PyText.all_chars Py.isupper c = true)
  /\ (forall c, In (JStr c) l ->
                String.length c = 3%nat ->
                PyText.all_chars Py.isupper c = true ->
                In c codes).
Proof.
  intros Hascii. cbv zeta. cbn [InboundResponse.brand_codes_of].
  split; [apply dedup_NoDup|]. split.
  - intros c H. apply (proj1 (dedup_In _ _)) in H.
    apply in_flat_map in H. destruct H as (code & Hin & Hc).
    destruct code as [| | | |s| |]; try contradiction.
    exact (valid_code_shape s c (Hascii s Hin) Hc).
  - intros c Hin Hl Hu. apply dedup_In. apply in_flat_map.
    exists (JStr c). split; [exact Hin|].
    unfold InboundResponse.valid_code.
    rewrite (isupper_strip c Hu), (isupper_upper c Hu), Hl.
    unfold PyText.str_isalpha.
    assert (PyText.all_chars Py.isalpha c = true) as Ha.
    { apply (all_chars_weaken Py.isupper); [|exact Hu].
      exact isupper_isalpha. }
    rewrite Ha.
    destruct c; [discriminate Hl|]. left. reflexivity.
Qed.

Lemma brand_codes_of_list_valid_witness :
  let codes := InboundResponse.brand_codes_of (JList sample_brand_codes) in
  NoDup codes
  /\ (forall c, In c codes ->
                String.length c = 3%nat
                /\ PyText.all_chars Py.isupper c = true)
  /\ (forall c, In (JStr c) sample_brand_codes ->
                String.length c = 3%nat ->
                PyText.all_chars Py.isupper c = true ->
                In c codes).
Proof.
  apply (brand_codes_of_list_valid sample_brand_codes).
  intros s H. cbn in H.
  destruct H as [H | [H | [H | [H | [H | []]]]]];
    first [discriminate H | injection H as <-; reflexivity].
Defined.

(* ------------------------------------------------------------------ *)
(** ** The one error of an outbound record *)

Lemma outbound_has_error (s : OutboundShipment.t) :
  has_error (OutboundShipment.issues_of s)
  = negb (Py.truthy_str (OutboundShipment.invoice_number s)).
Proof.
  unfold OutboundShipment.issues_of.
  destruct (negb (Py.truthy_str (OutboundShipment.invoice_number s)));
    destruct (negb (Py.truthy_ostr (OutboundShipment.currency s)));
    destruct (OutboundShipment.value_missing_or_invalid
                (OutboundShipment.value s));
    reflexivity.
Qed.

Lemma extract_itr_number_truthy (text out : string) :
  Normalize.extract_itr_number text = Some out ->
  Py.truthy_str out = true.
Proof.
  intros H. destruct (extract_itr_found text out H) as (s & Hs).
  destruct (at_itr_shape s out Hs) as (number & _ & _ & [-> | ->]);
    reflexivity.
Qed.

(** Only a missing invoice number blocks an outbound record, and a
    created record has one whenever its file has a name: [validate]
    reports an issue of severity ERROR exactly when the invoice number is
    empty, and on the record that [_create_outbound_shipment] builds it
    does so exactly when the filename is empty, whatever the invoice and
    the waybill hold. *)
Theorem outbound_blocked_only_without_invoice_number
    (classifier : ProductClassifier.t) (filename : string)
    (inv_result awb_result : option ExtractionResult.t) :
  (forall s,
      has_error (fst (OutboundShipment.validate s))
      = negb (Py.truthy_str (OutboundShipment.invoice_number s)))
  /\ (has_error
        (fst (OutboundShipment.validate
                (OutboundPipeline._create_outbound_shipment
                   classifier filename inv_result awb_result))) = true
      <-> filename = EmptyString).
Proof.
  split.
  - intros s. cbn [OutboundShipment.validate fst].
    apply outbound_has_error.
  - cbn [OutboundShipment.validate fst]. rewrite outbound_has_error.
    unfold OutboundPipeline._create_outbound_shipment.
    cbn [OutboundShipment.invoice_number].
    destruct (Normalize.extract_itr_number filename) as [n|] eqn:E.
    + pose proof (extract_itr_number_truthy _ _ E) as Hn.
      cbn [Py.truthy_ostr]. rewrite Hn. cbn [negb]. rewrite Hn.
      split; [discriminate|]. intros ->. discriminate E.
    + cbn [Py.truthy_ostr]. destruct filename; cbn; split;
        first [reflexivity | discriminate | intros _; reflexivity].
Qed.
